(** * freedom: progress widgets over date ranges

    A shallow embedding of the two pages of the repository,

    - the dashboard, [src/app/page.tsx] ([items], [clamp], [normalizeRange],
      [ProgressBar], [Home]), and
    - the share page, [src/unnamed/part_000] ([items], [calculateDateDiffInDays],
      [calculateTimeLeft], [calculateProgress], [resolveRange],
      [generateMetadata], [SharePage]),

    together with the parts of the ECMAScript run time they call: the time
    values and calendar functions of [Date], property lookup on an object
    literal, and the [Math] functions.

    Conventions of the embedding.

    - A [Date] is its time value: milliseconds since the epoch, an integer.
      Every quantity that is an integer by construction (differences,
      minima and maxima of time values) stays in [Z].
      Time values are at most 8.64e15 in magnitude; a difference of two of
      them is exact in binary64 as long as it is at most 2^53, which holds
      of every difference between a time value and a date of the
      registries.
    - A JavaScript number that comes out of a division or a product is a
      [number]: a rational, or one of the three non-finite values.  The
      percentage is computed as the machine computes it, in binary64:
      [fdiv] and [fmul] round the exact result to the nearest double, ties
      to the even one ([Binary64.round64]), and a finite [number] that they
      return is that double.  The quotients of the time left are integers
      divided by the length of a unit, and go to [Math.ceil] or
      [Math.round] at once: they are taken exact ([div]), which gives the
      numbers that the code computes on doubles as long as less than 2^53
      milliseconds are left (last section).
    - [Machine] repeats the computation of the percentage on the doubles of
      the machine, to compare the model with them on given inputs.
    - The wall clock ([Date.now()], [new Date()]) is an explicit argument.
    - The local time zone is a parameter [LocalTZA] of the development, as
      in the ECMAScript specification. *)

From Stdlib Require Import ZArith QArith Qround Qabs Qpower Bool List.
From Stdlib Require Import String Ascii Lia Lqa DecimalString.
From Stdlib Require PrimFloat Uint63 FloatOps SpecFloat.
Import ListNotations.

Local Open Scope Z_scope.

(* ================================================================= *)
(** ** Rounding to binary64 *)

(** The doubles are the rationals [m * 2^e] with [|m| < 2^53] and
    [-1074 <= e], up to 2^1024.  An operation of the machine returns the
    double nearest to its exact result. *)
Module Binary64.

(** The exponent of the least positive double. *)
Definition emin : Z := -1074.

(** For a positive [x], the integer [f] with [2^f <= x < 2^(f+1)]. *)
Definition flog2 (x : Q) : Z :=
  let l := Z.log2 (Qnum x) - Z.log2 (Z.pos (Qden x)) in
  if Qle_bool (2 ^ l) x then l else l - 1.

(** The exponent of the last place of the doubles around [x]: 53 bits from
    the first one, and never below [emin]. *)
Definition exponent (x : Q) : Z := Z.max (flog2 (Qabs x) - 52) emin.

(** The integer nearest to [q]; of two that are as near, the even one. *)
Definition nearestEven (q : Q) : Z :=
  let f := Qfloor q in
  match (q - inject_Z f ?= 1 # 2)%Q with
  | Lt => f
  | Gt => f + 1
  | Eq => if Z.even f then f else f + 1
  end.

(** The double nearest to [x], in lowest terms.  The exponent is not
    bounded above here: see [overflow]. *)
Definition round64 (x : Q) : Q :=
  let e := exponent x in
  Qred (inject_Z (nearestEven (x / 2 ^ e)) * 2 ^ e).

(** A rounded result of this magnitude or more is an infinity. *)
Definition overflow : Q := (2 ^ 1024)%Q.

(** Half the distance from 1 to the next double, and half the least
    positive double: [round64 x] is at most [x * eps + tiny] away from a
    positive [x]. *)
Definition eps : Q := (2 ^ (-53))%Q.
Definition tiny : Q := (2 ^ (-1075))%Q.

(** The two roundings of the percentage, before [Math.round], move a
    number of thousandths by at most [eta]. *)
Definition eta : Q := (2000 * eps + 1001 * tiny)%Q.

(** [Math.round(elapsed / total * 1000)], the quotient and the product
    rounded as the machine does, for [0 <= elapsed <= total], [0 < total]. *)
Definition perMille64 (elapsed total : Z) : Z :=
  Qfloor (round64 (round64 (inject_Z elapsed / inject_Z total) * 1000)
          + (1 # 2)).

(** The double [k / 10]. *)
Definition tenths64 (k : Z) : Q := round64 (inject_Z k / 10).

End Binary64.

Import Binary64.

(* ================================================================= *)
(** ** JavaScript numbers *)

Module Num.

(** Finite values are kept in lowest terms, so that equal numbers are equal
    terms. *)
Inductive number : Type :=
| Fin (q : Q)
| PosInf
| NegInf
| NaN.

Definition of_Z (z : Z) : number := Fin (inject_Z z).

(** The double nearest to [x], the exact result of an operation on finite
    numbers. *)
Definition fin64 (x : Q) : number :=
  let r := round64 x in
  if Qle_bool overflow (Qabs r) then
    (if Qle_bool 0 r then PosInf else NegInf)
  else Fin r.

(** [a / b].  Division by zero is not a fault in JavaScript: it yields
    [NaN] or an infinity. *)
Definition fdiv (a b : number) : number :=
  match a, b with
  | Fin x, Fin y =>
      if Qeq_bool y 0 then
        (if Qeq_bool x 0 then NaN
         else if Qle_bool 0 x then PosInf else NegInf)
      else fin64 (x / y)
  | Fin _, (PosInf | NegInf) => Fin 0
  | PosInf, Fin y => if Qle_bool 0 y then PosInf else NegInf
  | NegInf, Fin y => if Qle_bool 0 y then NegInf else PosInf
  | _, _ => NaN
  end.

(** [a / b] without the rounding, for the quotient of an integer by the
    length of a unit that [Math.ceil] or [Math.round] takes at once. *)
Definition div (a b : number) : number :=
  match a, b with
  | Fin x, Fin y =>
      if Qeq_bool y 0 then
        (if Qeq_bool x 0 then NaN
         else if Qle_bool 0 x then PosInf else NegInf)
      else Fin (Qred (x / y))
  | Fin _, (PosInf | NegInf) => Fin 0
  | PosInf, Fin y => if Qle_bool 0 y then PosInf else NegInf
  | NegInf, Fin y => if Qle_bool 0 y then NegInf else PosInf
  | _, _ => NaN
  end.

(** [a * b]. *)
Definition fmul (a b : number) : number :=
  match a, b with
  | Fin x, Fin y => fin64 (x * y)
  | NaN, _ | _, NaN => NaN
  | Fin x, PosInf | PosInf, Fin x =>
      if Qeq_bool x 0 then NaN else if Qle_bool 0 x then PosInf else NegInf
  | Fin x, NegInf | NegInf, Fin x =>
      if Qeq_bool x 0 then NaN else if Qle_bool 0 x then NegInf else PosInf
  | PosInf, PosInf | NegInf, NegInf => PosInf
  | PosInf, NegInf | NegInf, PosInf => NegInf
  end.

(** [Math.round(x)]: the nearest integer, a tie going towards +infinity. *)
Definition Math_round (x : number) : number :=
  match x with
  | Fin q => of_Z (Qfloor (q + (1 # 2)))
  | other => other
  end.

(** [Math.ceil(x)]. *)
Definition Math_ceil (x : number) : number :=
  match x with
  | Fin q => of_Z (Qceiling q)
  | other => other
  end.

(** [Math.max(a, b)]. *)
Definition Math_max (a b : number) : number :=
  match a, b with
  | NaN, _ | _, NaN => NaN
  | PosInf, _ | _, PosInf => PosInf
  | NegInf, y => y
  | x, NegInf => x
  | Fin x, Fin y => if Qle_bool x y then Fin y else Fin x
  end.

(** The finite numbers between two bounds. *)
Definition between (lo hi : Q) (x : number) : Prop :=
  match x with
  | Fin q => (lo <= q /\ q <= hi)%Q
  | _ => False
  end.

(** The order on finite numbers. *)
Definition le (x y : number) : Prop :=
  match x, y with
  | Fin p, Fin q => (p <= q)%Q
  | _, _ => False
  end.

(** [String(x)] for the values this program converts: the integers and the
    non-finite values.  A fraction is printed as its integer part, a point,
    and the digits of its expansion, at most seventeen of them. *)
Definition digits_of_Z (z : Z) : string :=
  NilZero.string_of_int (Z.to_int z).

Fixpoint fraction_digits (fuel : nat) (num den : Z) : string :=
  match fuel with
  | O => EmptyString
  | S fuel' =>
      if num =? 0 then EmptyString
      else String.append (digits_of_Z ((10 * num) / den))
                         (fraction_digits fuel' ((10 * num) mod den) den)
  end.

Definition toString (x : number) : string :=
  match x with
  | NaN => "NaN"%string
  | PosInf => "Infinity"%string
  | NegInf => "-Infinity"%string
  | Fin q =>
      let n := Qnum q in
      let d := Z.pos (Qden q) in
      if n mod d =? 0 then digits_of_Z (n / d)
      else String.concat EmptyString
             [ if n <? 0 then "-"%string else EmptyString;
               digits_of_Z (Z.abs n / d); "."%string;
               fraction_digits 17 (Z.abs n mod d) d ]
  end.

End Num.

Import Num.

(* ================================================================= *)
(** ** Time values and the calendar (ECMAScript, Date objects) *)

Module Calendar.

Definition msPerSecond : Z := 1000.
Definition msPerMinute : Z := 60000.
Definition msPerHour : Z := 3600000.
Definition msPerDay : Z := 86400000.

(** [Day(t)] and [TimeWithinDay(t)]. *)
Definition Day (t : Z) : Z := t / msPerDay.
Definition TimeWithinDay (t : Z) : Z := t mod msPerDay.

(** [DaysInYear(y)]. *)
Definition leap (y : Z) : bool :=
  if negb (y mod 4 =? 0) then false
  else if negb (y mod 100 =? 0) then true
  else if negb (y mod 400 =? 0) then false
  else true.

Definition DaysInYear (y : Z) : Z := if leap y then 366 else 365.

(** [DayFromYear(y)]: the day number of the first day of year [y]. *)
Definition DayFromYear (y : Z) : Z :=
  365 * (y - 1970) + (y - 1969) / 4 - (y - 1901) / 100 + (y - 1601) / 400.

Definition TimeFromYear (y : Z) : Z := msPerDay * DayFromYear y.

(** [YearFromTime(t)]: the largest [y] with [TimeFromYear(y) <= t].  It is
    computed by counting whole cycles of 400, 100, 4 and 1 years from the
    first of January 1601, which is day -134774. *)
Definition YearFromDay (d : Z) : Z :=
  let n := d + 134774 in
  let c400 := n / 146097 in
  let r400 := n mod 146097 in
  let c100 := Z.min (r400 / 36524) 3 in
  let r100 := r400 - 36524 * c100 in
  let c4 := r100 / 1461 in
  let r4 := r100 mod 1461 in
  let c1 := Z.min (r4 / 365) 3 in
  1601 + 400 * c400 + 100 * c100 + 4 * c4 + c1.

Definition YearFromTime (t : Z) : Z := YearFromDay (Day t).

(** [InLeapYear(t)], as 0 or 1. *)
Definition InLeapYear (t : Z) : Z :=
  if leap (YearFromTime t) then 1 else 0.

Definition DayWithinYear (t : Z) : Z :=
  Day t - DayFromYear (YearFromTime t).

(** [MonthFromTime(t)]: 0 is January. *)
Definition MonthFromTime (t : Z) : Z :=
  let d := DayWithinYear t in
  let l := InLeapYear t in
  if d <? 31 then 0
  else if d <? 59 + l then 1
  else if d <? 90 + l then 2
  else if d <? 120 + l then 3
  else if d <? 151 + l then 4
  else if d <? 181 + l then 5
  else if d <? 212 + l then 6
  else if d <? 243 + l then 7
  else if d <? 273 + l then 8
  else if d <? 304 + l then 9
  else if d <? 334 + l then 10
  else 11.

(** [DateFromTime(t)]: the day of the month, from 1. *)
Definition DateFromTime (t : Z) : Z :=
  let d := DayWithinYear t in
  let l := InLeapYear t in
  match MonthFromTime t with
  | 0 => d + 1
  | 1 => d - 30
  | 2 => d - 58 - l
  | 3 => d - 89 - l
  | 4 => d - 119 - l
  | 5 => d - 150 - l
  | 6 => d - 180 - l
  | 7 => d - 211 - l
  | 8 => d - 242 - l
  | 9 => d - 272 - l
  | 10 => d - 303 - l
  | _ => d - 333 - l
  end.

(** [MakeTime(hour, min, sec, ms)]. *)
Definition MakeTime (hour min sec ms : Z) : Z :=
  hour * msPerHour + min * msPerMinute + sec * msPerSecond + ms.

(** The number of days of a year before its month [m]. *)
Definition daysBeforeMonth (l : Z) (m : Z) : Z :=
  match m with
  | 0 => 0
  | 1 => 31
  | 2 => 59 + l
  | 3 => 90 + l
  | 4 => 120 + l
  | 5 => 151 + l
  | 6 => 181 + l
  | 7 => 212 + l
  | 8 => 243 + l
  | 9 => 273 + l
  | 10 => 304 + l
  | _ => 334 + l
  end.

(** [MakeDay(year, month, date)]: the day number of the first of the month
    [month mod 12] of the year [year + month / 12], plus [date - 1]. *)
Definition MakeDay (year month date : Z) : Z :=
  let ym := year + month / 12 in
  let mn := month mod 12 in
  DayFromYear ym + daysBeforeMonth (if leap ym then 1 else 0) mn + date - 1.

(** [MakeDate(day, time)]. *)
Definition MakeDate (day time : Z) : Z := day * msPerDay + time.

(** A year argument from 0 to 99 means 1900 + year. *)
Definition fullYear (y : Z) : Z :=
  if (0 <=? y) && (y <=? 99) then 1900 + y else y.

(** [Date.UTC(year, month, date)]. *)
Definition Date_UTC (year month date : Z) : Z :=
  MakeDate (MakeDay (fullYear year) month date) (MakeTime 0 0 0 0).

End Calendar.

Import Calendar.

(** A [Date] object is its time value.  All the dates of this program are
    valid, and far inside the range that [TimeClip] leaves unchanged. *)
Definition Date : Type := Z.

Module JSDate.
Section Zone.

(** [LocalTZA(t, isUTC)]: the offset of local time from UTC in
    milliseconds, at the UTC instant [t] when [isUTC] holds and at the local
    time [t] otherwise. *)
Variable LocalTZA : Z -> bool -> Z.

Definition LocalTime (t : Z) : Z := t + LocalTZA t true.
Definition UTC (t : Z) : Z := t - LocalTZA t false.

(** [new Date(year, month, date, hours, minutes)], read in local time. *)
Definition new_Date (year month date hours minutes : Z) : Date :=
  UTC (MakeDate (MakeDay (fullYear year) month date)
                (MakeTime hours minutes 0 0)).

(** [new Date(year, month, date)]. *)
Definition new_Date3 (year month date : Z) : Date :=
  new_Date year month date 0 0.

Definition getTime (d : Date) : Z := d.
Definition getFullYear (d : Date) : Z := YearFromTime (LocalTime d).
Definition getMonth (d : Date) : Z := MonthFromTime (LocalTime d).
Definition getDate (d : Date) : Z := DateFromTime (LocalTime d).

End Zone.

(** A zone at a fixed offset from UTC, and UTC itself. *)
Definition fixedZone (offset : Z) : Z -> bool -> Z := fun _ _ => offset.
Definition utcZone : Z -> bool -> Z := fixedZone 0.

(** A zone with daylight saving: five hours behind UTC, four between
    2026-03-08T07:00Z and 2026-11-01T06:00Z and between 2027-03-14T07:00Z
    and 2027-11-07T06:00Z (the rule of the east coast of North America,
    for the two years the ranges of this program reach). *)
Definition easternZone : Z -> bool -> Z := fun t isUTC =>
  let u := if isUTC then t else t + 5 * msPerHour in
  if ((1772953200000 <=? u) && (u <? 1793512800000))
     || ((1805007600000 <=? u) && (u <? 1825567200000))
  then - (4 * msPerHour) else - (5 * msPerHour).

End JSDate.

Import JSDate.

(* ================================================================= *)
(** ** Formatting for the locale [en-US] *)

Module Intl.

(** The short names of the months, 0 being January. *)
Definition monthShort (m : Z) : string :=
  match m with
  | 0 => "Jan" | 1 => "Feb" | 2 => "Mar" | 3 => "Apr"
  | 4 => "May" | 5 => "Jun" | 6 => "Jul" | 7 => "Aug"
  | 8 => "Sep" | 9 => "Oct" | 10 => "Nov" | _ => "Dec"
  end.

(** The year as the pattern prints it: the year of the era, so that the
    year 0 is 1 (before the common era) and the year -1 is 2. *)
Definition yearOfEra (y : Z) : Z := if 1 <=? y then y else 1 - y.

(** [new Intl.DateTimeFormat("en-US", { month: "short", day: "numeric",
    year: "numeric" }).format(date)], in the local time zone: the short
    month, the day, a comma, the year. *)
Definition DateTimeFormat_format (LocalTZA : Z -> bool -> Z) (d : Date)
  : string :=
  String.concat EmptyString
    [ monthShort (getMonth LocalTZA d); " "%string;
      digits_of_Z (getDate LocalTZA d); ", "%string;
      digits_of_Z (yearOfEra (getFullYear LocalTZA d)) ].

(** Grouping: a comma before every group of three characters, counted from
    the right.  [insertCommas n] works on the reversed text, [n] being the
    number of characters still to pass before the next comma. *)
Fixpoint insertCommas (n : nat) (reversed : list ascii) : list ascii :=
  match reversed with
  | [] => []
  | c :: rest =>
      match n with
      | O => ","%char :: c :: insertCommas 2 rest
      | S n' => c :: insertCommas n' rest
      end
  end.

Definition group (digits : string) : string :=
  string_of_list_ascii
    (rev (insertCommas 3 (rev (list_ascii_of_string digits)))).

(** The digits after the point, for a number of thousandths from 1 to 999:
    three digits, the zeros at the end dropped. *)
Definition fractionText (thousandths : Z) : string :=
  let d1 := digits_of_Z (thousandths / 100) in
  let d2 := digits_of_Z ((thousandths / 10) mod 10) in
  let d3 := digits_of_Z (thousandths mod 10) in
  if negb (thousandths mod 10 =? 0) then String.concat EmptyString [d1; d2; d3]
  else if negb ((thousandths / 10) mod 10 =? 0)
       then String.concat EmptyString [d1; d2]
       else d1.

(** The sign of infinity, in UTF-8. *)
Definition infinitySign : string :=
  String (ascii_of_nat 226) (String (ascii_of_nat 136)
    (String (ascii_of_nat 158) EmptyString)).

(** [x.toLocaleString("en-US")]: at most three digits after the point, a
    half rounded away from zero, the integer part grouped by thousands. *)
Definition Number_toLocaleString (x : number) : string :=
  match x with
  | NaN => "NaN"%string
  | PosInf => infinitySign
  | NegInf => String "-" infinitySign
  | Fin q =>
      let thousandths := Qfloor (Qabs q * 1000 + (1 # 2)) in
      String.concat EmptyString
        [ if Qle_bool 0 q then EmptyString else "-"%string;
          group (digits_of_Z (thousandths / 1000));
          if thousandths mod 1000 =? 0 then EmptyString
          else String "." (fractionText (thousandths mod 1000)) ]
  end.

End Intl.

(* ================================================================= *)
(** ** The dashboard: [src/app/page.tsx] *)

Module Dashboard.

Record ProgressItem : Type := {
  id : string;
  title : string;
  start : Date;
  end_ : Date;
  accent : string
}.

Section Zone.
Variable LocalTZA : Z -> bool -> Z.

Definition items : list ProgressItem :=
  [ {| id := "semester";
       title := "Semester progress";
       start := new_Date3 LocalTZA 2025 8 2;
       end_ := new_Date3 LocalTZA 2026 1 2;
       accent := "var(--accent-lilac)" |};
    {| id := "school-year";
       title := "School year progress";
       start := new_Date3 LocalTZA 2025 8 2;
       end_ := new_Date3 LocalTZA 2025 5 24;
       accent := "var(--accent-sky)" |};
    {| id := "high-school";
       title := "High school progress";
       start := new_Date3 LocalTZA 2023 8 5;
       end_ := new_Date3 LocalTZA 2027 5 25;
       accent := "var(--accent-mint)" |} ].

End Zone.

Definition clamp (value min max : Z) : Z :=
  Z.min (Z.max value min) max.

Record Range : Type := { r_start : Z; r_end : Z }.

Definition normalizeRange (start end_ : Z) : Range :=
  if end_ <=? start then {| r_start := end_; r_end := start |}
  else {| r_start := start; r_end := end_ |}.

Definition formatDate (LocalTZA : Z -> bool -> Z) (date : Date) : string :=
  Intl.DateTimeFormat_format LocalTZA date.

(** What a card shows of its computation. *)
Record Card : Type := {
  percent : number;
  daysLeft : number
}.

Definition ProgressBar (item : ProgressItem) (now : Z) : Card :=
  let startMs := getTime (start item) in
  let endMs := getTime (end_ item) in
  let normalized := normalizeRange startMs endMs in
  let total := r_end normalized - r_start normalized in
  let elapsed := clamp (now - r_start normalized) 0 total in
  let ratio :=
    if total =? 0 then of_Z 0 else fdiv (of_Z elapsed) (of_Z total) in
  let percent := fdiv (Math_round (fmul ratio (of_Z 1000))) (of_Z 10) in
  let daysLeft :=
    Math_max (of_Z 0)
      (Math_ceil (div (of_Z (r_end normalized - now))
                      (of_Z (1000 * 60 * 60 * 24)))) in
  {| percent := percent; daysLeft := daysLeft |}.

(** The two dates a card prints under its title: those of the entry as it
    is written, not the normalized ones. *)
Definition cardDates (LocalTZA : Z -> bool -> Z) (item : ProgressItem)
  : string * string :=
  (formatDate LocalTZA (start item), formatDate LocalTZA (end_ item)).

(** [Home] shows one card per entry, all computed at the one [now] the
    component holds in its state. *)
Definition Home (LocalTZA : Z -> bool -> Z) (now : Z)
  : list (ProgressItem * Card) :=
  map (fun item => (item, ProgressBar item now)) (items LocalTZA).

(** The entry of a given id. *)
Definition entry (LocalTZA : Z -> bool -> Z) (name : string)
  : option ProgressItem :=
  find (fun item => String.eqb (id item) name) (items LocalTZA).

End Dashboard.

(* ================================================================= *)
(** ** The share page: [src/unnamed/part_000] *)

Module Share.

(** [type Unit = "days" | "hours" | "seconds"]. *)
Inductive Unit : Type := days | hours | seconds.

Definition unitName (u : Unit) : string :=
  match u with
  | days => "days"
  | hours => "hours"
  | seconds => "seconds"
  end.

(** [["days", "hours", "seconds"].includes(unit)], with the unit it names. *)
Definition asUnit (s : string) : option Unit :=
  if String.eqb s "days" then Some days
  else if String.eqb s "hours" then Some hours
  else if String.eqb s "seconds" then Some seconds
  else None.

Definition MS_PER_DAY : Z := 24 * 60 * 60 * 1000.

(** A range as [resolveRange] returns it; [None] is [undefined]. *)
Record Range : Type := {
  start : option Date;
  end_ : option Date
}.

Record Item : Type := {
  title : string;
  accent : string;
  item_start : option Date;
  item_end : option Date;
  getRange : option (Z -> Range)
}.

(** What [items[target]] evaluates to: an entry of the registry, a member
    that the object literal inherits from [Object.prototype], or
    [undefined]. *)
Inductive value : Type :=
| VItem (i : Item)
| VInherited (name : string)
| VUndefined.

(** The properties of [Object.prototype]. *)
Definition Object_prototype : list string :=
  [ "constructor"; "__defineGetter__"; "__defineSetter__"; "hasOwnProperty";
    "__lookupGetter__"; "__lookupSetter__"; "isPrototypeOf";
    "propertyIsEnumerable"; "toString"; "valueOf"; "__proto__";
    "toLocaleString" ]%string.

(** [o[key]] for an object literal with the own properties [own]. *)
Definition get (own : list (string * Item)) (key : string) : value :=
  match find (fun kv => String.eqb (fst kv) key) own with
  | Some kv => VItem (snd kv)
  | None =>
      if existsb (String.eqb key) Object_prototype then VInherited key
      else VUndefined
  end.

(** [ToBoolean]: objects and functions are true, [undefined] is false. *)
Definition truthy (v : value) : bool :=
  match v with
  | VUndefined => false
  | _ => true
  end.

(** Property reads on what the lookup returned.  The members inherited from
    [Object.prototype] have none of these properties. *)
Definition prop_getRange (v : value) : option (Z -> Range) :=
  match v with VItem i => getRange i | _ => None end.
Definition prop_start (v : value) : option Date :=
  match v with VItem i => item_start i | _ => None end.
Definition prop_end (v : value) : option Date :=
  match v with VItem i => item_end i | _ => None end.
Definition prop_title (v : value) : string :=
  match v with VItem i => title i | _ => "undefined" end.
Definition prop_accent (v : value) : option string :=
  match v with VItem i => Some (accent i) | _ => None end.

Section Zone.
Variable LocalTZA : Z -> bool -> Z.

Definition semester_getRange (now : Z) : Range :=
  let cutoff := getTime (new_Date LocalTZA 2026 1 2 11 45) in
  if now >=? cutoff then
    {| start := Some (new_Date LocalTZA 2026 1 2 11 45);
       end_ := Some (new_Date LocalTZA 2026 5 24 0 0) |}
  else
    {| start := Some (new_Date3 LocalTZA 2025 8 2);
       end_ := Some (new_Date LocalTZA 2026 1 2 11 45) |}.

Definition items : list (string * Item) :=
  [ ("semester"%string,
      {| title := "Semester";
         accent := "var(--accent-lilac)";
         item_start := None;
         item_end := None;
         getRange := Some semester_getRange |});
    ("year"%string,
      {| title := "School year";
         accent := "var(--accent-sky)";
         item_start := Some (new_Date3 LocalTZA 2025 8 2);
         item_end := Some (new_Date3 LocalTZA 2026 5 24);
         getRange := None |});
    ("school"%string,
      {| title := "High school";
         accent := "var(--accent-mint)";
         item_start := Some (new_Date3 LocalTZA 2023 8 5);
         item_end := Some (new_Date3 LocalTZA 2027 5 25);
         getRange := None |}) ].

Definition calculateDateDiffInDays (end_ now : Date) : number :=
  let endUtc :=
    Date_UTC (getFullYear LocalTZA end_) (getMonth LocalTZA end_)
             (getDate LocalTZA end_) in
  let nowUtc :=
    Date_UTC (getFullYear LocalTZA now) (getMonth LocalTZA now)
             (getDate LocalTZA now) in
  Math_max (of_Z 0)
           (Math_round (div (of_Z (endUtc - nowUtc)) (of_Z MS_PER_DAY))).

(** [now] is the value of [new Date()] in the body. *)
Definition calculateTimeLeft (end_ : Date) (unit : Unit) (now : Date)
  : number :=
  let timeLeftMs := Z.max 0 (getTime end_ - getTime now) in
  match unit with
  | days => calculateDateDiffInDays end_ now
  | hours => Math_ceil (div (of_Z timeLeftMs) (of_Z (1000 * 60 * 60)))
  | seconds => Math_ceil (div (of_Z timeLeftMs) (of_Z 1000))
  end.

End Zone.

Definition formatTimeLeft (timeLeft : number) (unit : Unit) : string :=
  let formatted := Intl.Number_toLocaleString timeLeft in
  String.concat EmptyString [formatted; " "%string; unitName unit].

Definition formatDate (LocalTZA : Z -> bool -> Z) (date : Date) : string :=
  Intl.DateTimeFormat_format LocalTZA date.

(** [now] is the value of [Date.now()] in the body. *)
Definition calculateProgress (start end_ : Date) (now : Z) : number :=
  let startMs := getTime start in
  let endMs := getTime end_ in
  let total := endMs - startMs in
  let elapsed := Z.min (Z.max (now - startMs) 0) total in
  let ratio :=
    if total =? 0 then of_Z 0 else fdiv (of_Z elapsed) (of_Z total) in
  fdiv (Math_round (fmul ratio (of_Z 1000))) (of_Z 10).

(** [now] is the value of [Date.now()], read only when the item has a
    [getRange]. *)
Definition resolveRange (item : value) (now : Z) : Range :=
  match prop_getRange item with
  | Some f => f now
  | None => {| start := prop_start item; end_ := prop_end item |}
  end.

(** What the two entry points can throw: a [TypeError], and the error that
    [notFound()] raises to make the framework answer 404. *)
Inductive exn : Type := TypeError | NEXT_NOT_FOUND.

Inductive result (A : Type) : Type :=
| Returned (a : A)
| Thrown (e : exn).
Arguments Returned {A} a.
Arguments Thrown {A} e.

Definition bind {A B : Type} (r : result A) (k : A -> result B) : result B :=
  match r with
  | Returned a => k a
  | Thrown e => Thrown e
  end.

(** Calling [getTime()] on [undefined] throws a [TypeError]; it is the
    first thing [calculateTimeLeft] and [calculateProgress] do with a date
    they are given. *)
Definition asDate (d : option Date) : result Date :=
  match d with
  | Some t => Returned t
  | None => Thrown TypeError
  end.

Record OpenGraph : Type := {
  og_title : string;
  og_description : string;
  og_type : string
}.

Record Twitter : Type := {
  tw_card : string;
  tw_title : string;
  tw_description : string
}.

Record Metadata : Type := {
  m_title : string;
  m_description : option string;
  m_openGraph : option OpenGraph;
  m_twitter : option Twitter
}.

Definition template (parts : list string) : string :=
  String.concat EmptyString parts.

(** [now_range] and [now_left] are the clock as [resolveRange] and
    [calculateTimeLeft] read it. *)
Definition generateMetadata (LocalTZA : Z -> bool -> Z)
    (target unit : string) (now_range now_left : Z) : result Metadata :=
  match truthy (get (items LocalTZA) target), asUnit unit with
  | true, Some u =>
      let item := get (items LocalTZA) target in
      let range := resolveRange item now_range in
      bind (asDate (end_ range)) (fun e =>
      let timeLeft := calculateTimeLeft LocalTZA e u now_left in
      let description :=
        template [toString timeLeft; " "; unitName u; " left until ";
                  prop_title item; " ends"]%string in
      Returned
        {| m_title :=
             template [prop_title item; " - "; toString timeLeft; " ";
                       unitName u; " left"]%string;
           m_description := Some description;
           m_openGraph :=
             Some {| og_title := prop_title item;
                     og_description := description;
                     og_type := "website" |};
           m_twitter :=
             Some {| tw_card := "summary_large_image";
                     tw_title := prop_title item;
                     tw_description := description |} |})
  | _, _ =>
      Returned {| m_title := "Not Found";
                  m_description := None;
                  m_openGraph := None;
                  m_twitter := None |}
  end.

(** What the rendered page shows. *)
Record Page : Type := {
  p_title : string;
  p_accent : option string;
  p_percent : number;
  p_start : Date;
  p_end : Date;
  p_timeLeft : number;
  p_unit : Unit
}.

(** [now_range], [now_left] and [now_progress] are the clock as
    [resolveRange], [calculateTimeLeft] and [calculateProgress] read it. *)
Definition SharePage (LocalTZA : Z -> bool -> Z)
    (target unit : string) (now_range now_left now_progress : Z)
  : result Page :=
  match truthy (get (items LocalTZA) target), asUnit unit with
  | true, Some u =>
      let item := get (items LocalTZA) target in
      let range := resolveRange item now_range in
      bind (asDate (end_ range)) (fun e =>
      let timeLeft := calculateTimeLeft LocalTZA e u now_left in
      bind (asDate (start range)) (fun s =>
      let percent := calculateProgress s e now_progress in
      Returned
        {| p_title := prop_title item;
           p_accent := prop_accent item;
           p_percent := percent;
           p_start := s;
           p_end := e;
           p_timeLeft := timeLeft;
           p_unit := u |}))
  | _, _ => Thrown NEXT_NOT_FOUND
  end.

(** The texts of the rendered page: the two dates of the range, and the
    line under the bar. *)
Definition pageDates (LocalTZA : Z -> bool -> Z) (page : Page)
  : string * string :=
  (formatDate LocalTZA (p_start page), formatDate LocalTZA (p_end page)).

Definition pageTimeLeft (page : Page) : string :=
  String.concat EmptyString
    [formatTimeLeft (p_timeLeft page) (p_unit page); " left"%string].

End Share.

(* ================================================================= *)
(** ** The percentage on the doubles of the machine *)

(** The computation of [calculateProgress] once more, on the primitive
    floating-point numbers, to compare the model with.  It is meant for
    time values from 0 to 2^53, which convert exactly. *)
Module Machine.

Import PrimFloat.

Definition ofZ (z : Z) : float := of_uint63 (Uint63.of_Z z).

(** The number that a double is. *)
Definition toNumber (x : float) : number :=
  match FloatOps.Prim2SF x with
  | SpecFloat.S754_zero _ => Fin 0
  | SpecFloat.S754_finite s m e =>
      Fin (Qred ((if s then -1 else 1) * inject_Z (Z.pos m) * 2 ^ e))
  | SpecFloat.S754_infinity s => if s then NegInf else PosInf
  | SpecFloat.S754_nan => NaN
  end.

(** [Math.round(x)], for [0 <= x < 2^53]. *)
Definition Math_round (x : float) : float :=
  match toNumber x with
  | Fin q => ofZ (Qfloor (q + (1 # 2)))
  | _ => x
  end.

Definition calculateProgress (start end_ now : Z) : float :=
  let total := end_ - start in
  let elapsed := Z.min (Z.max (now - start) 0) total in
  let ratio :=
    if total =? 0 then zero else (ofZ elapsed / ofZ total)%float in
  (Math_round (ratio * ofZ 1000) / ofZ 10)%float.

Definition eqb (x y : number) : bool :=
  match x, y with
  | Fin p, Fin q => andb (Qnum p =? Qnum q) (Pos.eqb (Qden p) (Qden q))
  | PosInf, PosInf | NegInf, NegInf | NaN, NaN => true
  | _, _ => false
  end.

(** The model returns the double that the machine computes. *)
Definition agrees (start end_ now : Z) : bool :=
  eqb (toNumber (calculateProgress start end_ now))
      (Share.calculateProgress start end_ now).

(** The thousand instants of a range at which the elapsed part is an odd
    number of 2000ths: the percentage is half-way between two tenths. *)
Definition ties (start end_ : Z) : list Z :=
  map (fun k => start + (2 * Z.of_nat k + 1) * ((end_ - start) / 2000))
      (seq 0 1000).

(** The tenths that the model shows at an instant, if it shows tenths. *)
Definition shows (start end_ now k : Z) : bool :=
  eqb (Share.calculateProgress start end_ now) (fdiv (of_Z k) (of_Z 10)).

End Machine.

(* ================================================================= *)
(** ** The vocabulary of the specification *)

Module Spec.

(** The part of the range that has elapsed at [now], [now] first clamped
    into [start, end_]. *)
Definition elapsedRatio (start end_ now : Z) : Q :=
  inject_Z (Dashboard.clamp now start end_ - start) / inject_Z (end_ - start).

(** [p] is [x] rounded to one decimal place: the double [k / 10] of a
    whole number [k] of tenths that is at most half a tenth away from [x]. *)
Definition roundedToTenth (x : Q) (p : number) : Prop :=
  exists k : Z,
    p = fdiv (of_Z k) (of_Z 10) /\ (Qabs (inject_Z k / 10 - x) <= 1 # 20)%Q.

(** The whole days between the local calendar dates of [now] and [end_],
    floored at 0. *)
Definition calendarDaysLeft (LocalTZA : Z -> bool -> Z) (end_ now : Date) : Z :=
  Z.max 0 (Day (LocalTime LocalTZA end_) - Day (LocalTime LocalTZA now)).

(** The local time that reads [year]-[month]-[date] [hours]:[minutes],
    months counted from 0. *)
Definition civil (year month date hours minutes : Z) : Z :=
  MakeDate (MakeDay year month date) (MakeTime hours minutes 0 0).

(** The ceiling of [a / b] for a positive [b]. *)
Definition ceilDiv (a b : Z) : Z := - ((- a) / b).

(** A time zone whose offset from UTC is always less than a day. *)
Definition saneZone (LocalTZA : Z -> bool -> Z) : Prop :=
  forall t isUTC, - msPerDay < LocalTZA t isUTC < msPerDay.

(** The dashboard's entry for a target of the share page. *)
Definition dashboardId (target : string) : string :=
  if String.eqb target "semester" then "semester"
  else if String.eqb target "year" then "school-year"
  else if String.eqb target "school" then "high-school"
  else target.

(** The two pages agree on a target at [now]: the share page, asked for
    days, shows the percentage and the days left of the dashboard's card. *)
Definition surfacesAgree (LocalTZA : Z -> bool -> Z) (target : string)
    (now : Z) : Prop :=
  exists page item,
    Share.SharePage LocalTZA target "days" now now now = Share.Returned page /\
    Dashboard.entry LocalTZA (dashboardId target) = Some item /\
    Share.p_percent page = Dashboard.percent (Dashboard.ProgressBar item now) /\
    Share.p_timeLeft page
    = Dashboard.daysLeft (Dashboard.ProgressBar item now).

(** A zone whose offset from UTC never changes. *)
Definition constantZone (LocalTZA : Z -> bool -> Z) : Prop :=
  forall t isUTC, LocalTZA t isUTC = LocalTZA 0 true.

(** What [generateMetadata] returns for a page that does not exist. *)
Definition notFoundMetadata : Share.Metadata :=
  {| Share.m_title := "Not Found";
     Share.m_description := None;
     Share.m_openGraph := None;
     Share.m_twitter := None |}.

End Spec.

(** More vocabulary, for the texts that the pages print. *)
Module Text.

(** A text without its commas. *)
Definition withoutCommas (s : string) : string :=
  string_of_list_ascii
    (filter (fun c => negb (Ascii.eqb c ",")) (list_ascii_of_string s)).

(** The number of days of a month, 0 being January. *)
Definition daysInMonth (year month : Z) : Z :=
  match month with
  | 1 => if leap year then 29 else 28
  | 3 | 5 | 8 | 10 => 30
  | _ => 31
  end.

(** The length of a unit in milliseconds. *)
Definition unitLength (unit : Share.Unit) : Z :=
  match unit with
  | Share.days => msPerDay
  | Share.hours => msPerHour
  | Share.seconds => msPerSecond
  end.

(** The texts [a], [b] and [c], one after the other. *)
Definition join3 (a b c : string) : string :=
  String.append a (String.append b c).

End Text.

(* ================================================================= *)
(** * Properties *)

(** ** The calendar *)

Ltac euclid := Z.to_euclidean_division_equations; lia.

Lemma DayFromYear_cycles (q a b c : Z) :
  0 <= a <= 3 -> 0 <= b <= 24 -> 0 <= c <= 3 ->
  DayFromYear (1601 + 400 * q + 100 * a + 4 * b + c)
  = 146097 * q + 36524 * a + 1461 * b + 365 * c - 134774.
Proof.
  intros Ha Hb Hc. unfold DayFromYear. euclid.
Qed.

Lemma leap_cycles (q a b c : Z) :
  0 <= a <= 3 -> 0 <= b <= 24 -> 0 <= c <= 3 ->
  leap (1601 + 400 * q + 100 * a + 4 * b + c)
  = (c =? 3) && (negb (b =? 24) || (a =? 3)).
Proof.
  intros Ha Hb Hc. unfold leap.
  repeat match goal with
         | |- context [?x =? ?y] => destruct (Z.eqb_spec x y)
         end; simpl; try reflexivity; exfalso; euclid.
Qed.

Lemma DayFromYear_succ (y : Z) :
  DayFromYear (y + 1) = DayFromYear y + DaysInYear y.
Proof.
  unfold DayFromYear, DaysInYear, leap.
  repeat match goal with
         | |- context [?x =? ?y] => destruct (Z.eqb_spec x y)
         end; cbn [negb]; euclid.
Qed.

(** The cycle counts that [YearFromDay] computes, with their ranges. *)
Lemma YearFromDay_cycles (d : Z) :
  exists q a b c r,
    0 <= a <= 3 /\ 0 <= b <= 24 /\ 0 <= c <= 3 /\
    YearFromDay d = 1601 + 400 * q + 100 * a + 4 * b + c /\
    d = 146097 * q + 36524 * a + 1461 * b + 365 * c - 134774 + r /\
    0 <= r /\
    (r < 365 \/ (r = 365 /\ c = 3 /\ (b <> 24 \/ a = 3))).
Proof.
  unfold YearFromDay.
  set (n := d + 134774).
  set (r400 := n mod 146097).
  set (c100 := Z.min (r400 / 36524) 3).
  set (r100 := r400 - 36524 * c100).
  set (r4 := r100 mod 1461).
  set (c1 := Z.min (r4 / 365) 3).
  exists (n / 146097), c100, (r100 / 1461), c1, (r4 - 365 * c1).
  assert (H400 : 0 <= r400 < 146097) by (apply Z.mod_pos_bound; lia).
  assert (Hc100 : 0 <= c100 <= 3) by (subst c100; euclid).
  assert (Hr100 : 0 <= r100 /\ (r100 < 36524 \/ (r100 = 36524 /\ c100 = 3)))
    by (subst r100 c100; euclid).
  assert (Hr4 : 0 <= r4 < 1461) by (apply Z.mod_pos_bound; lia).
  assert (Hc1 : 0 <= c1 <= 3) by (subst c1; euclid).
  assert (Hb : 0 <= r100 / 1461 <= 24) by euclid.
  assert (Hn : n = 146097 * (n / 146097) + r400)
    by (subst r400; apply Z.div_mod; lia).
  assert (Hr : r100 = 1461 * (r100 / 1461) + r4)
    by (subst r4; apply Z.div_mod; lia).
  repeat split; try lia.
  - subst c1. euclid.
  - subst c1. clearbody r4 r100 c100 r400 n.
    destruct Hr100 as [_ [Hlt | [Heq H3]]]; euclid.
Qed.

Lemma YearFromDay_bounds (d : Z) :
  DayFromYear (YearFromDay d) <= d
  < DayFromYear (YearFromDay d) + DaysInYear (YearFromDay d).
Proof.
  destruct (YearFromDay_cycles d)
    as (q & a & b & c & r & Ha & Hb & Hc & Hy & Hd & Hr0 & Hr).
  rewrite Hy. unfold DaysInYear.
  rewrite DayFromYear_cycles, leap_cycles by assumption.
  destruct Hr as [Hr | (Hr & Hc3 & Hba)].
  - destruct ((c =? 3) && (negb (b =? 24) || (a =? 3))); lia.
  - subst c. rewrite Z.eqb_refl. cbn [andb].
    destruct (Z.eqb_spec b 24), (Z.eqb_spec a 3); cbn [negb orb]; lia.
Qed.

Lemma DayFromYear_mono (y1 y2 : Z) :
  y1 <= y2 -> DayFromYear y1 <= DayFromYear y2.
Proof.
  intros H. unfold DayFromYear. euclid.
Qed.

Lemma TimeFromYear_Day (y t : Z) :
  TimeFromYear y <= t <-> DayFromYear y <= Day t.
Proof.
  unfold TimeFromYear, Day, msPerDay. split; intros H; euclid.
Qed.

(** [YearFromTime(t)] is the largest year that starts at or before [t],
    which is how ECMAScript defines it. *)
Lemma YearFromTime_largest (t y : Z) :
  TimeFromYear y <= t <-> y <= YearFromTime t.
Proof.
  rewrite TimeFromYear_Day. unfold YearFromTime.
  pose proof (YearFromDay_bounds (Day t)) as [Hlo Hhi].
  rewrite <- DayFromYear_succ in Hhi.
  split; intros H.
  - destruct (Z_le_gt_dec y (YearFromDay (Day t))) as [Hle | Hgt]; [exact Hle|].
    assert (DayFromYear (YearFromDay (Day t) + 1) <= DayFromYear y)
      by (apply DayFromYear_mono; lia).
    lia.
  - apply Z.le_trans with (DayFromYear (YearFromDay (Day t))); [|exact Hlo].
    apply DayFromYear_mono; exact H.
Qed.

Lemma DayWithinYear_bounds (t : Z) :
  0 <= DayWithinYear t < 365 + InLeapYear t.
Proof.
  unfold DayWithinYear, InLeapYear, YearFromTime.
  pose proof (YearFromDay_bounds (Day t)) as H.
  unfold DaysInYear in H.
  destruct (leap (YearFromDay (Day t))); lia.
Qed.

Lemma InLeapYear_cases (t : Z) : InLeapYear t = 0 \/ InLeapYear t = 1.
Proof. unfold InLeapYear. destruct (leap _); auto. Qed.

Lemma MonthFromTime_range (t : Z) : 0 <= MonthFromTime t <= 11.
Proof.
  unfold MonthFromTime.
  repeat match goal with
         | |- context [?x <? ?y] => destruct (Z.ltb_spec x y)
         end; lia.
Qed.

(** The day that [MakeDay] computes from the year, month and date of a time
    value is the day of that time value. *)
Lemma MakeDay_fields (t : Z) :
  MakeDay (YearFromTime t) (MonthFromTime t) (DateFromTime t) = Day t.
Proof.
  pose proof (MonthFromTime_range t) as Hm.
  pose proof (DayWithinYear_bounds t) as Hd.
  unfold MakeDay.
  replace (MonthFromTime t / 12) with 0 by euclid.
  replace (MonthFromTime t mod 12) with (MonthFromTime t) by euclid.
  rewrite Z.add_0_r.
  change (if leap (YearFromTime t) then 1 else 0) with (InLeapYear t).
  assert (Hs : daysBeforeMonth (InLeapYear t) (MonthFromTime t)
               + DateFromTime t - 1 = DayWithinYear t).
  { unfold DateFromTime. clear Hm. unfold MonthFromTime.
    destruct (InLeapYear_cases t) as [Hl | Hl]; rewrite Hl in *;
    repeat match goal with
           | |- context [?x <? ?y] => destruct (Z.ltb_spec x y)
           end; cbn [daysBeforeMonth]; lia. }
  unfold DayWithinYear in Hs. lia.
Qed.

(** [Date.UTC] of the year, month and date of a time value whose year is
    above 99 is the start of its day. *)
Lemma Date_UTC_fields (t : Z) :
  99 < YearFromTime t ->
  Date_UTC (YearFromTime t) (MonthFromTime t) (DateFromTime t)
  = Day t * msPerDay.
Proof.
  intros Hy. unfold Date_UTC, fullYear.
  replace ((0 <=? YearFromTime t) && (YearFromTime t <=? 99)) with false
    by (symmetry; apply andb_false_iff; right; apply Z.leb_gt; lia).
  rewrite MakeDay_fields. unfold MakeDate, MakeTime. lia.
Qed.

(** A day between the first days of two successive years is in the first
    of them. *)
Lemma YearFromDay_unique (y d : Z) :
  DayFromYear y <= d < DayFromYear y + DaysInYear y -> YearFromDay d = y.
Proof.
  intros [Hlo Hhi]. rewrite <- DayFromYear_succ in Hhi.
  pose proof (YearFromDay_bounds d) as [Hlo' Hhi'].
  rewrite <- DayFromYear_succ in Hhi'.
  destruct (Z.lt_trichotomy (YearFromDay d) y) as [L | [E | G]].
  - assert (DayFromYear (YearFromDay d + 1) <= DayFromYear y)
      by (apply DayFromYear_mono; lia). lia.
  - exact E.
  - assert (DayFromYear (y + 1) <= DayFromYear (YearFromDay d))
      by (apply DayFromYear_mono; lia). lia.
Qed.

(** [MakeDay] is the day ECMAScript asks for: the day of [MakeDay y m 1] is
    in the year [y + m / 12], in the month [m mod 12], and is its first. *)
Lemma MakeDay_first_of_month (year month : Z) :
  let t := MakeDate (MakeDay year month 1) 0 in
  YearFromTime t = year + month / 12 /\
  MonthFromTime t = month mod 12 /\
  DateFromTime t = 1.
Proof.
  intros t.
  assert (Hday : Day t = MakeDay year month 1)
    by (unfold t, Day, MakeDate, msPerDay; euclid).
  assert (Hm : 0 <= month mod 12 < 12) by (apply Z.mod_pos_bound; lia).
  set (ym := year + month / 12) in *.
  assert (Hy : YearFromTime t = ym).
  { unfold YearFromTime. rewrite Hday. apply YearFromDay_unique.
    unfold MakeDay. fold ym. unfold DaysInYear.
    destruct (leap ym);
      destruct (month mod 12) as [|[p|p|]|]; cbn [daysBeforeMonth];
      try lia; repeat (destruct p as [p|p|]; cbn [daysBeforeMonth]; try lia). }
  assert (Hw : DayWithinYear t
               = daysBeforeMonth (InLeapYear t) (month mod 12)).
  { unfold DayWithinYear, InLeapYear. rewrite Hy, Hday.
    unfold MakeDay. fold ym. lia. }
  split; [exact Hy|].
  assert (Hmonth : MonthFromTime t = month mod 12).
  { unfold MonthFromTime. rewrite Hw.
    destruct (InLeapYear_cases t) as [Hl | Hl]; rewrite Hl;
      destruct (month mod 12) as [|[p|p|]|]; try lia; try reflexivity;
      repeat (destruct p as [p|p|]; try lia; try reflexivity). }
  split; [exact Hmonth|].
  unfold DateFromTime. rewrite Hmonth, Hw.
  destruct (InLeapYear_cases t) as [Hl | Hl]; rewrite Hl;
    destruct (month mod 12) as [|[p|p|]|]; try lia; try reflexivity;
    repeat (destruct p as [p|p|]; try lia; try reflexivity).
Qed.

(** Some dates whose time values are well known. *)
Lemma calendar_examples :
  Date_UTC 1970 0 1 = 0 /\
  Date_UTC 2000 0 1 = 946684800000 /\
  Date_UTC 2024 1 29 = 1709164800000 /\
  Date_UTC 2026 5 24 = 1782259200000 /\
  (YearFromTime 951782400000, MonthFromTime 951782400000,
   DateFromTime 951782400000) = (2000, 1, 29) /\
  (YearFromTime (-1), MonthFromTime (-1), DateFromTime (-1)) = (1969, 11, 31).
Proof. repeat split. Qed.

(** ** Numbers *)

Lemma Qeq_bool_inject_Z_0 (z : Z) : z <> 0 -> Qeq_bool (inject_Z z) 0 = false.
Proof.
  intros H. apply not_true_iff_false. intros E.
  apply Qeq_bool_eq in E. unfold Qeq in E. simpl in E. lia.
Qed.

Lemma inject_Z_div_pos (a b : Z) :
  0 < b -> (inject_Z a / inject_Z b == a # Z.to_pos b)%Q.
Proof.
  intros Hb. destruct b as [|p|p]; try lia.
  simpl Z.to_pos. symmetry. apply Qmake_Qdiv.
Qed.

Lemma Qfloor_Qmake (a : Z) (b : positive) : Qfloor (a # b) = a / Z.pos b.
Proof. reflexivity. Qed.

Lemma Qceiling_Qmake (a : Z) (b : positive) :
  Qceiling (a # b) = - ((- a) / Z.pos b).
Proof. reflexivity. Qed.

(** [a / b] for integers, the divisor positive. *)
Lemma div_of_Z (a b : Z) :
  0 < b -> div (of_Z a) (of_Z b) = Fin (Qred (a # Z.to_pos b)).
Proof.
  intros Hb. unfold div, of_Z.
  rewrite Qeq_bool_inject_Z_0 by lia.
  f_equal. apply Qred_complete. apply inject_Z_div_pos. exact Hb.
Qed.

(** [Math.ceil(a / b)] for integers, the divisor positive. *)
Lemma Math_ceil_div (a b : Z) :
  0 < b -> Math_ceil (div (of_Z a) (of_Z b)) = of_Z (- ((- a) / b)).
Proof.
  intros Hb. rewrite div_of_Z by exact Hb. unfold Math_ceil. f_equal.
  rewrite (Qceiling_comp _ (a # Z.to_pos b)) by apply Qred_correct.
  rewrite Qceiling_Qmake. rewrite Z2Pos.id by exact Hb. reflexivity.
Qed.

(** [Math.round(a / b)] for integers, the divisor positive. *)
Lemma Math_round_div (a b : Z) :
  0 < b -> Math_round (div (of_Z a) (of_Z b)) = of_Z ((2 * a + b) / (2 * b)).
Proof.
  intros Hb. rewrite div_of_Z by exact Hb. unfold Math_round. f_equal.
  rewrite (Qfloor_comp _ ((2 * a + b) # Z.to_pos (2 * b))).
  - rewrite Qfloor_Qmake. rewrite Z2Pos.id by lia. reflexivity.
  - rewrite Qred_correct. unfold Qeq, Qplus. cbn [Qnum Qden].
    rewrite !Pos2Z.inj_mul, !Z2Pos.id by lia. ring.
Qed.

Lemma Math_max_0_of_Z (z : Z) :
  Math_max (of_Z 0) (of_Z z) = of_Z (Z.max 0 z).
Proof.
  unfold Math_max, of_Z.
  destruct (Qle_bool (inject_Z 0) (inject_Z z)) eqn:E.
  - apply Qle_bool_iff in E. rewrite <- Zle_Qle in E.
    rewrite Z.max_r by exact E. reflexivity.
  - assert (~ (0 <= z)) as H.
    { intros H. rewrite Zle_Qle in H. apply Qle_bool_iff in H. congruence. }
    rewrite Z.max_l by lia. reflexivity.
Qed.

Lemma of_Z_inj (a b : Z) : of_Z a = of_Z b -> a = b.
Proof. unfold of_Z, inject_Z. intros H. injection H. auto. Qed.

(** ** Rounding to binary64 *)

Section Rounding.

Local Open Scope Q_scope.

Lemma pow2_pos (z : Z) : 0 < 2 ^ z.
Proof. apply Qpower_0_lt. reflexivity. Qed.

Lemma pow2_succ (z : Z) : 2 ^ (z + 1) == 2 * 2 ^ z.
Proof. rewrite Qpower_plus by discriminate. change (2 ^ 1) with 2. ring. Qed.

Lemma pow2_pred (z : Z) : 2 * 2 ^ (z - 1) == 2 ^ z.
Proof. rewrite <- pow2_succ. replace (z - 1 + 1)%Z with z by lia. reflexivity. Qed.

Lemma pow2_add (a b : Z) : 2 ^ (a + b) == 2 ^ a * 2 ^ b.
Proof. apply Qpower_plus. discriminate. Qed.

Lemma pow2_le (a b : Z) : (a <= b)%Z -> 2 ^ a <= 2 ^ b.
Proof. intros H. apply Qpower_le_compat_l; [exact H | discriminate]. Qed.

Lemma pow2_inject (k : Z) : (0 <= k)%Z -> inject_Z (2 ^ k) == 2 ^ k.
Proof. intros H. apply (Zpower_Qpower 2 k H). Qed.

Lemma log2_bounds (n : Z) :
  (0 < n)%Z ->
  2 ^ Z.log2 n <= inject_Z n /\ inject_Z n < 2 * 2 ^ Z.log2 n.
Proof.
  intros Hn. destruct (Z.log2_spec n Hn) as [Hlo Hhi].
  pose proof (Z.log2_nonneg n) as H0.
  rewrite <- pow2_succ.
  rewrite <- !pow2_inject by lia.
  rewrite <- Zle_Qle, <- Zlt_Qlt. unfold Z.succ in Hhi. split; assumption.
Qed.

Lemma flog2_spec (x : Q) :
  0 < x -> 2 ^ flog2 x <= x /\ x < 2 * 2 ^ flog2 x.
Proof.
  intros Hx. unfold flog2.
  set (n := Qnum x). set (d := Z.pos (Qden x)).
  assert (Hn : (0 < n)%Z).
  { unfold n. unfold Qlt in Hx. cbn in Hx. lia. }
  assert (Hd : (0 < d)%Z) by reflexivity.
  destruct (log2_bounds n Hn) as [An An'].
  destruct (log2_bounds d Hd) as [Bd Bd'].
  set (A := 2 ^ Z.log2 n) in *. set (B := 2 ^ Z.log2 d) in *.
  assert (HA : 0 < A) by apply pow2_pos.
  assert (HB : 0 < B) by apply pow2_pos.
  set (l := (Z.log2 n - Z.log2 d)%Z).
  assert (HT : 2 ^ l * B == A).
  { unfold A, B, l. rewrite <- pow2_add. 
    replace (Z.log2 n - Z.log2 d + Z.log2 d)%Z with (Z.log2 n) by lia.
    reflexivity. }
  assert (HTpos : 0 < 2 ^ l) by apply pow2_pos.
  assert (Exd : x * inject_Z d == inject_Z n).
  { unfold n, d. destruct x as [xn xd]. cbn [Qnum Qden].
    rewrite (Qmake_Qdiv xn xd). field.
    intros E. unfold Qeq in E. cbn in E. lia. }
  assert (Hdq : 0 < inject_Z d) by (unfold Qlt; cbn; lia).
  destruct (Qle_bool (2 ^ l) x) eqn:E.
  - apply Qle_bool_iff in E. split; [exact E|].
    apply Qnot_le_lt. intros C. 
    assert (2 * 2 ^ l * B <= x * inject_Z d) by nra.
    nra.
  - assert (Hlt : x < 2 ^ l).
    { apply Qnot_le_lt. intros C. apply Qle_bool_iff in C. congruence. }
    rewrite pow2_pred. split; [|exact Hlt].
    apply Qnot_lt_le. intros C. 
    assert (C2 : 2 * x < 2 ^ l) by (rewrite <- pow2_pred; lra).
    assert (2 * (x * inject_Z d) < 2 ^ l * (2 * B)) by nra.
    nra.
Qed.

Lemma pow2_lt_inv (a b : Z) : 2 ^ a < 2 ^ b -> (a < b)%Z.
Proof. intros H. apply (Qpower_lt_compat_l_inv 2); [exact H | reflexivity]. Qed.

Lemma flog2_mono (x y : Q) : 0 < x -> x <= y -> (flog2 x <= flog2 y)%Z.
Proof.
  intros Hx Hxy.
  destruct (flog2_spec x Hx) as [Lx _].
  destruct (flog2_spec y) as [_ Uy]; [lra|].
  rewrite <- pow2_succ in Uy.
  assert (H : 2 ^ flog2 x < 2 ^ (flog2 y + 1)) by lra.
  apply pow2_lt_inv in H. lia.
Qed.

Lemma inject_Z_succ (z : Z) : inject_Z (z + 1) == inject_Z z + 1.
Proof. rewrite inject_Z_plus. reflexivity. Qed.

(** The nearest integer is within a half; at a half it is even. *)
Lemma nearestEven_spec (q : Q) :
  inject_Z (nearestEven q) - (1 # 2) <= q /\
  q <= inject_Z (nearestEven q) + (1 # 2) /\
  (q == inject_Z (nearestEven q) + (1 # 2) -> Z.even (nearestEven q) = true) /\
  (q == inject_Z (nearestEven q) - (1 # 2) -> Z.even (nearestEven q) = true).
Proof.
  unfold nearestEven.
  pose proof (Qfloor_le q) as Hlo. pose proof (Qlt_floor q) as Hhi.
  rewrite inject_Z_succ in Hhi.
  set (f := Qfloor q) in *.
  destruct (q - inject_Z f ?= 1 # 2) eqn:C.
  - apply Qeq_alt in C.
    destruct (Z.even f) eqn:Ev.
    + repeat split; try lra. intros; exact Ev.
    + rewrite inject_Z_succ. repeat split; try lra.
      intros _. rewrite Z.even_add, Ev. reflexivity.
  - apply Qlt_alt in C. repeat split; try lra.
  - apply Qgt_alt in C. rewrite inject_Z_succ. repeat split; try lra.
Qed.

Lemma nearestEven_mono (p q : Q) :
  p <= q -> (nearestEven p <= nearestEven q)%Z.
Proof.
  intros Hpq.
  destruct (nearestEven_spec p) as (Lp & Up & Tp & Tp').
  destruct (nearestEven_spec q) as (Lq & Uq & Tq & Tq').
  set (j := nearestEven p) in *. set (k := nearestEven q) in *.
  destruct (Z_le_gt_dec j k) as [H | H]; [exact H | exfalso].
  assert (Hj : inject_Z k + 1 <= inject_Z j).
  { rewrite <- inject_Z_succ, <- Zle_Qle. lia. }
  assert (Ep : p == inject_Z j - (1 # 2)) by lra.
  assert (Eq : q == inject_Z k + (1 # 2)) by lra.
  assert (Ej : inject_Z j == inject_Z k + 1) by lra.
  rewrite <- inject_Z_succ in Ej. rewrite inject_Z_injective in Ej.
  specialize (Tp' Ep). specialize (Tq Eq).
  rewrite Ej, Z.even_add, Tq in Tp'. discriminate.
Qed.

Lemma nearestEven_Z (z : Z) : nearestEven (inject_Z z) = z.
Proof.
  unfold nearestEven. rewrite Qfloor_Z.
  assert (C : (inject_Z z - inject_Z z ?= 1 # 2) = Lt)
    by (apply Qlt_alt; setoid_replace (inject_Z z - inject_Z z) with 0 by ring;
        reflexivity).
  rewrite C. reflexivity.
Qed.

Lemma nearestEven_comp (p q : Q) : p == q -> nearestEven p = nearestEven q.
Proof.
  intros E. apply Z.le_antisymm; apply nearestEven_mono; lra.
Qed.

Lemma flog2_unique (x : Q) (f : Z) :
  2 ^ f <= x -> x < 2 * 2 ^ f -> flog2 x = f.
Proof.
  intros L U. assert (Hx : 0 < x) by (pose proof (pow2_pos f); lra).
  destruct (flog2_spec x Hx) as [L' U'].
  rewrite <- pow2_succ in U, U'.
  assert (H1 : 2 ^ f < 2 ^ (flog2 x + 1)) by lra.
  assert (H2 : 2 ^ flog2 x < 2 ^ (f + 1)) by lra.
  apply pow2_lt_inv in H1, H2. lia.
Qed.

Lemma flog2_comp (x y : Q) : 0 < x -> x == y -> flog2 x = flog2 y.
Proof.
  intros Hx E. symmetry. destruct (flog2_spec x Hx) as [L U].
  apply flog2_unique; lra.
Qed.

Lemma exponent_pos (x : Q) :
  0 < x -> exponent x = Z.max (flog2 x - 52) emin.
Proof.
  intros Hx. unfold exponent.
  rewrite (flog2_comp (Qabs x) x); [reflexivity| |]; rewrite Qabs_pos; lra.
Qed.

Lemma exponent_emin (x : Q) : (emin <= exponent x)%Z.
Proof. unfold exponent. lia. Qed.

Lemma round64_value (x : Q) :
  round64 x == inject_Z (nearestEven (x / 2 ^ exponent x)) * 2 ^ exponent x.
Proof. unfold round64. apply Qred_correct. Qed.

Lemma scaled_bounds (x : Q) :
  0 < x ->
  x / 2 ^ exponent x < 2 ^ 53 /\
  ((emin < exponent x)%Z -> 2 ^ 52 <= x / 2 ^ exponent x).
Proof.
  intros Hx. rewrite exponent_pos by exact Hx.
  destruct (flog2_spec x Hx) as [L U].
  set (f := flog2 x) in *.
  set (e := Z.max (f - 52) emin).
  pose proof (pow2_pos e) as He.
  split.
  - apply Qlt_shift_div_r; [exact He|].
    rewrite <- pow2_add.
    assert (2 * 2 ^ f <= 2 ^ (53 + e)).
    { rewrite <- pow2_succ. apply pow2_le. lia. }
    lra.
  - intros Hn. assert (E : e = (f - 52)%Z) by lia.
    apply Qle_shift_div_l; [exact He|].
    rewrite <- pow2_add, E. replace (52 + (f - 52))%Z with f by lia. exact L.
Qed.

Lemma exponent_mono (x y : Q) :
  0 < x -> x <= y -> (exponent x <= exponent y)%Z.
Proof.
  intros Hx Hxy. rewrite !exponent_pos by lra.
  pose proof (flog2_mono x y Hx Hxy). lia.
Qed.

(** Rounding keeps the order. *)
Lemma round64_mono_pos (x y : Q) : 0 < x -> x <= y -> round64 x <= round64 y.
Proof.
  intros Hx Hxy. rewrite !round64_value.
  pose proof (exponent_mono x y Hx Hxy) as He.
  pose proof (pow2_pos (exponent x)) as Px.
  pose proof (pow2_pos (exponent y)) as Py.
  destruct (Z.eq_dec (exponent x) (exponent y)) as [E | N].
  - rewrite E. apply Qmult_le_compat_r; [|lra].
    rewrite <- Zle_Qle. apply nearestEven_mono.
    apply Qmult_le_compat_r; [exact Hxy|].
    apply Qlt_le_weak, Qinv_lt_0_compat. exact Py.
  - destruct (scaled_bounds x Hx) as [Ux _].
    destruct (scaled_bounds y) as [_ Ly]; [lra|].
    assert (Hn : (emin < exponent y)%Z)
      by (pose proof (exponent_emin x); lia).
    specialize (Ly Hn).
    assert (Kx : (nearestEven (x / 2 ^ exponent x) <= 2 ^ 53)%Z).
    { rewrite <- (nearestEven_Z (2 ^ 53)). apply nearestEven_mono.
      rewrite pow2_inject by lia. lra. }
    assert (Ky : (2 ^ 52 <= nearestEven (y / 2 ^ exponent y))%Z).
    { rewrite <- (nearestEven_Z (2 ^ 52)). apply nearestEven_mono.
      rewrite pow2_inject by lia. exact Ly. }
    rewrite Zle_Qle in Kx, Ky. rewrite pow2_inject in Kx, Ky by lia.
    apply Qle_trans with (2 ^ 53 * 2 ^ exponent x).
    { apply Qmult_le_compat_r; [exact Kx | lra]. }
    apply Qle_trans with (2 ^ 52 * 2 ^ exponent y).
    { rewrite <- !pow2_add. apply pow2_le. lia. }
    apply Qmult_le_compat_r; [exact Ky | lra].
Qed.

Lemma round64_0 : round64 0 = 0.
Proof. reflexivity. Qed.

Lemma round64_nonneg (x : Q) : 0 <= x -> 0 <= round64 x.
Proof.
  intros Hx. rewrite round64_value.
  apply Qmult_le_0_compat; [|apply Qlt_le_weak, pow2_pos].
  change 0 with (inject_Z 0). rewrite <- Zle_Qle.
  rewrite <- (nearestEven_Z 0). apply nearestEven_mono.
  apply Qle_shift_div_l; [apply pow2_pos|].
  rewrite Qmult_0_l. exact Hx.
Qed.

Lemma round64_zero (x : Q) : x == 0 -> round64 x = 0.
Proof.
  intros E. unfold round64. change 0 with (Qred 0). apply Qred_complete.
  rewrite (nearestEven_comp _ (inject_Z 0)).
  - rewrite nearestEven_Z. ring.
  - generalize (2 ^ exponent x). intros c. rewrite E. unfold Qdiv. ring.
Qed.

Lemma round64_comp (x y : Q) : x == y -> round64 x = round64 y.
Proof.
  intros E. destruct (Qeq_dec x 0) as [Z0 | N0].
  - rewrite (round64_zero x Z0), (round64_zero y) by lra. reflexivity.
  - unfold round64. apply Qred_complete.
    assert (Ee : exponent x = exponent y).
    { unfold exponent. f_equal. f_equal. apply flog2_comp.
      - destruct (Qlt_le_dec 0 x).
        + rewrite Qabs_pos; lra.
        + rewrite Qabs_neg by lra. 
          destruct (Qlt_le_dec x 0); [lra|]. exfalso. apply N0. lra.
      - rewrite E. reflexivity. }
    rewrite Ee.
    rewrite (nearestEven_comp (x / 2 ^ exponent y) (y / 2 ^ exponent y)).
    + reflexivity.
    + generalize (2 ^ exponent y). intros c. rewrite E. reflexivity.
Qed.

Lemma round64_mono (x y : Q) : 0 <= x -> x <= y -> round64 x <= round64 y.
Proof.
  intros Hx Hxy. destruct (Qlt_le_dec 0 x) as [P | Z0].
  - apply round64_mono_pos; assumption.
  - assert (E : x == 0) by lra. rewrite (round64_comp x 0 E), round64_0.
    apply round64_nonneg. lra.
Qed.

Lemma eps_pos : 0 < eps.
Proof. apply pow2_pos. Qed.

Lemma tiny_pos : 0 < tiny.
Proof. apply pow2_pos. Qed.

(** The error of rounding. *)
Lemma round64_error (x : Q) :
  0 <= x -> Qabs (round64 x - x) <= x * eps + tiny.
Proof.
  intros Hx. pose proof tiny_pos as Hd. pose proof eps_pos as Hu.
  destruct (Qlt_le_dec 0 x) as [P | Z0].
  2:{ assert (E : x == 0) by lra. rewrite (round64_zero x E).
      apply Qabs_Qle_condition. nra. }
  rewrite round64_value.
  pose proof (exponent_pos x P) as Ee.
  destruct (flog2_spec x P) as [L _].
  set (e := exponent x) in *. set (f := flog2 x) in *.
  pose proof (pow2_pos e) as Pe.
  destruct (nearestEven_spec (x / 2 ^ e)) as (Lk & Uk & _).
  set (k := inject_Z (nearestEven (x / 2 ^ e))) in *.
  assert (Ex : x == x / 2 ^ e * 2 ^ e) by (field; lra).
  set (s := x / 2 ^ e) in *.
  assert (Hb : 2 ^ e <= x * (2 * eps) \/ 2 ^ e == 2 * tiny).
  { destruct (Z.max_spec (f - 52) emin) as [[_ M] | [_ M]]; rewrite M in Ee.
    - right. rewrite Ee. unfold emin, tiny. rewrite <- pow2_succ. reflexivity.
    - left. rewrite Ee. unfold eps. rewrite <- pow2_succ.
      replace (f - 52)%Z with (f + (-53 + 1))%Z by lia. rewrite pow2_add.
      pose proof (pow2_pos (-53 + 1)). nra. }
  apply Qabs_Qle_condition.
  assert (A1 : k * 2 ^ e - x == (k - s) * 2 ^ e) by (rewrite Ex at 1; ring).
  rewrite A1. clearbody k s. clear Ex A1 Ee L.
  generalize dependent (2 ^ e). intros c Pc Hb.
  generalize dependent eps. generalize dependent tiny. intros d Hd v Hv Hb.
  destruct Hb as [Hb | Hb]; split; nra.
Qed.

Lemma round64_1 : round64 1 = 1.
Proof. reflexivity. Qed.

Lemma round64_1000 : round64 1000 = 1000.
Proof. reflexivity. Qed.

Lemma ratio_bounds (el t : Z) :
  (0 < t)%Z -> (0 <= el <= t)%Z ->
  0 <= inject_Z el / inject_Z t /\ inject_Z el / inject_Z t <= 1.
Proof.
  intros Ht [H0 H1].
  assert (Pt : 0 < inject_Z t) by (unfold Qlt; cbn; lia).
  assert (P0 : 0 <= inject_Z el) by (unfold Qle; cbn; lia).
  assert (P1 : inject_Z el <= inject_Z t) by (rewrite <- Zle_Qle; exact H1).
  split.
  - apply Qle_shift_div_l; [exact Pt | lra].
  - apply Qle_shift_div_r; [exact Pt | lra].
Qed.

Lemma r1_bounds (el t : Z) :
  (0 < t)%Z -> (0 <= el <= t)%Z ->
  0 <= round64 (inject_Z el / inject_Z t)
  /\ round64 (inject_Z el / inject_Z t) <= 1.
Proof.
  intros Ht Hel. destruct (ratio_bounds el t Ht Hel) as [L U].
  split.
  - apply round64_nonneg. exact L.
  - rewrite <- round64_1. apply round64_mono; assumption.
Qed.

Lemma y_bounds (el t : Z) :
  (0 < t)%Z -> (0 <= el <= t)%Z ->
  0 <= round64 (round64 (inject_Z el / inject_Z t) * 1000)
  /\ round64 (round64 (inject_Z el / inject_Z t) * 1000) <= 1000.
Proof.
  intros Ht Hel. destruct (r1_bounds el t Ht Hel) as [L U]. split.
  - apply round64_nonneg. lra.
  - apply Qle_trans with (round64 1000).
    + apply round64_mono; lra.
    + rewrite round64_1000. lra.
Qed.

Lemma perMille64_bounds (el t : Z) :
  (0 < t)%Z -> (0 <= el <= t)%Z -> (0 <= perMille64 el t <= 1000)%Z.
Proof.
  intros Ht Hel. destruct (y_bounds el t Ht Hel) as [L U].
  unfold perMille64. split.
  - apply Z.le_trans with (Qfloor (0 + (1 # 2)));
      [vm_compute; discriminate|].
    apply Qfloor_resp_le. lra.
  - apply Z.le_trans with (Qfloor (1000 + (1 # 2)));
      [|vm_compute; discriminate].
    apply Qfloor_resp_le. lra.
Qed.

(** The product that is rounded is near the exact one. *)
Lemma y_near (el t : Z) :
  (0 < t)%Z -> (0 <= el <= t)%Z ->
  Qabs (round64 (round64 (inject_Z el / inject_Z t) * 1000)
        - 1000 * (inject_Z el / inject_Z t)) <= eta.
Proof.
  intros Ht Hel. destruct (ratio_bounds el t Ht Hel) as [L U].
  destruct (r1_bounds el t Ht Hel) as [L1 U1].
  pose proof (round64_error _ L) as E1.
  set (r := inject_Z el / inject_Z t) in *.
  set (r1 := round64 r) in *.
  assert (L2 : 0 <= r1 * 1000) by lra.
  pose proof (round64_error (r1 * 1000) L2) as E2.
  set (y := round64 (r1 * 1000)) in *.
  pose proof eps_pos as Pv. pose proof tiny_pos as Pd.
  apply Qabs_Qle_condition in E1. apply Qabs_Qle_condition in E2.
  apply Qabs_Qle_condition. unfold eta.
  set (v := eps) in *. set (d := tiny) in *.
  clearbody r r1 y v d. split; nra.
Qed.

Lemma perMille64_mono (el el' t : Z) :
  (0 < t)%Z -> (0 <= el)%Z -> (el <= el')%Z ->
  (perMille64 el t <= perMille64 el' t)%Z.
Proof.
  intros Ht H0 H. unfold perMille64.
  assert (Pt : 0 < inject_Z t) by (unfold Qlt; cbn; lia).
  assert (P0 : 0 <= inject_Z el) by (unfold Qle; cbn; lia).
  assert (P1 : inject_Z el <= inject_Z el') by (rewrite <- Zle_Qle; exact H).
  assert (R0 : 0 <= inject_Z el / inject_Z t)
    by (apply Qle_shift_div_l; [exact Pt | lra]).
  assert (R : inject_Z el / inject_Z t <= inject_Z el' / inject_Z t).
  { apply Qmult_le_compat_r; [exact P1|].
    apply Qlt_le_weak, Qinv_lt_0_compat. exact Pt. }
  pose proof (round64_nonneg _ R0) as N1.
  pose proof (round64_mono _ _ R0 R) as M1.
  apply Qfloor_resp_le.
  assert (M2 : round64 (round64 (inject_Z el / inject_Z t) * 1000)
               <= round64 (round64 (inject_Z el' / inject_Z t) * 1000))
    by (apply round64_mono; lra).
  lra.
Qed.

Lemma perMille64_zero (t : Z) : (0 < t)%Z -> perMille64 0 t = 0%Z.
Proof.
  intros Ht. unfold perMille64.
  rewrite (round64_zero (inject_Z 0 / inject_Z t))
    by (unfold Qdiv; ring).
  reflexivity.
Qed.

Lemma perMille64_full (t : Z) : (t <> 0)%Z -> perMille64 t t = 1000%Z.
Proof.
  intros Ht. unfold perMille64.
  rewrite (round64_comp (inject_Z t / inject_Z t) 1).
  - reflexivity.
  - field. intros E. unfold Qeq in E. cbn in E. lia.
Qed.

Lemma eta_small : eta < 2 ^ (-42).
Proof. vm_compute. reflexivity. Qed.

Lemma eta_pos : 0 < eta.
Proof. pose proof eps_pos. pose proof tiny_pos. unfold eta. lra. Qed.

Lemma perMille64_near (el t : Z) :
  (0 < t)%Z -> (0 <= el <= t)%Z ->
  Qabs (inject_Z (perMille64 el t) - 1000 * (inject_Z el / inject_Z t))
  <= (1 # 2) + eta.
Proof.
  intros Ht Hel. pose proof (y_near el t Ht Hel) as N.
  unfold perMille64.
  set (y := round64 (round64 (inject_Z el / inject_Z t) * 1000)) in *.
  pose proof (Qfloor_le (y + (1 # 2))) as Lo.
  pose proof (Qlt_floor (y + (1 # 2))) as Hi.
  rewrite inject_Z_succ in Hi.
  apply Qabs_Qle_condition in N. apply Qabs_Qle_condition.
  lra.
Qed.

(** On a range of at most 2^41 milliseconds the rounding is that of the
    exact product, but for the direction at a half. *)
Lemma perMille64_exact (el t : Z) :
  (0 < t <= 2 ^ 41)%Z -> (0 <= el <= t)%Z ->
  ((2 * perMille64 el t - 1) * t <= 2000 * el
   <= (2 * perMille64 el t + 1) * t)%Z.
Proof.
  intros [Ht Ht'] Hel.
  pose proof (perMille64_near el t Ht Hel) as N.
  apply Qabs_Qle_condition in N.
  set (K := perMille64 el t) in *.
  pose proof eta_small as Es. pose proof eta_pos as Ep.
  change (2 ^ (-42)) with (1 # 4398046511104) in Es.
  assert (Pt : 0 < inject_Z t) by (unfold Qlt; cbn; lia).
  assert (Pt' : inject_Z t <= 2199023255552)
    by (change 2199023255552 with (inject_Z (2 ^ 41));
        rewrite <- Zle_Qle; exact Ht').
  assert (Er : inject_Z el / inject_Z t * inject_Z t == inject_Z el)
    by (field; lra).
  set (r := inject_Z el / inject_Z t) in *.
  assert (A : inject_Z ((2 * K - 1) * t) < inject_Z (2000 * el + 1)).
  { rewrite inject_Z_mult, inject_Z_plus, inject_Z_mult. 
    unfold Zminus. rewrite inject_Z_plus, inject_Z_mult.
    change (inject_Z 2) with 2. change (inject_Z 2000) with 2000.
    change (inject_Z (-1)) with (-1). change (inject_Z 1) with 1.
    clearbody r K. generalize dependent eta. intros h N Es Ep.
    generalize dependent (inject_Z t). generalize dependent (inject_Z el).
    generalize dependent (inject_Z K). intros k N e T PT PT' Er.
    destruct N as [_ N].
    assert (H1 : 2 * h * T < 1) by nra.
    assert (H2 : (k - 1000 * r) * T <= ((1 # 2) + h) * T)
      by (apply Qmult_le_compat_r; lra).
    assert (E1 : (2 * k + -1) * T
                 == 2 * ((k - 1000 * r) * T) + 2000 * (r * T) - T) by ring.
    assert (E2 : ((1 # 2) + h) * T == (1 # 2) * T + (1 # 2) * (2 * h * T))
      by ring.
    rewrite E1, Er. rewrite E2 in H2.
    generalize dependent ((k - 1000 * r) * T).
    generalize dependent (2 * h * T). intros. lra. }
  assert (B : inject_Z (2000 * el) < inject_Z ((2 * K + 1) * t + 1)).
  { rewrite inject_Z_plus, !inject_Z_mult, inject_Z_plus, inject_Z_mult.
    change (inject_Z 2) with 2. change (inject_Z 2000) with 2000.
    change (inject_Z 1) with 1.
    clearbody r K. generalize dependent eta. intros h N Es Ep.
    generalize dependent (inject_Z t). generalize dependent (inject_Z el).
    generalize dependent (inject_Z K). intros k N e T PT PT' Er.
    destruct N as [N _].
    assert (H1 : 2 * h * T < 1) by nra.
    assert (H2 : - ((1 # 2) + h) * T <= (k - 1000 * r) * T)
      by (apply Qmult_le_compat_r; lra).
    assert (E1 : (2 * k + 1) * T + 1
                 == 2 * ((k - 1000 * r) * T) + 2000 * (r * T) + T + 1)
      by ring.
    assert (E2 : - ((1 # 2) + h) * T
                 == - ((1 # 2) * T) - (1 # 2) * (2 * h * T)) by ring.
    rewrite E1, Er. rewrite E2 in H2.
    generalize dependent ((k - 1000 * r) * T).
    generalize dependent (2 * h * T). intros. lra. }
  rewrite <- Zlt_Qlt in A, B. lia.
Qed.

Lemma perMille64_high (el t : Z) :
  (0 < t)%Z -> (0 <= el <= t)%Z -> (2048 * (t - el) <= t)%Z ->
  perMille64 el t = 1000%Z.
Proof.
  intros Ht Hel H.
  pose proof (perMille64_bounds el t Ht Hel) as [_ U].
  apply Z.le_antisymm; [exact U|].
  unfold perMille64.
  assert (Pt : 0 < inject_Z t) by (unfold Qlt; cbn; lia).
  assert (R : (2047 # 2048) <= inject_Z el / inject_Z t).
  { apply Qle_shift_div_l; [exact Pt|].
    unfold Qle, Qmult, inject_Z. cbn [Qnum Qden]. lia. }
  assert (M1 : (2047 # 2048) <= round64 (inject_Z el / inject_Z t)).
  { change (2047 # 2048) with (round64 (2047 # 2048)) at 1.
    apply round64_mono; [discriminate | exact R]. }
  assert (M2 : (255875 # 256)
               <= round64 (round64 (inject_Z el / inject_Z t) * 1000)).
  { change (255875 # 256) with (round64 ((2047 # 2048) * 1000)).
    apply round64_mono; [discriminate | lra]. }
  apply Z.le_trans with (Qfloor ((255875 # 256) + (1 # 2)));
    [vm_compute; discriminate|].
  apply Qfloor_resp_le. lra.
Qed.

Lemma perMille64_low (el t : Z) :
  (0 < t)%Z -> (0 <= el <= t)%Z -> (4096 * el <= t)%Z ->
  perMille64 el t = 0%Z.
Proof.
  intros Ht Hel H.
  pose proof (perMille64_bounds el t Ht Hel) as [L _].
  apply Z.le_antisymm; [|exact L].
  unfold perMille64.
  destruct (ratio_bounds el t Ht Hel) as [R0 _].
  assert (Pt : 0 < inject_Z t) by (unfold Qlt; cbn; lia).
  assert (R : inject_Z el / inject_Z t <= (1 # 4096)).
  { apply Qle_shift_div_r; [exact Pt|].
    unfold Qle, Qmult, inject_Z. cbn [Qnum Qden]. lia. }
  assert (M1 : round64 (inject_Z el / inject_Z t) <= (1 # 4096)).
  { change (1 # 4096) with (round64 (1 # 4096)).
    apply round64_mono; assumption. }
  pose proof (round64_nonneg _ R0) as N1.
  assert (M2 : round64 (round64 (inject_Z el / inject_Z t) * 1000)
               <= (125 # 512)).
  { change (125 # 512) with (round64 ((1 # 4096) * 1000)).
    apply round64_mono; lra. }
  apply Z.le_trans with (Qfloor ((125 # 512) + (1 # 2)));
    [|vm_compute; discriminate].
  apply Qfloor_resp_le. lra.
Qed.

Lemma tenths64_near (k : Z) :
  (0 <= k <= 1000)%Z ->
  Qabs (tenths64 k - inject_Z k / 10) <= 1 # 1000.
Proof.
  intros [H0 H1].
  assert (P0 : 0 <= inject_Z k) by (unfold Qle; cbn; lia).
  assert (P1 : inject_Z k <= 1000)
    by (change 1000 with (inject_Z 1000); rewrite <- Zle_Qle; exact H1).
  assert (L : 0 <= inject_Z k / 10) by (apply Qle_shift_div_l; lra).
  assert (U : inject_Z k / 10 <= 100) by (apply Qle_shift_div_r; lra).
  pose proof (round64_error _ L) as E. fold (tenths64 k) in E.
  assert (S : 100 * eps + tiny <= 1 # 1000) by (vm_compute; discriminate).
  apply Qabs_Qle_condition in E. apply Qabs_Qle_condition.
  pose proof eps_pos as Hu. pose proof tiny_pos as Hd.
  assert (M : inject_Z k / 10 * eps <= 100 * eps)
    by (apply Qmult_le_compat_r; lra).
  generalize dependent (inject_Z k / 10 * eps).
  generalize dependent (inject_Z k / 10).
  generalize dependent eps. generalize dependent tiny. intros. lra.
Qed.

Lemma tenths64_inj (j k : Z) :
  (0 <= j <= 1000)%Z -> (0 <= k <= 1000)%Z ->
  tenths64 j = tenths64 k -> j = k.
Proof.
  intros Hj Hk E.
  pose proof (tenths64_near j Hj) as Nj. pose proof (tenths64_near k Hk) as Nk.
  rewrite E in Nj.
  apply Qabs_Qle_condition in Nj. apply Qabs_Qle_condition in Nk.
  assert (Ej : inject_Z j == 10 * (inject_Z j / 10)) by field.
  assert (Ek : inject_Z k == 10 * (inject_Z k / 10)) by field.
  assert (A : inject_Z j < inject_Z (k + 1)).
  { rewrite inject_Z_succ, Ej, Ek at 1.
    generalize dependent (inject_Z j / 10).
    generalize dependent (inject_Z k / 10). intros. lra. }
  assert (B : inject_Z k < inject_Z (j + 1)).
  { rewrite inject_Z_succ, Ej, Ek at 1.
    generalize dependent (inject_Z j / 10).
    generalize dependent (inject_Z k / 10). intros. lra. }
  rewrite <- Zlt_Qlt in A, B. lia.
Qed.

Lemma tenths64_mono (j k : Z) :
  (0 <= j)%Z -> (j <= k)%Z -> tenths64 j <= tenths64 k.
Proof.
  intros H0 H. apply round64_mono.
  - assert (0 <= inject_Z j) by (unfold Qle; cbn; lia).
    apply Qle_shift_div_l; lra.
  - assert (inject_Z j <= inject_Z k) by (rewrite <- Zle_Qle; exact H).
    apply Qmult_le_compat_r; [assumption | discriminate].
Qed.

Lemma tenths64_bounds (k : Z) :
  (0 <= k <= 1000)%Z -> 0 <= tenths64 k /\ tenths64 k <= 100.
Proof.
  intros [H0 H1]. split.
  - change 0 with (tenths64 0). apply tenths64_mono; lia.
  - change 100 with (tenths64 1000). apply tenths64_mono; lia.
Qed.

(** *** Whole numbers and their quotients *)

Lemma Qred_inject_Z (n : Z) : Qred (inject_Z n) = inject_Z n.
Proof.
  unfold Qred, inject_Z.
  pose proof (Z.ggcd_gcd n 1) as G.
  pose proof (Z.ggcd_correct_divisors n 1) as D.
  destruct (Z.ggcd n 1) as [g [aa bb]]. cbn [fst snd] in *.
  rewrite Z.gcd_1_r in G. subst g. destruct D as [Da Db].
  replace bb with 1%Z by lia. replace aa with n by lia. reflexivity.
Qed.

(** The whole numbers up to 2^53 are doubles. *)
Lemma round64_inject_Z (n : Z) :
  (0 <= n <= 2 ^ 53)%Z -> round64 (inject_Z n) = inject_Z n.
Proof.
  intros [H0 H1].
  destruct (Z.eq_dec n 0) as [-> | N0]; [reflexivity|].
  destruct (Z.eq_dec n (2 ^ 53)) as [-> | N1]; [vm_compute; reflexivity|].
  assert (P : 0 < inject_Z n) by (unfold Qlt, inject_Z; cbn [Qnum Qden]; lia).
  assert (L1 : 2 ^ 0 <= inject_Z n).
  { change (2 ^ 0) with (inject_Z 1). rewrite <- Zle_Qle. lia. }
  assert (U1 : inject_Z n < 2 ^ 53).
  { rewrite <- pow2_inject by lia. rewrite <- Zlt_Qlt. lia. }
  destruct (flog2_spec _ P) as [L U].
  rewrite <- pow2_succ in U.
  assert (F0 : 2 ^ 0 < 2 ^ (flog2 (inject_Z n) + 1)) by lra.
  assert (F1 : 2 ^ flog2 (inject_Z n) < 2 ^ 53) by lra.
  apply pow2_lt_inv in F0, F1.
  pose proof (exponent_pos _ P) as Ee. unfold emin in Ee.
  set (e := exponent (inject_Z n)) in *.
  assert (He : (-52 <= e <= 0)%Z) by lia.
  rewrite <- (Qred_inject_Z n) at 2.
  unfold round64. fold e. apply Qred_complete.
  assert (Es : inject_Z n / 2 ^ e == inject_Z (n * 2 ^ (- e))).
  { rewrite inject_Z_mult, pow2_inject by lia.
    rewrite Qpower_opp. reflexivity. }
  rewrite (nearestEven_comp _ _ Es), nearestEven_Z.
  rewrite inject_Z_mult, pow2_inject by lia.
  rewrite Qpower_opp. field.
  pose proof (pow2_pos e). lra.
Qed.

Lemma round64_nonpos (x : Q) : x <= 0 -> round64 x <= 0.
Proof.
  intros Hx. rewrite round64_value.
  pose proof (pow2_pos (exponent x)) as Pe.
  assert (K : inject_Z (nearestEven (x / 2 ^ exponent x)) <= 0).
  { change 0 with (inject_Z 0). rewrite <- Zle_Qle.
    rewrite <- (nearestEven_Z 0). apply nearestEven_mono.
    apply Qle_shift_div_r; [exact Pe|]. rewrite Qmult_0_l. exact Hx. }
  generalize dependent (inject_Z (nearestEven (x / 2 ^ exponent x))).
  generalize dependent (2 ^ exponent x). intros. nra.
Qed.

Lemma round64_2_53 : round64 (2 ^ 53) = 2 ^ 53.
Proof. vm_compute. reflexivity. Qed.

(** No overflow below 2^53. *)
Lemma fin64_bounded (x : Q) :
  0 <= x -> x <= 2 ^ 53 -> fin64 x = Fin (round64 x).
Proof.
  intros H0 H1. unfold fin64. cbv zeta.
  pose proof (round64_nonneg x H0) as N.
  assert (U : round64 x <= round64 (2 ^ 53))
    by (apply round64_mono; assumption).
  rewrite round64_2_53 in U.
  destruct (Qle_bool overflow (Qabs (round64 x))) eqn:E; [|reflexivity].
  exfalso. apply Qle_bool_iff in E. rewrite Qabs_pos in E by exact N.
  assert (O : 2 ^ 53 < overflow) by (vm_compute; reflexivity).
  generalize dependent (2 ^ 53). intros. lra.
Qed.

(** A quotient that is not positive: its double is not positive either,
    or it is the negative infinity. *)
Lemma fin64_nonpos (x : Q) :
  x <= 0 -> fin64 x = NegInf \/ exists r, fin64 x = Fin r /\ r <= 0.
Proof.
  intros Hx. unfold fin64. cbv zeta.
  pose proof (round64_nonpos x Hx) as N.
  destruct (Qle_bool overflow (Qabs (round64 x))) eqn:E.
  - left. apply Qle_bool_iff in E. rewrite Qabs_neg in E by exact N.
    assert (O : 0 < overflow) by (vm_compute; reflexivity).
    destruct (Qle_bool 0 (round64 x)) eqn:E0; [|reflexivity].
    apply Qle_bool_iff in E0. exfalso. lra.
  - right. eexists. split; [reflexivity | exact N].
Qed.

Lemma eps_2_53 : 2 ^ 53 * eps == 1.
Proof. vm_compute. reflexivity. Qed.

Lemma tiny_2_53 : 2 ^ 53 * tiny < eps.
Proof. vm_compute. reflexivity. Qed.

(** The double of a quotient of whole numbers up to 2^53 lies between the
    same two whole numbers as the quotient. *)
Lemma round64_quotient (a b c : Z) :
  (0 <= a < 2 ^ 53)%Z -> (0 < b <= 2 ^ 53)%Z ->
  ((c - 1) * b < a <= c * b)%Z ->
  inject_Z (c - 1) < round64 (inject_Z a / inject_Z b)
  /\ round64 (inject_Z a / inject_Z b) <= inject_Z c.
Proof.
  intros [Ha0 Ha1] [Hb0 Hb1] [Hc0 Hc1].
  assert (Hc : (0 <= c <= 2 ^ 53)%Z) by nia.
  assert (PB : 0 < inject_Z b) by (unfold Qlt, inject_Z; cbn [Qnum Qden]; lia).
  assert (PA : 0 <= inject_Z a) by (unfold Qle, inject_Z; cbn [Qnum Qden]; lia).
  assert (Q0 : 0 <= inject_Z a / inject_Z b)
    by (apply Qle_shift_div_l; [exact PB | lra]).
  assert (Q1 : inject_Z a / inject_Z b <= inject_Z c).
  { apply Qle_shift_div_r; [exact PB|].
    rewrite <- inject_Z_mult, <- Zle_Qle. exact Hc1. }
  split.
  2:{ rewrite <- (round64_inject_Z c Hc). apply round64_mono; assumption. }
  pose proof (round64_error _ Q0) as E. apply Qabs_Qle_condition in E.
  destruct E as [E _].
  assert (A1 : inject_Z (c - 1) * inject_Z b + 1 <= inject_Z a).
  { rewrite <- inject_Z_mult. change 1 with (inject_Z 1).
    rewrite <- inject_Z_plus, <- Zle_Qle. lia. }
  assert (A2 : inject_Z a + 1 <= 2 ^ 53).
  { change 1 with (inject_Z 1). rewrite <- inject_Z_plus.
    rewrite <- pow2_inject by lia. rewrite <- Zle_Qle. lia. }
  assert (B2 : inject_Z b <= 2 ^ 53).
  { rewrite <- pow2_inject by lia. rewrite <- Zle_Qle. exact Hb1. }
  assert (Er : inject_Z a / inject_Z b * inject_Z b == inject_Z a)
    by (field; lra).
  pose proof eps_2_53 as F1. pose proof tiny_2_53 as F2.
  pose proof eps_pos as Pv. pose proof tiny_pos as Pd.
  set (q := inject_Z a / inject_Z b) in *.
  set (r := round64 q) in *.
  set (p := 2 ^ 53) in *. set (v := eps) in *. set (d := tiny) in *.
  set (A := inject_Z a) in *. set (B := inject_Z b) in *.
  set (k := inject_Z (c - 1)) in *.
  clearbody q r p v d A B k. clear Q1 Hc Hc0 Hc1 Ha0 Ha1 Hb0 Hb1.
  (* r >= q - q v - d ; show k < r, i.e. k B < r B *)
  apply Qnot_le_lt. intros C.
  assert (C1 : r * B <= k * B) by (apply Qmult_le_compat_r; lra).
  assert (E1 : (q - (q * v + d)) * B <= r * B)
    by (apply Qmult_le_compat_r; lra).
  assert (E2 : (q - (q * v + d)) * B == A - A * v - d * B)
    by (rewrite <- Er; ring).
  assert (M1 : A * v <= (p - 1) * v) by (apply Qmult_le_compat_r; lra).
  assert (M2 : d * B <= d * p)
    by (rewrite !(Qmult_comm d); apply Qmult_le_compat_r; lra).
  assert (M3 : d * p == p * d) by ring.
  assert (M4 : (p - 1) * v == p * v - v) by ring.
  rewrite E2 in E1. rewrite M3 in M2. rewrite M4 in M1.
  set (rB := r * B) in *. set (kB := k * B) in *. set (Av := A * v) in *.
  set (dB := d * B) in *. set (pv := p * v) in *. set (pd := p * d) in *.
  clearbody rB kB Av dB pv pd. lra.
Qed.

End Rounding.

(** ** The quotients of the time left *)

(** [Math.ceil] of the double of a quotient of whole numbers that are not
    negative, up to 2^53: it is that of the quotient. *)
Lemma Math_ceil_fdiv (a b : Z) :
  0 <= a < 2 ^ 53 -> 0 < b <= 2 ^ 53 ->
  Math_ceil (fdiv (of_Z a) (of_Z b)) = Math_ceil (div (of_Z a) (of_Z b)).
Proof.
  intros Ha Hb. rewrite Math_ceil_div by lia.
  set (c := - (- a / b)).
  assert (Hc : (c - 1) * b < a <= c * b).
  { unfold c. Z.to_euclidean_division_equations. nia. }
  destruct (round64_quotient a b c Ha Hb Hc) as [L U].
  unfold fdiv, of_Z. rewrite Qeq_bool_inject_Z_0 by lia.
  rewrite fin64_bounded.
  - unfold Math_ceil, of_Z. f_equal. f_equal.
    pose proof (Qle_ceiling (round64 (inject_Z a / inject_Z b))) as C1.
    pose proof (Qceiling_lt (round64 (inject_Z a / inject_Z b))) as C2.
    set (c' := Qceiling (round64 (inject_Z a / inject_Z b))) in *.
    assert (X1 : (inject_Z (c - 1) < inject_Z c')%Q) by lra.
    assert (X2 : (inject_Z (c' - 1) < inject_Z c)%Q) by lra.
    rewrite <- Zlt_Qlt in X1, X2. lia.
  - apply Qle_shift_div_l.
    + unfold Qlt, inject_Z; cbn [Qnum Qden]; lia.
    + rewrite Qmult_0_l. unfold Qle, inject_Z; cbn [Qnum Qden]; lia.
  - apply Qle_shift_div_r.
    + unfold Qlt, inject_Z; cbn [Qnum Qden]; lia.
    + rewrite <- (pow2_inject 53) by lia. rewrite <- inject_Z_mult.
      rewrite <- Zle_Qle. nia.
Qed.

Lemma Math_max_0_nonpos (x : number) :
  x = NegInf \/ (exists z, x = of_Z z /\ z <= 0) ->
  Math_max (of_Z 0) x = of_Z 0.
Proof.
  intros [-> | (z & -> & Hz)]; [reflexivity|].
  rewrite Math_max_0_of_Z. f_equal. lia.
Qed.

(** The same when the dividend is negative, the result floored at 0. *)
Lemma Math_max_ceil_fdiv (a b : Z) :
  a < 2 ^ 53 -> 0 < b <= 2 ^ 53 ->
  Math_max (of_Z 0) (Math_ceil (fdiv (of_Z a) (of_Z b)))
  = Math_max (of_Z 0) (Math_ceil (div (of_Z a) (of_Z b))).
Proof.
  intros Ha Hb. destruct (Z.le_gt_cases 0 a) as [P | N].
  - rewrite Math_ceil_fdiv by lia. reflexivity.
  - rewrite Math_ceil_div by lia. rewrite Math_max_0_of_Z.
    replace (Z.max 0 (- (- a / b))) with 0
      by (Z.to_euclidean_division_equations; nia).
    apply Math_max_0_nonpos.
    unfold fdiv, of_Z. rewrite Qeq_bool_inject_Z_0 by lia.
    assert (Hq : (inject_Z a / inject_Z b <= 0)%Q).
    { apply Qle_shift_div_r.
      - unfold Qlt, inject_Z; cbn [Qnum Qden]; lia.
      - rewrite Qmult_0_l. unfold Qle, inject_Z; cbn [Qnum Qden]; lia. }
    destruct (fin64_nonpos _ Hq) as [-> | (r & -> & Hr)].
    + left. reflexivity.
    + right. exists (Qceiling r). split; [reflexivity|].
      change 0 with (Qceiling 0). apply Qceiling_resp_le. exact Hr.
Qed.

(** [Math.round] of the double of a quotient that is a whole number, the
    result floored at 0. *)
Lemma Math_max_round_fdiv (d b : Z) :
  d <= 2 ^ 53 -> 0 < b ->
  Math_max (of_Z 0) (Math_round (fdiv (of_Z (d * b)) (of_Z b)))
  = Math_max (of_Z 0) (Math_round (div (of_Z (d * b)) (of_Z b))).
Proof.
  intros Hd Hb.
  assert (Pb : (0 < inject_Z b)%Q)
    by (unfold Qlt, inject_Z; cbn [Qnum Qden]; lia).
  assert (Eq : (inject_Z (d * b) / inject_Z b == inject_Z d)%Q)
    by (rewrite inject_Z_mult; field; lra).
  assert (Er : Math_round (div (of_Z (d * b)) (of_Z b)) = of_Z d).
  { rewrite Math_round_div by exact Hb. f_equal.
    Z.to_euclidean_division_equations. nia. }
  rewrite Er, Math_max_0_of_Z.
  unfold fdiv, of_Z. rewrite Qeq_bool_inject_Z_0 by lia.
  destruct (Z.le_gt_cases 0 d) as [P | N].
  - rewrite fin64_bounded.
    + rewrite (round64_comp _ _ Eq), round64_inject_Z by lia.
      unfold Math_round.
      replace (Qfloor (inject_Z d + (1 # 2))) with d.
      * apply Math_max_0_of_Z.
      * symmetry. apply Z.le_antisymm.
        -- apply Z.lt_succ_r. rewrite Zlt_Qlt.
           apply Qle_lt_trans with (inject_Z d + (1 # 2))%Q;
             [apply Qfloor_le|].
           unfold Z.succ. rewrite inject_Z_plus.
           change (inject_Z 1) with 1%Q. lra.
        -- rewrite <- (Qfloor_Z d) at 1. apply Qfloor_resp_le. lra.
    + rewrite Eq. unfold Qle, inject_Z; cbn [Qnum Qden]; lia.
    + rewrite Eq. rewrite <- (pow2_inject 53) by lia.
      rewrite <- Zle_Qle. exact Hd.
  - rewrite Z.max_l by lia.
    assert (Hq : (inject_Z (d * b) / inject_Z b <= 0)%Q).
    { rewrite Eq. unfold Qle, inject_Z; cbn [Qnum Qden]; lia. }
    apply Math_max_0_nonpos.
    destruct (fin64_nonpos _ Hq) as [-> | (r & -> & Hr)].
    + left. reflexivity.
    + right. exists (Qfloor (r + (1 # 2))). split; [reflexivity|].
      change 0 with (Qfloor (0 + (1 # 2))). apply Qfloor_resp_le. lra.
Qed.

(** ** The completion percentage *)

Lemma elapsed_clamp (start end_ now : Z) :
  start <= end_ ->
  Z.min (Z.max (now - start) 0) (end_ - start)
  = Dashboard.clamp now start end_ - start.
Proof. intros H. unfold Dashboard.clamp. lia. Qed.

Lemma clamp_bounds (start end_ now : Z) :
  start <= end_ -> 0 <= Dashboard.clamp now start end_ - start <= end_ - start.
Proof. intros H. unfold Dashboard.clamp. lia. Qed.

(** No overflow on the numbers of the percentage. *)
Lemma fin64_small (x : Q) :
  (0 <= x)%Q -> (x <= 1000)%Q -> fin64 x = Fin (round64 x).
Proof.
  intros H0 H1. unfold fin64. cbv zeta.
  pose proof (round64_nonneg x H0) as N.
  assert (U : (round64 x <= round64 1000)%Q)
    by (apply round64_mono; assumption).
  rewrite round64_1000 in U.
  destruct (Qle_bool overflow (Qabs (round64 x))) eqn:E; [|reflexivity].
  exfalso. apply Qle_bool_iff in E. rewrite Qabs_pos in E by exact N.
  assert (O : (1000 < overflow)%Q) by (vm_compute; reflexivity).
  lra.
Qed.

Lemma inject_Z_nonneg (z : Z) : 0 <= z -> (0 <= inject_Z z)%Q.
Proof. intros H. unfold Qle, inject_Z. cbn [Qnum Qden]. lia. Qed.

(** [elapsed / total]. *)
Lemma fdiv_ratio (el t : Z) :
  0 < t -> 0 <= el <= t ->
  fdiv (of_Z el) (of_Z t) = Fin (round64 (inject_Z el / inject_Z t)).
Proof.
  intros Ht Hel. unfold fdiv, of_Z.
  rewrite Qeq_bool_inject_Z_0 by lia.
  destruct (ratio_bounds el t Ht Hel) as [L U].
  apply fin64_small; [exact L | lra].
Qed.

(** [ratio * 1000]. *)
Lemma fmul_thousand (r : Q) :
  (0 <= r)%Q -> (r <= 1)%Q ->
  fmul (Fin r) (of_Z 1000) = Fin (round64 (r * 1000)).
Proof.
  intros L U. unfold fmul, of_Z. change (inject_Z 1000) with 1000%Q.
  apply fin64_small; lra.
Qed.

(** [k / 10]. *)
Lemma fdiv_tenths (k : Z) :
  0 <= k <= 1000 -> fdiv (of_Z k) (of_Z 10) = Fin (tenths64 k).
Proof.
  intros [H0 H1]. unfold fdiv, of_Z.
  rewrite Qeq_bool_inject_Z_0 by lia.
  change (inject_Z 10) with 10%Q. unfold tenths64.
  pose proof (inject_Z_nonneg k H0) as P0.
  assert (P1 : (inject_Z k <= 1000)%Q)
    by (change 1000%Q with (inject_Z 1000); rewrite <- Zle_Qle; exact H1).
  apply fin64_small.
  - apply Qle_shift_div_l; [reflexivity | lra].
  - apply Qle_shift_div_r; [reflexivity | lra].
Qed.

Lemma fdiv_self (t : Z) : t <> 0 -> fdiv (of_Z t) (of_Z t) = Fin 1.
Proof.
  intros H. unfold fdiv, of_Z. rewrite Qeq_bool_inject_Z_0 by exact H.
  unfold fin64.
  rewrite (round64_comp (inject_Z t / inject_Z t) 1).
  - vm_compute. reflexivity.
  - apply Qmult_inv_r. unfold Qeq. cbn. lia.
Qed.

Lemma perMille64_eq (el t : Z) :
  Qfloor (round64 (round64 (inject_Z el / inject_Z t) * 1000) + (1 # 2))
  = perMille64 el t.
Proof. unfold perMille64. reflexivity. Qed.

Lemma tenths64_0 : tenths64 0 = 0%Q.
Proof. vm_compute. reflexivity. Qed.

Lemma tenths64_1000 : tenths64 1000 = 100%Q.
Proof. vm_compute. reflexivity. Qed.

(** The percentage of a range that is not empty: the double [k / 10] of
    the thousandths [k] that [Math.round] returns. *)
Lemma calculateProgress_tenths (start end_ now : Z) :
  start < end_ ->
  Share.calculateProgress start end_ now
  = Fin (tenths64 (perMille64 (Dashboard.clamp now start end_ - start)
                              (end_ - start))).
Proof.
  intros H. unfold Share.calculateProgress, getTime. cbv zeta.
  rewrite elapsed_clamp by lia.
  destruct (Z.eqb_spec (end_ - start) 0) as [E | _]; [lia|].
  pose proof (clamp_bounds start end_ now (Z.lt_le_incl _ _ H)) as Hel.
  set (el := Dashboard.clamp now start end_ - start) in *.
  set (t := end_ - start) in *.
  assert (Ht : 0 < t) by (unfold t; lia).
  clearbody el t.
  rewrite (fdiv_ratio el t Ht Hel).
  destruct (r1_bounds el t Ht Hel) as [L U].
  rewrite (fmul_thousand _ L U).
  unfold Math_round. rewrite (perMille64_eq el t).
  apply fdiv_tenths. apply perMille64_bounds; assumption.
Qed.

Lemma calculateProgress_empty (start now : Z) :
  Share.calculateProgress start start now = Fin 0.
Proof.
  unfold Share.calculateProgress, getTime. cbv zeta.
  rewrite Z.sub_diag. vm_compute. reflexivity.
Qed.

(** The dashboard computes the percentage of a well-ordered entry as the
    share page does. *)
Lemma ProgressBar_percent (item : Dashboard.ProgressItem) (now : Z) :
  Dashboard.start item <= Dashboard.end_ item ->
  Dashboard.percent (Dashboard.ProgressBar item now)
  = Share.calculateProgress (Dashboard.start item) (Dashboard.end_ item) now.
Proof.
  intros H. unfold Dashboard.ProgressBar, Share.calculateProgress.
  cbn [Dashboard.percent]. unfold Dashboard.normalizeRange, getTime.
  destruct (Z.leb_spec (Dashboard.end_ item) (Dashboard.start item)) as [L | L];
    cbn [Dashboard.r_start Dashboard.r_end]; unfold Dashboard.clamp.
  - assert (E : Dashboard.end_ item = Dashboard.start item) by lia.
    rewrite E. reflexivity.
  - reflexivity.
Qed.

Lemma calculateProgress_between (start end_ now : Z) :
  start <= end_ ->
  Num.between 0 100 (Share.calculateProgress start end_ now).
Proof.
  intros H. destruct (Z.eq_dec start end_) as [E | N].
  - subst. rewrite calculateProgress_empty. cbn. split; discriminate.
  - rewrite calculateProgress_tenths by lia. cbn [between].
    apply tenths64_bounds.
    apply perMille64_bounds; [lia | apply clamp_bounds; exact H].
Qed.

Lemma calculateProgress_mono (start end_ now1 now2 : Z) :
  start <= end_ -> now1 <= now2 ->
  Num.le (Share.calculateProgress start end_ now1)
         (Share.calculateProgress start end_ now2).
Proof.
  intros H Hn. destruct (Z.eq_dec start end_) as [E | N].
  - subst. rewrite !calculateProgress_empty. cbn. discriminate.
  - rewrite !calculateProgress_tenths by lia. cbn [le].
    assert (Ht : 0 < end_ - start) by lia.
    apply tenths64_mono.
    + apply perMille64_bounds; [exact Ht | apply clamp_bounds; exact H].
    + apply perMille64_mono; [exact Ht | |]; unfold Dashboard.clamp; lia.
Qed.

(** 100 is shown from a 2048th of the range before its end, and 0 until a
    4096th of it has elapsed, whatever the length of the range. *)
Lemma calculateProgress_full (start end_ now : Z) :
  start < end_ -> 2048 * (end_ - now) <= end_ - start ->
  Share.calculateProgress start end_ now = Fin 100.
Proof.
  intros H Hn. rewrite calculateProgress_tenths by exact H.
  rewrite perMille64_high; [| lia | unfold Dashboard.clamp; lia ..].
  rewrite tenths64_1000. reflexivity.
Qed.

Lemma calculateProgress_none (start end_ now : Z) :
  start < end_ -> 4096 * (now - start) <= end_ - start ->
  Share.calculateProgress start end_ now = Fin 0.
Proof.
  intros H Hn. rewrite calculateProgress_tenths by exact H.
  rewrite perMille64_low; [| lia | unfold Dashboard.clamp; lia ..].
  rewrite tenths64_0. reflexivity.
Qed.

Lemma Fin_tenths64_inj (j k : Z) :
  0 <= j <= 1000 -> 0 <= k <= 1000 ->
  Fin (tenths64 j) = Fin (tenths64 k) -> j = k.
Proof.
  intros Hj Hk E. apply tenths64_inj; [exact Hj | exact Hk | congruence].
Qed.

(** On a range of at most 2^41 milliseconds, the thousandths that are
    shown are those nearest to the elapsed part of the range. *)
Lemma calculateProgress_shows (start end_ now k : Z) :
  start < end_ -> end_ - start <= 2 ^ 41 ->
  ((2 * k - 1) * (end_ - start)
   < 2000 * (Dashboard.clamp now start end_ - start)
   < (2 * k + 1) * (end_ - start) ->
   Share.calculateProgress start end_ now = fdiv (of_Z k) (of_Z 10)) /\
  (0 <= k <= 1000 ->
   Share.calculateProgress start end_ now = fdiv (of_Z k) (of_Z 10) ->
   (2 * k - 1) * (end_ - start)
   <= 2000 * (Dashboard.clamp now start end_ - start)
   <= (2 * k + 1) * (end_ - start)).
Proof.
  intros H Hs. rewrite calculateProgress_tenths by exact H.
  pose proof (clamp_bounds start end_ now (Z.lt_le_incl _ _ H)) as Hel.
  set (el := Dashboard.clamp now start end_ - start) in *.
  set (t := end_ - start) in *.
  assert (Ht : 0 < t <= 2 ^ 41) by (unfold t; lia).
  pose proof (perMille64_exact el t Ht Hel) as X.
  pose proof (perMille64_bounds el t (proj1 Ht) Hel) as B.
  set (K := perMille64 el t) in *. clearbody K el t. split.
  - intros Hk. assert (E : K = k) by nia.
    rewrite E, fdiv_tenths by lia. reflexivity.
  - intros Hk E. rewrite fdiv_tenths in E by exact Hk.
    apply Fin_tenths64_inj in E; [|exact B | exact Hk]. subst k. exact X.
Qed.

(** The elapsed part of the range, in the terms of the specification. *)
Lemma tenths_near (el t k : Z) (slack : Q) :
  0 < t ->
  (Qabs (inject_Z k - 1000 * (inject_Z el / inject_Z t))
   <= (1 # 2) + 10 * slack)%Q ->
  (Qabs (inject_Z k / 10 - 100 * (inject_Z el / inject_Z t))
   <= (1 # 20) + slack)%Q.
Proof.
  intros Ht N. apply Qabs_Qle_condition in N. apply Qabs_Qle_condition.
  assert (E : (inject_Z k / 10 == (1 # 10) * inject_Z k)%Q) by field.
  rewrite E.
  generalize dependent (inject_Z el / inject_Z t)%Q.
  generalize dependent (inject_Z k). intros. lra.
Qed.

Lemma tenths_exact (el t k : Z) :
  0 < t ->
  (2 * k - 1) * t <= 2000 * el <= (2 * k + 1) * t ->
  (Qabs (inject_Z k - 1000 * (inject_Z el / inject_Z t)) <= 1 # 2)%Q.
Proof.
  intros Ht [A B].
  assert (Pt : (0 < inject_Z t)%Q) by (unfold Qlt, inject_Z; cbn; lia).
  rewrite Zle_Qle in A, B.
  rewrite !inject_Z_mult in A, B.
  unfold Z.sub in A. rewrite inject_Z_plus, inject_Z_mult in A.
  rewrite inject_Z_plus, inject_Z_mult in B.
  change (inject_Z 2) with 2%Q in A, B.
  change (inject_Z 2000) with 2000%Q in A, B.
  change (inject_Z (-1)) with (-1)%Q in A. change (inject_Z 1) with 1%Q in B.
  assert (Er : (inject_Z el / inject_Z t * inject_Z t == inject_Z el)%Q)
    by (field; lra).
  set (r := (inject_Z el / inject_Z t)%Q) in *.
  rewrite <- Er in A, B. clearbody r.
  generalize dependent (inject_Z t). generalize dependent (inject_Z k).
  intros K T A B PT _.
  assert (A' : ((2 * K + -1) * T <= (2000 * r) * T)%Q).
  { setoid_replace ((2000 * r) * T)%Q with (2000 * (r * T))%Q by ring.
    exact A. }
  assert (B' : ((2000 * r) * T <= (2 * K + 1) * T)%Q).
  { setoid_replace ((2000 * r) * T)%Q with (2000 * (r * T))%Q by ring.
    exact B. }
  apply Qmult_le_r in A'; [|exact PT]. apply Qmult_le_r in B'; [|exact PT].
  apply Qabs_Qle_condition. lra.
Qed.

(** On a range of at most 2^41 milliseconds that is not empty, the
    percentage is the elapsed part of the range rounded to one decimal
    place. *)
Lemma calculateProgress_rounded (start end_ now : Z) :
  start < end_ -> end_ - start <= 2 ^ 41 ->
  Spec.roundedToTenth (100 * Spec.elapsedRatio start end_ now)
                      (Share.calculateProgress start end_ now).
Proof.
  intros Hlt Hs.
  pose proof (clamp_bounds start end_ now (Z.lt_le_incl _ _ Hlt)) as Hel.
  assert (Ht : 0 < end_ - start) by lia.
  pose proof (perMille64_bounds _ _ Ht Hel) as B.
  exists (perMille64 (Dashboard.clamp now start end_ - start) (end_ - start)).
  split.
  - rewrite calculateProgress_tenths by exact Hlt.
    symmetry. apply fdiv_tenths. exact B.
  - unfold Spec.elapsedRatio.
    apply Qle_trans with ((1 # 20) + 0)%Q; [|vm_compute; discriminate].
    apply tenths_near; [exact Ht|].
    apply Qle_trans with (1 # 2)%Q; [|vm_compute; discriminate].
    apply tenths_exact; [exact Ht|].
    apply perMille64_exact; [lia | exact Hel].
Qed.




(** At an instant when the elapsed part of the range is half-way between
    two tenths, the pages show either: on the school year of the share
    page, in UTC, 50 at 49.95 percent and 50 again at 50.05 percent, where
    the quotient is rounded to a double below 0.5005. *)
Lemma half_way_goes_either_way :
  let start := 1756771200000 in
  let end_ := 1782259200000 in
  (2000 * (1769502456000 - start) = 999 * (end_ - start) /\
   Share.calculateProgress start end_ 1769502456000
   = fdiv (of_Z 500) (of_Z 10)) /\
  (2000 * (1769527944000 - start) = 1001 * (end_ - start) /\
   Share.calculateProgress start end_ 1769527944000
   = fdiv (of_Z 500) (of_Z 10)).
Proof. vm_compute. repeat split. Qed.

(** C6.  For a range with [start <= end_], the percentage does not decrease
    as [now] increases from [start] to [end_], on both pages, and it stays
    between 0 and 100. *)
Theorem percent_monotone
    (item : Dashboard.ProgressItem) (now1 now2 : Z) :
  let start := Dashboard.start item in
  let end_ := Dashboard.end_ item in
  start <= end_ ->
  start <= now1 -> now1 <= now2 -> now2 <= end_ ->
  Num.le (Share.calculateProgress start end_ now1)
         (Share.calculateProgress start end_ now2) /\
  Num.le (Dashboard.percent (Dashboard.ProgressBar item now1))
         (Dashboard.percent (Dashboard.ProgressBar item now2)) /\
  Num.between 0 100 (Share.calculateProgress start end_ now1) /\
  Num.between 0 100 (Share.calculateProgress start end_ now2) /\
  Num.between 0 100 (Dashboard.percent (Dashboard.ProgressBar item now1)) /\
  Num.between 0 100 (Dashboard.percent (Dashboard.ProgressBar item now2)).
Proof.
  intros start end_ H H1 H12 H2.
  rewrite !ProgressBar_percent by exact H.
  pose proof (calculateProgress_mono start end_ now1 now2 H H12).
  pose proof (calculateProgress_between start end_ now1 H).
  pose proof (calculateProgress_between start end_ now2 H).
  tauto.
Qed.

Lemma percent_monotone_witness :
  let item := {| Dashboard.id := "high-school";
                 Dashboard.title := "High school progress";
                 Dashboard.start := 1693872000000;
                 Dashboard.end_ := 1813881600000;
                 Dashboard.accent := "var(--accent-mint)" |} in
  Num.le (Share.calculateProgress 1693872000000 1813881600000 1770032700000)
         (Share.calculateProgress 1693872000000 1813881600000 1790000000000).
Proof.
  intros item.
  refine (proj1 (percent_monotone item 1770032700000 1790000000000 _ _ _ _));
    vm_compute; discriminate.
Defined.

(** C7.  When the end of a range is its start, the percentage is 0 at every
    instant, on both pages: the total is 0 and the ratio is taken to be 0
    without dividing, where the division would have given [NaN]. *)
Theorem percent_of_empty_range
    (item : Dashboard.ProgressItem) (now : Z) :
  Dashboard.end_ item = Dashboard.start item ->
  Share.calculateProgress (Dashboard.start item) (Dashboard.end_ item) now
  = Fin 0 /\
  Dashboard.percent (Dashboard.ProgressBar item now) = Fin 0 /\
  Num.fdiv (of_Z (Z.min (Z.max (now - Dashboard.start item) 0)
                        (Dashboard.end_ item - Dashboard.start item)))
           (of_Z (Dashboard.end_ item - Dashboard.start item)) = NaN.
Proof.
  intros E. rewrite ProgressBar_percent by lia. rewrite E.
  rewrite calculateProgress_empty, Z.sub_diag.
  repeat split.
  replace (Z.min (Z.max (now - Dashboard.start item) 0) 0) with 0 by lia.
  reflexivity.
Qed.

Lemma percent_of_empty_range_witness :
  Share.calculateProgress 1756771200000 1756771200000 1770032700000 = Fin 0.
Proof.
  refine (proj1 (percent_of_empty_range
           {| Dashboard.id := "semester";
              Dashboard.title := "Semester progress";
              Dashboard.start := 1756771200000;
              Dashboard.end_ := 1756771200000;
              Dashboard.accent := "var(--accent-lilac)" |} 1770032700000 _)).
  reflexivity.
Defined.

(** The model returns the doubles that the machine computes: at the
    thousand instants half-way between two tenths of each range of the
    registries, in UTC, where the direction of the rounding depends on the
    last bit of the quotient; and on the range of 317 years, on one of two
    seconds, and on the example of the specification. *)
Lemma model_agrees_with_machine :
  let agree start end_ :=
    forallb (Machine.agrees start end_) (Machine.ties start end_) in
  agree 1756771200000 1770032700000 = true /\
  agree 1770032700000 1782259200000 = true /\
  agree 1756771200000 1769990400000 = true /\
  agree 1756771200000 1782259200000 = true /\
  agree 1750723200000 1756771200000 = true /\
  agree 1693872000000 1813881600000 = true /\
  forallb (fun sample : Z * Z * Z =>
             let '(start, end_, now) := sample in
             Machine.agrees start end_ now)
    [ (0, 10000000000011, 5455000000006);
      (0, 2000, 1001);
      (1756771200000, 1782259200000, 1769527944000);
      (1756771200000, 1769990400000, 1763387409600);
      (1756771200000, 1770032700000, 1767354300000);
      (1756771200000, 1769990400000, 1767354300000);
      (1756771200000, 1782259200000, 1767354300000);
      (1756771200000, 1756771200000, 1767354300000);
      (1756771200000, 1782259200000, 0);
      (1756771200000, 1782259200000, 1782259200000) ] = true.
Proof. vm_compute. repeat split. Qed.

(** On the school year of the share page, 12 of the thousand values
    half-way between two tenths go down, and the others up. *)
Lemma half_way_mostly_goes_up :
  let start := 1756771200000 in
  let end_ := 1782259200000 in
  let down k :=
    Machine.shows start end_
      (start + (2 * k + 1) * ((end_ - start) / 2000)) k in
  let up k :=
    Machine.shows start end_
      (start + (2 * k + 1) * ((end_ - start) / 2000)) (k + 1) in
  List.length (filter down (map Z.of_nat (seq 0 1000))) = 12%nat /\
  List.length (filter up (map Z.of_nat (seq 0 1000))) = 988%nat.
Proof. vm_compute. split; reflexivity. Qed.

(** ** The time left *)

(** [Spec.ceilDiv a b] is the least integer [z] with [a <= b * z]. *)
Lemma ceilDiv_least (a b z : Z) :
  0 < b -> (Spec.ceilDiv a b <= z <-> a <= b * z).
Proof.
  intros Hb. unfold Spec.ceilDiv. split; intros H.
  - pose proof (Z.mul_div_le (- a) b Hb). nia.
  - assert (- z <= - a / b) by (apply Z.div_le_lower_bound; lia). lia.
Qed.

Lemma ceilDiv_max_0 (a b : Z) :
  0 < b -> Spec.ceilDiv (Z.max 0 a) b = Z.max 0 (Spec.ceilDiv a b).
Proof.
  intros Hb. destruct (Z.le_gt_cases a 0) as [H | H].
  - rewrite (Z.max_l 0 a) by exact H.
    assert (Spec.ceilDiv a b <= 0) by (apply ceilDiv_least; lia).
    rewrite Z.max_l by assumption. reflexivity.
  - rewrite (Z.max_r 0 a) by lia.
    assert (~ Spec.ceilDiv a b <= 0) by (rewrite ceilDiv_least; lia).
    rewrite Z.max_r by lia. reflexivity.
Qed.

Lemma ceilDiv_pos (a b : Z) : 0 < b -> 0 < a -> 1 <= Spec.ceilDiv a b.
Proof.
  intros Hb Ha.
  assert (~ Spec.ceilDiv a b <= 0) by (rewrite ceilDiv_least; lia). lia.
Qed.

(** Rounding a whole number of days. *)
Lemma Math_round_whole (k b : Z) :
  0 < b -> Math_round (div (of_Z (k * b)) (of_Z b)) = of_Z k.
Proof.
  intros Hb. rewrite Math_round_div by exact Hb. f_equal.
  symmetry. apply Z.div_unique with (r := b); lia.
Qed.

(** [Date.UTC(year, month, date)] is the start of a day. *)
Lemma Date_UTC_whole (year month date : Z) :
  Date_UTC year month date = MakeDay (fullYear year) month date * msPerDay.
Proof. unfold Date_UTC, MakeDate, MakeTime. lia. Qed.

Section Zone.

Variable LocalTZA : Z -> bool -> Z.

Lemma Date_UTC_local (d : Date) :
  99 < getFullYear LocalTZA d ->
  Date_UTC (getFullYear LocalTZA d) (getMonth LocalTZA d) (getDate LocalTZA d)
  = Day (LocalTime LocalTZA d) * msPerDay.
Proof. intros H. apply Date_UTC_fields. exact H. Qed.

Lemma calculateDateDiffInDays_calendar (end_ now : Date) :
  99 < getFullYear LocalTZA end_ ->
  99 < getFullYear LocalTZA now ->
  Share.calculateDateDiffInDays LocalTZA end_ now
  = of_Z (Spec.calendarDaysLeft LocalTZA end_ now).
Proof.
  intros He Hn. unfold Share.calculateDateDiffInDays.
  rewrite !Date_UTC_local by assumption.
  rewrite <- Z.mul_sub_distr_r.
  change Share.MS_PER_DAY with msPerDay.
  rewrite Math_round_whole by reflexivity.
  apply Math_max_0_of_Z.
Qed.

(** Whatever the dates, the day count is a whole number, not negative. *)
Lemma calculateDateDiffInDays_nonneg (end_ now : Date) :
  exists z, Share.calculateDateDiffInDays LocalTZA end_ now = of_Z z /\ 0 <= z.
Proof.
  unfold Share.calculateDateDiffInDays.
  rewrite Math_round_div by reflexivity. rewrite Math_max_0_of_Z.
  eexists. split; [reflexivity | lia].
Qed.

Lemma calculateTimeLeft_hours (end_ now : Date) :
  Share.calculateTimeLeft LocalTZA end_ Share.hours now
  = of_Z (Z.max 0 (Spec.ceilDiv (end_ - now) msPerHour)).
Proof.
  unfold Share.calculateTimeLeft, getTime.
  change (1000 * 60 * 60) with msPerHour.
  rewrite Math_ceil_div by reflexivity.
  fold (Spec.ceilDiv (Z.max 0 (end_ - now)) msPerHour).
  rewrite ceilDiv_max_0 by reflexivity. reflexivity.
Qed.

Lemma calculateTimeLeft_seconds (end_ now : Date) :
  Share.calculateTimeLeft LocalTZA end_ Share.seconds now
  = of_Z (Z.max 0 (Spec.ceilDiv (end_ - now) msPerSecond)).
Proof.
  unfold Share.calculateTimeLeft, getTime.
  change 1000 with msPerSecond.
  rewrite Math_ceil_div by reflexivity.
  fold (Spec.ceilDiv (Z.max 0 (end_ - now)) msPerSecond).
  rewrite ceilDiv_max_0 by reflexivity. reflexivity.
Qed.

(** C8.  In hours and in seconds the time left is the ceiling of the
    milliseconds left over the length of the unit, floored at 0; in every
    unit it is a whole number that is not negative, also after the end; in
    hours and in seconds it is at least 1 while [now] is before the end. *)
Theorem time_left_rounds_up (end_ now : Date) :
  Share.calculateTimeLeft LocalTZA end_ Share.hours now
  = of_Z (Z.max 0 (Spec.ceilDiv (end_ - now) msPerHour)) /\
  Share.calculateTimeLeft LocalTZA end_ Share.seconds now
  = of_Z (Z.max 0 (Spec.ceilDiv (end_ - now) msPerSecond)) /\
  (forall unit, exists z,
      Share.calculateTimeLeft LocalTZA end_ unit now = of_Z z /\ 0 <= z) /\
  (now < end_ ->
   forall unit, unit <> Share.days ->
   exists z,
     Share.calculateTimeLeft LocalTZA end_ unit now = of_Z z /\ 1 <= z).
Proof.
  split; [apply calculateTimeLeft_hours|].
  split; [apply calculateTimeLeft_seconds|].
  split.
  - intros [ | | ].
    + apply calculateDateDiffInDays_nonneg.
    + rewrite calculateTimeLeft_hours. eexists. split; [reflexivity | lia].
    + rewrite calculateTimeLeft_seconds. eexists. split; [reflexivity | lia].
  - intros Hlt [ | | ] Hu; [congruence | | ].
    + rewrite calculateTimeLeft_hours. eexists. split; [reflexivity|].
      pose proof (ceilDiv_pos (end_ - now) msPerHour eq_refl). lia.
    + rewrite calculateTimeLeft_seconds. eexists. split; [reflexivity|].
      pose proof (ceilDiv_pos (end_ - now) msPerSecond eq_refl). lia.
Qed.

(** C2.  In days the time left is counted on calendar dates.  [Date.UTC] of
    the local year, month and date of each date is a whole number of days,
    and the result is the difference of the two day numbers, floored at 0:
    the rounding has nothing to round.  For dates from the year 100 on,
    the day number is that of the local day, so the result is the number of
    days between the two local days.  From 23:59 on the 23rd of June 2026
    to 00:00 on the 24th it is 1; when these are a minute apart, rounding
    the milliseconds between them would give 0. *)
Theorem days_left_counts_calendar_dates (end_ now : Date) :
  let dateOnly (d : Date) :=
    Date_UTC (getFullYear LocalTZA d) (getMonth LocalTZA d)
             (getDate LocalTZA d) in
  (exists dayOfEnd dayOfNow : Z,
      dateOnly end_ = dayOfEnd * msPerDay /\
      dateOnly now = dayOfNow * msPerDay /\
      Share.calculateTimeLeft LocalTZA end_ Share.days now
      = of_Z (Z.max 0 (dayOfEnd - dayOfNow))) /\
  (99 < getFullYear LocalTZA end_ -> 99 < getFullYear LocalTZA now ->
   dateOnly end_ = Day (LocalTime LocalTZA end_) * msPerDay /\
   dateOnly now = Day (LocalTime LocalTZA now) * msPerDay /\
   Share.calculateTimeLeft LocalTZA end_ Share.days now
   = of_Z (Spec.calendarDaysLeft LocalTZA end_ now)) /\
  (LocalTime LocalTZA end_ = Spec.civil 2026 5 24 0 0 ->
   LocalTime LocalTZA now = Spec.civil 2026 5 23 23 59 ->
   Share.calculateTimeLeft LocalTZA end_ Share.days now = of_Z 1 /\
   (end_ - now = msPerMinute ->
    Math_max (of_Z 0)
      (Math_round (div (of_Z (end_ - now)) (of_Z Share.MS_PER_DAY)))
    = of_Z 0)).
Proof.
  intros dateOnly. split; [|split].
  - subst dateOnly. cbv beta.
    eexists _, _. split; [apply Date_UTC_whole|].
    split; [apply Date_UTC_whole|].
    cbn [Share.calculateTimeLeft]. unfold Share.calculateDateDiffInDays.
    rewrite !Date_UTC_whole. rewrite <- Z.mul_sub_distr_r.
    change Share.MS_PER_DAY with msPerDay.
    rewrite Math_round_whole by reflexivity.
    apply Math_max_0_of_Z.
  - intros He Hn. subst dateOnly. cbv beta.
    split; [exact (Date_UTC_local end_ He)|].
    split; [exact (Date_UTC_local now Hn)|].
    exact (calculateDateDiffInDays_calendar end_ now He Hn).
  - intros He Hn. split.
    + cbn [Share.calculateTimeLeft].
      rewrite calculateDateDiffInDays_calendar.
      * unfold Spec.calendarDaysLeft. rewrite He, Hn. reflexivity.
      * unfold getFullYear. rewrite He. vm_compute. reflexivity.
      * unfold getFullYear. rewrite Hn. vm_compute. reflexivity.
    + intros Hm. rewrite Hm. reflexivity.
Qed.

End Zone.

Lemma time_left_rounds_up_witness :
  exists z,
    Share.calculateTimeLeft easternZone 1782273600000 Share.hours
                            1782273599999 = of_Z z /\ 1 <= z.
Proof.
  refine (proj2 (proj2 (proj2
            (time_left_rounds_up easternZone 1782273600000 1782273599999)))
            _ Share.hours _).
  - reflexivity.
  - discriminate.
Defined.

Lemma days_left_counts_calendar_dates_witness :
  let end_ := new_Date easternZone 2026 5 24 0 0 in
  let now := new_Date easternZone 2026 5 23 23 59 in
  Share.calculateTimeLeft easternZone end_ Share.days now
  = of_Z (Spec.calendarDaysLeft easternZone end_ now) /\
  Share.calculateTimeLeft easternZone end_ Share.days now = of_Z 1 /\
  Math_max (of_Z 0)
    (Math_round (div (of_Z (end_ - now)) (of_Z Share.MS_PER_DAY))) = of_Z 0.
Proof.
  intros end_ now.
  destruct (days_left_counts_calendar_dates easternZone end_ now)
    as (_ & H1 & H2).
  assert (He : 99 < getFullYear easternZone end_) by reflexivity.
  assert (Hn : 99 < getFullYear easternZone now) by reflexivity.
  assert (Le : LocalTime easternZone end_ = Spec.civil 2026 5 24 0 0)
    by reflexivity.
  assert (Ln : LocalTime easternZone now = Spec.civil 2026 5 23 23 59)
    by reflexivity.
  assert (Hm : end_ - now = msPerMinute) by reflexivity.
  split; [exact (proj2 (proj2 (H1 He Hn)))|].
  split; [exact (proj1 (H2 Le Ln))|].
  exact (proj2 (H2 Le Ln) Hm).
Defined.

(** ** The registries *)

Section Registries.

Variable LocalTZA : Z -> bool -> Z.

Lemma resolveRange_semester (now : Z) :
  Share.resolveRange (Share.get (Share.items LocalTZA) "semester") now
  = Share.semester_getRange LocalTZA now.
Proof. reflexivity. Qed.

Lemma resolveRange_year (now : Z) :
  Share.resolveRange (Share.get (Share.items LocalTZA) "year") now
  = {| Share.start := Some (new_Date3 LocalTZA 2025 8 2);
       Share.end_ := Some (new_Date3 LocalTZA 2026 5 24) |}.
Proof. reflexivity. Qed.

Lemma resolveRange_school (now : Z) :
  Share.resolveRange (Share.get (Share.items LocalTZA) "school") now
  = {| Share.start := Some (new_Date3 LocalTZA 2023 8 5);
       Share.end_ := Some (new_Date3 LocalTZA 2027 5 25) |}.
Proof. reflexivity. Qed.

Lemma semester_before_cutoff (now : Z) :
  now < new_Date LocalTZA 2026 1 2 11 45 ->
  Share.resolveRange (Share.get (Share.items LocalTZA) "semester") now
  = {| Share.start := Some (new_Date3 LocalTZA 2025 8 2);
       Share.end_ := Some (new_Date LocalTZA 2026 1 2 11 45) |}.
Proof.
  intros H. rewrite resolveRange_semester.
  unfold Share.semester_getRange, getTime.
  destruct (Z.geb_spec now (new_Date LocalTZA 2026 1 2 11 45));
    [lia | reflexivity].
Qed.

Lemma semester_from_cutoff (now : Z) :
  new_Date LocalTZA 2026 1 2 11 45 <= now ->
  Share.resolveRange (Share.get (Share.items LocalTZA) "semester") now
  = {| Share.start := Some (new_Date LocalTZA 2026 1 2 11 45);
       Share.end_ := Some (new_Date LocalTZA 2026 5 24 0 0) |}.
Proof.
  intros H. rewrite resolveRange_semester.
  unfold Share.semester_getRange, getTime.
  destruct (Z.geb_spec now (new_Date LocalTZA 2026 1 2 11 45));
    [reflexivity | lia].
Qed.

(** C3.  The semester of the share page switches at the cutoff, 11:45 on
    the 2nd of February 2026: before it, the range runs from the start of
    term to the cutoff; from it on, from the cutoff to the end of term; and
    the end of the first range is the start of the second. *)
Theorem semester_switches_at_cutoff (now : Z) :
  let cutoff := new_Date LocalTZA 2026 1 2 11 45 in
  let termStart := new_Date3 LocalTZA 2025 8 2 in
  let termEnd := new_Date LocalTZA 2026 5 24 0 0 in
  let semester := Share.get (Share.items LocalTZA) "semester" in
  (now < cutoff ->
   Share.resolveRange semester now
   = {| Share.start := Some termStart; Share.end_ := Some cutoff |}) /\
  (cutoff <= now ->
   Share.resolveRange semester now
   = {| Share.start := Some cutoff; Share.end_ := Some termEnd |}) /\
  (forall before after : Z,
      before < cutoff -> cutoff <= after ->
      Share.end_ (Share.resolveRange semester before) = Some cutoff /\
      Share.start (Share.resolveRange semester after) = Some cutoff).
Proof.
  intros cutoff termStart termEnd semester.
  split; [apply semester_before_cutoff|].
  split; [apply semester_from_cutoff|].
  intros before after H1 H2. subst semester.
  rewrite (semester_before_cutoff _ H1), (semester_from_cutoff _ H2).
  split; reflexivity.
Qed.

Hypothesis sane : Spec.saneZone LocalTZA.

(** A local date and time is less than a day away from its reading as
    UTC. *)
Lemma new_Date_near (year month date hours minutes : Z) :
  let c := Spec.civil (fullYear year) month date hours minutes in
  c - msPerDay < new_Date LocalTZA year month date hours minutes
  < c + msPerDay.
Proof.
  intros c. unfold new_Date, UTC. fold (Spec.civil (fullYear year) month
                                          date hours minutes). fold c.
  pose proof (sane c false). lia.
Qed.

Ltac near y m d h mi :=
  let H := fresh "N" in
  pose proof (new_Date_near y m d h mi) as H;
  cbv zeta in H;
  let c := eval vm_compute in (Spec.civil (fullYear y) m d h mi) in
  change (Spec.civil (fullYear y) m d h mi) with c in H;
  change msPerDay with 86400000 in H.

(** C10.  For each of the three targets of the share page and every
    instant, [resolveRange] returns a range with both bounds, the start
    strictly before the end. *)
Theorem share_ranges_well_ordered (target : string) (now : Z) :
  In target (map fst (Share.items LocalTZA)) ->
  exists s e,
    Share.resolveRange (Share.get (Share.items LocalTZA) target) now
    = {| Share.start := Some s; Share.end_ := Some e |} /\ s < e.
Proof.
  near 2025 8 2 0 0. near 2026 1 2 11 45. near 2026 5 24 0 0.
  near 2023 8 5 0 0. near 2027 5 25 0 0.
  intros [E | [E | [E | []]]]; subst target.
  - destruct (Z.lt_ge_cases now (new_Date LocalTZA 2026 1 2 11 45)) as [L | L].
    + eexists _, _. split; [apply semester_before_cutoff; exact L|].
      unfold new_Date3. lia.
    + eexists _, _. split; [apply semester_from_cutoff; exact L|]. lia.
  - eexists _, _. split; [apply resolveRange_year|]. unfold new_Date3. lia.
  - eexists _, _. split; [apply resolveRange_school|]. unfold new_Date3. lia.
Qed.

(** The value of a card, from the range it uses. *)
Lemma ProgressBar_normalized (item : Dashboard.ProgressItem) (now : Z) :
  let n := Dashboard.normalizeRange (Dashboard.start item)
                                    (Dashboard.end_ item) in
  Dashboard.ProgressBar item now
  = {| Dashboard.percent :=
         Share.calculateProgress (Dashboard.r_start n) (Dashboard.r_end n) now;
       Dashboard.daysLeft :=
         of_Z (Z.max 0 (Spec.ceilDiv (Dashboard.r_end n - now) msPerDay)) |}.
Proof.
  intros n. unfold Dashboard.ProgressBar. fold n. unfold getTime.
  change (1000 * 60 * 60 * 24) with msPerDay.
  rewrite Math_ceil_div by reflexivity. rewrite Math_max_0_of_Z.
  reflexivity.
Qed.

(** C9.  The school-year entry of the dashboard ends before it starts.
    [normalizeRange] swaps the bounds when the end is at or before the
    start and leaves them otherwise, so its result is ordered; and a card
    is computed from the normalized bounds only. *)
Theorem dashboard_normalizes_ranges :
  (exists item,
      Dashboard.entry LocalTZA "school-year" = Some item /\
      Dashboard.end_ item < Dashboard.start item) /\
  (forall start end_ : Z,
      (end_ <= start ->
       Dashboard.normalizeRange start end_
       = {| Dashboard.r_start := end_; Dashboard.r_end := start |}) /\
      (start < end_ ->
       Dashboard.normalizeRange start end_
       = {| Dashboard.r_start := start; Dashboard.r_end := end_ |}) /\
      Dashboard.r_start (Dashboard.normalizeRange start end_)
      <= Dashboard.r_end (Dashboard.normalizeRange start end_)) /\
  (forall (item : Dashboard.ProgressItem) (now : Z),
      let n := Dashboard.normalizeRange (Dashboard.start item)
                                        (Dashboard.end_ item) in
      Dashboard.ProgressBar item now
      = {| Dashboard.percent :=
             Share.calculateProgress (Dashboard.r_start n)
                                     (Dashboard.r_end n) now;
           Dashboard.daysLeft :=
             of_Z (Z.max 0 (Spec.ceilDiv (Dashboard.r_end n - now)
                                         msPerDay)) |}).
Proof.
  split; [|split].
  - eexists. split; [reflexivity|]. cbn [Dashboard.end_ Dashboard.start].
    near 2025 8 2 0 0. near 2025 5 24 0 0. unfold new_Date3. lia.
  - intros start end_. unfold Dashboard.normalizeRange.
    destruct (Z.leb_spec end_ start);
      cbn [Dashboard.r_start Dashboard.r_end];
      repeat split; intros; try reflexivity; lia.
  - apply ProgressBar_normalized.
Qed.

End Registries.

Lemma utcZone_sane : Spec.saneZone utcZone.
Proof. intros t b. vm_compute. split; reflexivity. Qed.

Lemma easternZone_sane : Spec.saneZone easternZone.
Proof.
  intros t b. unfold easternZone.
  destruct (_ || _); vm_compute; split; reflexivity.
Qed.

Lemma semester_switches_at_cutoff_witness :
  Share.resolveRange (Share.get (Share.items easternZone) "semester")
                     1770050699999
  = {| Share.start := Some (new_Date3 easternZone 2025 8 2);
       Share.end_ := Some (new_Date easternZone 2026 1 2 11 45) |} /\
  Share.resolveRange (Share.get (Share.items easternZone) "semester")
                     1770050700000
  = {| Share.start := Some (new_Date easternZone 2026 1 2 11 45);
       Share.end_ := Some (new_Date easternZone 2026 5 24 0 0) |}.
Proof.
  split.
  - apply (proj1 (semester_switches_at_cutoff easternZone 1770050699999)).
    reflexivity.
  - apply (proj1 (proj2
             (semester_switches_at_cutoff easternZone 1770050700000))).
    vm_compute. discriminate.
Defined.

Lemma share_ranges_well_ordered_witness :
  exists s e,
    Share.resolveRange (Share.get (Share.items easternZone) "year")
                       1770050700000
    = {| Share.start := Some s; Share.end_ := Some e |} /\ s < e.
Proof.
  apply (share_ranges_well_ordered easternZone easternZone_sane
           "year" 1770050700000).
  right. left. reflexivity.
Defined.

Lemma dashboard_normalizes_ranges_witness :
  exists item,
    Dashboard.entry easternZone "school-year" = Some item /\
    Dashboard.end_ item < Dashboard.start item.
Proof.
  exact (proj1 (dashboard_normalizes_ranges easternZone easternZone_sane)).
Defined.

(** ** The two pages side by side *)

(** At 11:45 UTC on the 2nd of January 2026 the share page shows 79.8 for
    the semester, of a range that ends at 11:45 on the 2nd of February, and
    the dashboard 80.1, of a range that ends at 0:00: the two pages do not
    agree on every common target. *)
Lemma surfaces_disagree_on_semester :
  (exists page,
      Share.SharePage utcZone "semester" "days"
                      1767354300000 1767354300000 1767354300000
      = Share.Returned page /\
      Share.p_end page = 1770032700000 /\
      Share.p_percent page = fdiv (of_Z 798) (of_Z 10)) /\
  (exists item,
      Dashboard.entry utcZone (Spec.dashboardId "semester") = Some item /\
      Dashboard.end_ item = 1769990400000 /\
      Dashboard.percent (Dashboard.ProgressBar item 1767354300000)
      = fdiv (of_Z 801) (of_Z 10)) /\
  ~ Spec.surfacesAgree utcZone "semester" 1767354300000.
Proof.
  split; [|split].
  - eexists. split; [vm_compute; reflexivity|].
    split; vm_compute; reflexivity.
  - eexists. split; [vm_compute; reflexivity|].
    split; vm_compute; reflexivity.
  - intros (page & item & Hp & Hi & Hpercent & _).
    vm_compute in Hp. vm_compute in Hi.
    injection Hp as <-. injection Hi as <-.
    vm_compute in Hpercent. discriminate.
Qed.

(** Where daylight saving applies, the days left of the two pages can
    differ on the high-school entry as well: at 23:30 on the 15th of
    January 2026, eastern time, the share page counts 526 calendar days and
    the dashboard 525 periods of 24 hours, rounded up. *)
Lemma days_differ_under_daylight_saving :
  let now := new_Date easternZone 2026 0 15 23 30 in
  Share.calculateTimeLeft easternZone (new_Date3 easternZone 2027 5 25)
                          Share.days now = of_Z 526 /\
  (exists item,
      Dashboard.entry easternZone "high-school" = Some item /\
      Dashboard.daysLeft (Dashboard.ProgressBar item now) = of_Z 525).
Proof.
  split; [reflexivity|]. eexists. split; reflexivity.
Qed.

(** Before the year 100 they differ too, since [Date.UTC] reads the years
    0 to 99 as 1900 to 1999: on the 1st of January 99, UTC, the share page
    counts the days from the 1st of January 1999. *)
Lemma days_differ_before_the_year_100 :
  let now := MakeDate (MakeDay 99 0 1) 0 in
  getFullYear utcZone now = 99 /\
  Share.calculateTimeLeft utcZone (new_Date3 utcZone 2027 5 25)
                          Share.days now
  = of_Z (Day (new_Date3 utcZone 2027 5 25) - MakeDay 1999 0 1) /\
  (exists item,
      Dashboard.entry utcZone "high-school" = Some item /\
      Dashboard.daysLeft (Dashboard.ProgressBar item now)
      = of_Z (Day (new_Date3 utcZone 2027 5 25) - MakeDay 99 0 1)).
Proof.
  split; [reflexivity|]. split; [reflexivity|].
  eexists. split; reflexivity.
Qed.

Section Agreement.

Variable LocalTZA : Z -> bool -> Z.
Hypothesis sane : Spec.saneZone LocalTZA.

Lemma SharePage_school_days (now : Z) :
  Share.SharePage LocalTZA "school" "days" now now now
  = Share.Returned
      {| Share.p_title := "High school";
         Share.p_accent := Some "var(--accent-mint)"%string;
         Share.p_percent :=
           Share.calculateProgress (new_Date3 LocalTZA 2023 8 5)
                                   (new_Date3 LocalTZA 2027 5 25) now;
         Share.p_start := new_Date3 LocalTZA 2023 8 5;
         Share.p_end := new_Date3 LocalTZA 2027 5 25;
         Share.p_timeLeft :=
           Share.calculateTimeLeft LocalTZA (new_Date3 LocalTZA 2027 5 25)
                                   Share.days now;
         Share.p_unit := Share.days |}.
Proof. reflexivity. Qed.

Lemma high_school_ordered :
  new_Date3 LocalTZA 2023 8 5 < new_Date3 LocalTZA 2027 5 25.
Proof.
  pose proof (new_Date_near LocalTZA sane 2023 8 5 0 0) as H1.
  pose proof (new_Date_near LocalTZA sane 2027 5 25 0 0) as H2.
  cbv zeta in H1, H2.
  change (Spec.civil (fullYear 2023) 8 5 0 0) with 1693872000000 in H1.
  change (Spec.civil (fullYear 2027) 5 25 0 0) with 1813881600000 in H2.
  change msPerDay with 86400000 in H1, H2.
  unfold new_Date3. lia.
Qed.

Lemma high_school_days (now : Z) :
  Spec.constantZone LocalTZA ->
  99 < getFullYear LocalTZA now ->
  Share.calculateTimeLeft LocalTZA (new_Date3 LocalTZA 2027 5 25)
                          Share.days now
  = of_Z (Z.max 0 (Spec.ceilDiv (new_Date3 LocalTZA 2027 5 25 - now)
                                msPerDay)).
Proof.
  intros Hc Hy. cbn [Share.calculateTimeLeft].
  assert (He : LocalTime LocalTZA (new_Date3 LocalTZA 2027 5 25)
               = 1813881600000).
  { unfold LocalTime, new_Date3, new_Date, UTC.
    rewrite (Hc _ true), (Hc _ false).
    change (MakeDate (MakeDay (fullYear 2027) 5 25) (MakeTime 0 0 0 0))
      with 1813881600000. lia. }
  rewrite calculateDateDiffInDays_calendar; [|unfold getFullYear; rewrite He;
                                               reflexivity | exact Hy].
  f_equal. unfold Spec.calendarDaysLeft. rewrite He.
  unfold LocalTime at 1. rewrite (Hc now true).
  unfold new_Date3, new_Date, UTC. rewrite (Hc _ false).
  change (MakeDate (MakeDay (fullYear 2027) 5 25) (MakeTime 0 0 0 0))
    with 1813881600000.
  unfold Spec.ceilDiv, Day, msPerDay. f_equal. euclid.
Qed.

(** C5, as amended.  On the high-school entry, whose bounds are the same on
    both pages, the share page shows the percentage of the dashboard's card
    at every instant; and, in a zone whose offset from UTC never changes
    and from the year 100 on, the same days left. *)
Theorem surfaces_agree_on_high_school (now : Z) :
  exists page item,
    Share.SharePage LocalTZA "school" "days" now now now
    = Share.Returned page /\
    Dashboard.entry LocalTZA (Spec.dashboardId "school") = Some item /\
    Share.p_percent page
    = Dashboard.percent (Dashboard.ProgressBar item now) /\
    (Spec.constantZone LocalTZA -> 99 < getFullYear LocalTZA now ->
     Share.p_timeLeft page
     = Dashboard.daysLeft (Dashboard.ProgressBar item now)).
Proof.
  pose proof high_school_ordered as Ho.
  eexists _, _. split; [apply SharePage_school_days|].
  split; [reflexivity|].
  rewrite ProgressBar_normalized.
  cbn [Share.p_percent Share.p_timeLeft Dashboard.percent Dashboard.daysLeft
       Dashboard.start Dashboard.end_].
  assert (Hn : Dashboard.normalizeRange (new_Date3 LocalTZA 2023 8 5)
                                        (new_Date3 LocalTZA 2027 5 25)
               = {| Dashboard.r_start := new_Date3 LocalTZA 2023 8 5;
                    Dashboard.r_end := new_Date3 LocalTZA 2027 5 25 |}).
  { unfold Dashboard.normalizeRange.
    destruct (Z.leb_spec (new_Date3 LocalTZA 2027 5 25)
                         (new_Date3 LocalTZA 2023 8 5)); [lia | reflexivity]. }
  rewrite Hn. cbn [Dashboard.r_start Dashboard.r_end].
  split; [reflexivity|].
  intros Hc Hy. apply high_school_days; assumption.
Qed.

End Agreement.

Lemma fixedZone_sane (offset : Z) :
  - msPerDay < offset < msPerDay -> Spec.saneZone (fixedZone offset).
Proof. intros H t b. exact H. Qed.

Lemma fixedZone_constant (offset : Z) : Spec.constantZone (fixedZone offset).
Proof. intros t b. reflexivity. Qed.

Lemma surfaces_agree_on_high_school_witness :
  let zone := fixedZone (- (5 * msPerHour)) in
  exists page item,
    Share.SharePage zone "school" "days" 1767354300000 1767354300000
                    1767354300000 = Share.Returned page /\
    Dashboard.entry zone "high-school" = Some item /\
    Share.p_percent page
    = Dashboard.percent (Dashboard.ProgressBar item 1767354300000) /\
    Share.p_timeLeft page
    = Dashboard.daysLeft (Dashboard.ProgressBar item 1767354300000).
Proof.
  intros zone.
  assert (Hs : Spec.saneZone zone)
    by (apply fixedZone_sane; vm_compute; split; reflexivity).
  destruct (surfaces_agree_on_high_school zone Hs 1767354300000)
    as (page & item & Hp & Hi & Hpercent & Hdays).
  exists page, item. repeat split; try assumption.
  apply Hdays.
  - apply fixedZone_constant.
  - reflexivity.
Defined.

(** ** Unknown targets and units *)

Section NotFound.

Variable LocalTZA : Z -> bool -> Z.

Lemma registry_ids (target : string) :
  In target (map fst (Share.items LocalTZA)) <->
  target = "semester"%string \/ target = "year"%string
  \/ target = "school"%string.
Proof. cbn. intuition congruence. Qed.

Lemma asUnit_includes (unit : string) :
  In unit ["days"; "hours"; "seconds"]%string <-> Share.asUnit unit <> None.
Proof.
  unfold Share.asUnit.
  destruct (String.eqb_spec unit "days");
    [subst; cbn; intuition congruence|].
  destruct (String.eqb_spec unit "hours");
    [subst; cbn; intuition congruence|].
  destruct (String.eqb_spec unit "seconds");
    [subst; cbn; intuition congruence|].
  cbn. intuition congruence.
Qed.

(** What the lookup [items[target]] yields. *)
Lemma get_items (target : string) :
  match Share.get (Share.items LocalTZA) target with
  | Share.VItem _ => In target (map fst (Share.items LocalTZA))
  | Share.VInherited name =>
      name = target /\ In target Share.Object_prototype /\
      ~ In target (map fst (Share.items LocalTZA))
  | Share.VUndefined =>
      ~ In target Share.Object_prototype /\
      ~ In target (map fst (Share.items LocalTZA))
  end.
Proof.
  unfold Share.get, Share.items. cbn [find fst snd].
  rewrite (String.eqb_sym _ target).
  destruct (String.eqb_spec target "semester"); [subst; cbn; auto|].
  rewrite (String.eqb_sym _ target).
  destruct (String.eqb_spec target "year"); [subst; cbn; auto|].
  rewrite (String.eqb_sym _ target).
  destruct (String.eqb_spec target "school"); [subst; cbn; auto|].
  assert (Hn : ~ In target (map fst (Share.items LocalTZA)))
    by (rewrite registry_ids; intuition congruence).
  destruct (existsb (String.eqb target) Share.Object_prototype) eqn:E.
  - apply existsb_exists in E. destruct E as (x & Hx & Ex).
    apply String.eqb_eq in Ex. subst x. auto.
  - split; [|exact Hn]. intros Hin.
    assert (existsb (String.eqb target) Share.Object_prototype = true)
      by (apply existsb_exists; exists target; split;
          [exact Hin | apply String.eqb_refl]).
    congruence.
Qed.

(** Neither entry point goes on when the lookup is [undefined] or the unit
    is not one of the three. *)
Lemma not_found_reported (target unit : string) (t1 t2 t3 : Z) :
  (~ In target (map fst (Share.items LocalTZA)) /\
   ~ In target Share.Object_prototype)
  \/ ~ In unit ["days"; "hours"; "seconds"]%string ->
  Share.generateMetadata LocalTZA target unit t1 t2
  = Share.Returned Spec.notFoundMetadata /\
  Share.SharePage LocalTZA target unit t1 t2 t3
  = Share.Thrown Share.NEXT_NOT_FOUND.
Proof.
  intros H. unfold Share.generateMetadata, Share.SharePage.
  pose proof (get_items target) as G.
  destruct H as [[Hr Hp] | Hu].
  - destruct (Share.get (Share.items LocalTZA) target);
      [contradiction | destruct G as (_ & G & _); contradiction |].
    cbn [Share.truthy]. split; reflexivity.
  - rewrite asUnit_includes in Hu.
    destruct (Share.asUnit unit); [exfalso; apply Hu; discriminate|].
    destruct (Share.truthy _); split; reflexivity.
Qed.

Lemma template_head (c : ascii) (s : string) (rest : list string) :
  exists tl, Share.template (String c s :: rest) = String c tl.
Proof.
  unfold Share.template. cbn [String.concat].
  destruct rest; eexists; cbn [String.append]; reflexivity.
Qed.

(** The two entry points on a target whose range has both bounds. *)
Lemma entry_points_proceed (target unit : string) (u : Share.Unit)
    (s e t1 t2 t3 : Z) :
  Share.truthy (Share.get (Share.items LocalTZA) target) = true ->
  Share.asUnit unit = Some u ->
  Share.resolveRange (Share.get (Share.items LocalTZA) target) t1
  = {| Share.start := Some s; Share.end_ := Some e |} ->
  (exists m,
      Share.generateMetadata LocalTZA target unit t1 t2 = Share.Returned m /\
      Share.m_title m
      = Share.template
          [ Share.prop_title (Share.get (Share.items LocalTZA) target);
            " - "; toString (Share.calculateTimeLeft LocalTZA e u t2);
            " "; Share.unitName u; " left" ]%string) /\
  Share.SharePage LocalTZA target unit t1 t2 t3
  = Share.Returned
      {| Share.p_title :=
           Share.prop_title (Share.get (Share.items LocalTZA) target);
         Share.p_accent :=
           Share.prop_accent (Share.get (Share.items LocalTZA) target);
         Share.p_percent := Share.calculateProgress s e t3;
         Share.p_start := s;
         Share.p_end := e;
         Share.p_timeLeft := Share.calculateTimeLeft LocalTZA e u t2;
         Share.p_unit := u |}.
Proof.
  intros Ht Hu Hr. unfold Share.generateMetadata, Share.SharePage.
  rewrite Ht, Hu. cbv zeta. rewrite Hr.
  cbn [Share.end_ Share.start Share.asDate Share.bind].
  split; [|reflexivity]. eexists. split; reflexivity.
Qed.

Lemma resolveRange_defined (target : string) (now : Z) :
  In target (map fst (Share.items LocalTZA)) ->
  exists s e,
    Share.resolveRange (Share.get (Share.items LocalTZA) target) now
    = {| Share.start := Some s; Share.end_ := Some e |}.
Proof.
  rewrite registry_ids. intros [E | [E | E]]; subst target.
  - rewrite resolveRange_semester. unfold Share.semester_getRange.
    destruct (_ >=? _); eexists _, _; reflexivity.
  - eexists _, _. apply resolveRange_year.
  - eexists _, _. apply resolveRange_school.
Qed.

(** On a target of the registry and one of the three units, neither entry
    point reports that the page does not exist. *)
Lemma valid_pair_found (target unit : string) (t1 t2 t3 : Z) :
  In target (map fst (Share.items LocalTZA)) ->
  In unit ["days"; "hours"; "seconds"]%string ->
  (exists m,
      Share.generateMetadata LocalTZA target unit t1 t2 = Share.Returned m /\
      Share.m_title m <> "Not Found"%string) /\
  (exists page,
      Share.SharePage LocalTZA target unit t1 t2 t3 = Share.Returned page).
Proof.
  intros Hin Hu. apply asUnit_includes in Hu.
  destruct (Share.asUnit unit) as [u|] eqn:Eu; [clear Hu | congruence].
  destruct (resolveRange_defined target t1 Hin) as (s & e & Hr).
  assert (Ht : Share.truthy (Share.get (Share.items LocalTZA) target) = true).
  { pose proof (get_items target) as G.
    destruct (Share.get (Share.items LocalTZA) target); try reflexivity.
    destruct G as [_ G]. contradiction. }
  destruct (entry_points_proceed target unit u s e t1 t2 t3 Ht Eu Hr)
    as ((m & Hm & Htitle) & Hp).
  split; [|eexists; exact Hp].
  exists m. split; [exact Hm|]. rewrite Htitle.
  apply registry_ids in Hin.
  assert (exists c rest,
            Share.prop_title (Share.get (Share.items LocalTZA) target)
            = String c rest /\ c <> "N"%char) as (c & rest & Ec & Hc).
  { destruct Hin as [E | [E | E]]; subst target;
      eexists _, _; (split; [reflexivity | discriminate]). }
  rewrite Ec. destruct (template_head c rest
      [" - "; toString (Share.calculateTimeLeft LocalTZA e u t2); " ";
       Share.unitName u; " left"]%string) as (tl & Etl).
  rewrite Etl. intros E. injection E as E1 _. contradiction.
Qed.

(** On a name that the registry only inherits, and one of the three units,
    both entry points go past the check and throw a [TypeError]. *)
Lemma inherited_name_throws (target unit : string) (t1 t2 t3 : Z) :
  In target Share.Object_prototype ->
  In unit ["days"; "hours"; "seconds"]%string ->
  Share.generateMetadata LocalTZA target unit t1 t2
  = Share.Thrown Share.TypeError /\
  Share.SharePage LocalTZA target unit t1 t2 t3
  = Share.Thrown Share.TypeError.
Proof.
  intros Hin Hu. apply asUnit_includes in Hu.
  destruct (Share.asUnit unit) as [u|] eqn:Eu; [clear Hu | congruence].
  assert (G : Share.get (Share.items LocalTZA) target
              = Share.VInherited target).
  { assert (Hp : existsb (String.eqb target) Share.Object_prototype = true)
      by (apply existsb_exists; exists target; split;
          [exact Hin | apply String.eqb_refl]).
    assert (Hn : ~ In target (map fst (Share.items LocalTZA))).
    { rewrite registry_ids. cbn in Hin. intuition (subst; discriminate). }
    pose proof (get_items target) as G.
    destruct (Share.get (Share.items LocalTZA) target) eqn:E.
    - contradiction.
    - destruct G as [-> _]. reflexivity.
    - destruct G as [G _]. contradiction. }
  unfold Share.generateMetadata, Share.SharePage.
  rewrite G, Eu. split; reflexivity.
Qed.

(** C4 at the target [constructor] and the unit [days].  The name is not an
    id of the registry, yet neither entry point reports that the page does
    not exist: the lookup finds the member inherited from
    [Object.prototype], the check passes, and both throw a [TypeError] on
    the missing end of the range. *)
Theorem inherited_name_is_not_reported (t1 t2 t3 : Z) :
  ~ In "constructor"%string (map fst (Share.items LocalTZA)) /\
  Share.generateMetadata LocalTZA "constructor" "days" t1 t2
  = Share.Thrown Share.TypeError /\
  Share.SharePage LocalTZA "constructor" "days" t1 t2 t3
  = Share.Thrown Share.TypeError /\
  Share.generateMetadata LocalTZA "constructor" "days" t1 t2
  <> Share.Returned Spec.notFoundMetadata /\
  Share.SharePage LocalTZA "constructor" "days" t1 t2 t3
  <> Share.Thrown Share.NEXT_NOT_FOUND.
Proof.
  assert (Share.generateMetadata LocalTZA "constructor" "days" t1 t2
          = Share.Thrown Share.TypeError) as Hm by reflexivity.
  assert (Share.SharePage LocalTZA "constructor" "days" t1 t2 t3
          = Share.Thrown Share.TypeError) as Hp by reflexivity.
  split; [rewrite registry_ids; intuition discriminate|].
  rewrite Hm, Hp. repeat split; discriminate.
Qed.

End NotFound.

Lemma inherited_name_is_not_reported_witness :
  Share.generateMetadata utcZone "constructor" "days"
                         1767354300000 1767354300000
  = Share.Thrown Share.TypeError /\
  Share.SharePage utcZone "constructor" "days"
                  1767354300000 1767354300000 1767354300000
  = Share.Thrown Share.TypeError.
Proof.
  pose proof (inherited_name_is_not_reported utcZone 1767354300000
                1767354300000 1767354300000) as (_ & Hm & Hp & _).
  split; assumption.
Defined.

(* ================================================================= *)
(** * Further properties *)

(** ** The percentage, again *)

Lemma fdiv_0_10 : fdiv (of_Z 0) (of_Z 10) = Fin 0.
Proof. vm_compute. reflexivity. Qed.

Lemma fdiv_1000_10 : fdiv (of_Z 1000) (of_Z 10) = Fin 100.
Proof. vm_compute. reflexivity. Qed.

(** X1.  On a range that is not empty and of at most 2^41 milliseconds,
    over 69 years, the percentage is [k] tenths whenever the elapsed part,
    in thousandths of the range, is less than half a thousandth away from
    [k], and only then or at half a thousandth from it.  So 0 is shown
    until a 2000th of the range has elapsed, and 100 from a 2000th before
    the end. *)
Theorem percent_shows_tenths (start end_ now k : Z) :
  start < end_ -> end_ - start <= 2 ^ 41 ->
  let elapsed := Dashboard.clamp now start end_ - start in
  let total := end_ - start in
  let shown := Share.calculateProgress start end_ now in
  ((2 * k - 1) * total < 2000 * elapsed < (2 * k + 1) * total ->
   shown = fdiv (of_Z k) (of_Z 10)) /\
  (0 <= k <= 1000 -> shown = fdiv (of_Z k) (of_Z 10) ->
   (2 * k - 1) * total <= 2000 * elapsed <= (2 * k + 1) * total) /\
  (2000 * (now - start) < total -> shown = Fin 0) /\
  (shown = Fin 0 -> 2000 * (now - start) <= total) /\
  (2000 * (end_ - now) < total -> shown = Fin 100) /\
  (shown = Fin 100 -> 2000 * (end_ - now) <= total).
Proof.
  intros H Hs elapsed total shown.
  pose proof (calculateProgress_shows start end_ now k H Hs) as [Hk Hk'].
  pose proof (calculateProgress_shows start end_ now 0 H Hs) as [H0 H0'].
  pose proof (calculateProgress_shows start end_ now 1000 H Hs) as [H1 H1'].
  rewrite fdiv_0_10 in H0, H0'. rewrite fdiv_1000_10 in H1, H1'.
  pose proof (clamp_bounds start end_ now (Z.lt_le_incl _ _ H)) as Hel.
  fold elapsed total shown in Hk, Hk', H0, H0', H1, H1', Hel.
  assert (Ec : elapsed = Z.min (Z.max (now - start) 0) total)
    by (unfold elapsed, total, Dashboard.clamp; lia).
  assert (Et : total = end_ - start) by reflexivity.
  clearbody elapsed total shown.
  split; [exact Hk|]. split; [exact Hk'|].
  split; [intros B; apply H0; lia|].
  split; [intros E; apply H0' in E; lia|].
  split; [intros B; apply H1; lia|].
  intros E; apply H1' in E; lia.
Qed.

Lemma percent_shows_tenths_witness :
  Share.calculateProgress 0 4000 3999 = Fin 100.
Proof.
  assert (H : 0 < 4000) by reflexivity.
  assert (Hs : 4000 - 0 <= 2 ^ 41) by (vm_compute; discriminate).
  apply (proj1 (proj2 (proj2 (proj2 (proj2
           (percent_shows_tenths 0 4000 3999 0 H Hs)))))).
  vm_compute. reflexivity.
Defined.

(** X2.  [calculateProgress] does not normalize: on a range whose end is
    before its start it returns 100 at every instant. *)
Theorem percent_of_inverted_range (start end_ now : Z) :
  end_ < start -> Share.calculateProgress start end_ now = Fin 100.
Proof.
  intros H. unfold Share.calculateProgress, getTime. cbv zeta.
  destruct (Z.eqb_spec (end_ - start) 0) as [E | N]; [lia|].
  replace (Z.min (Z.max (now - start) 0) (end_ - start)) with (end_ - start)
    by lia.
  rewrite fdiv_self by exact N. vm_compute. reflexivity.
Qed.

Lemma percent_of_inverted_range_witness :
  Share.calculateProgress 1756771200000 1750723200000 0 = Fin 100.
Proof.
  apply (percent_of_inverted_range 1756771200000 1750723200000 0).
  reflexivity.
Defined.

Lemma normalizeRange_sym (a b : Z) :
  Dashboard.normalizeRange a b = Dashboard.normalizeRange b a.
Proof.
  unfold Dashboard.normalizeRange.
  destruct (Z.leb_spec b a), (Z.leb_spec a b); try reflexivity; try lia.
  assert (a = b) by lia. subst. reflexivity.
Qed.

Lemma normalizeRange_bounds (a b : Z) :
  Dashboard.r_start (Dashboard.normalizeRange a b) = Z.min a b /\
  Dashboard.r_end (Dashboard.normalizeRange a b) = Z.max a b.
Proof.
  unfold Dashboard.normalizeRange.
  destruct (Z.leb_spec b a); cbn [Dashboard.r_start Dashboard.r_end]; lia.
Qed.

(** X3.  A card does not depend on which of the two dates of its entry is
    written as the start: with the dates exchanged, [ProgressBar] computes
    the same percentage and the same days left. *)
Theorem card_ignores_order_of_dates
    (item swapped : Dashboard.ProgressItem) (now : Z) :
  Dashboard.start swapped = Dashboard.end_ item ->
  Dashboard.end_ swapped = Dashboard.start item ->
  Dashboard.ProgressBar swapped now = Dashboard.ProgressBar item now.
Proof.
  intros Hs He. rewrite !ProgressBar_normalized. cbv zeta.
  rewrite Hs, He, normalizeRange_sym. reflexivity.
Qed.

Lemma card_ignores_order_of_dates_witness :
  Dashboard.ProgressBar
    {| Dashboard.id := "school-year";
       Dashboard.title := "School year progress";
       Dashboard.start := 1750723200000;
       Dashboard.end_ := 1756771200000;
       Dashboard.accent := "var(--accent-sky)" |} 1753000000000
  = Dashboard.ProgressBar
      {| Dashboard.id := "school-year";
         Dashboard.title := "School year progress";
         Dashboard.start := 1756771200000;
         Dashboard.end_ := 1750723200000;
         Dashboard.accent := "var(--accent-sky)" |} 1753000000000.
Proof.
  apply card_ignores_order_of_dates; reflexivity.
Defined.

(** X4.  Whatever the order of the two dates of an entry, at every instant
    its card shows a percentage between 0 and 100 and a whole number of
    days that is not negative; so does every card of [Home]. *)
Theorem cards_stay_in_range :
  (forall (item : Dashboard.ProgressItem) (now : Z),
      Num.between 0 100 (Dashboard.percent (Dashboard.ProgressBar item now)) /\
      exists d, Dashboard.daysLeft (Dashboard.ProgressBar item now) = of_Z d
                /\ 0 <= d) /\
  (forall (LocalTZA : Z -> bool -> Z) (now : Z),
      Forall (fun shown =>
                Num.between 0 100 (Dashboard.percent (snd shown)) /\
                exists d, Dashboard.daysLeft (snd shown) = of_Z d /\ 0 <= d)
             (Dashboard.Home LocalTZA now)).
Proof.
  assert (H : forall item now,
             Num.between 0 100
               (Dashboard.percent (Dashboard.ProgressBar item now)) /\
             exists d, Dashboard.daysLeft (Dashboard.ProgressBar item now)
                       = of_Z d /\ 0 <= d).
  { intros item now. rewrite ProgressBar_normalized. cbv zeta.
    cbn [Dashboard.percent Dashboard.daysLeft].
    destruct (normalizeRange_bounds (Dashboard.start item)
                                    (Dashboard.end_ item)) as [-> ->].
    split.
    - apply calculateProgress_between. lia.
    - eexists. split; [reflexivity | lia]. }
  split; [exact H|].
  intros LocalTZA now. unfold Dashboard.Home. apply Forall_forall.
  intros shown Hin. apply in_map_iff in Hin.
  destruct Hin as (item & <- & _). cbn [snd]. apply H.
Qed.

(** X5.  The days left on a card are the periods of 24 hours, rounded up,
    from [now] to the later of the two dates of the entry: 0 exactly from
    that date on, and never more at a later instant. *)
Theorem card_days_left (item : Dashboard.ProgressItem) (now : Z) :
  let last := Z.max (Dashboard.start item) (Dashboard.end_ item) in
  exists d,
    Dashboard.daysLeft (Dashboard.ProgressBar item now) = of_Z d /\
    (d = 0 <-> last <= now) /\
    (now < last -> (d - 1) * msPerDay < last - now <= d * msPerDay) /\
    (forall later, now <= later ->
       exists d', Dashboard.daysLeft (Dashboard.ProgressBar item later)
                  = of_Z d' /\ d' <= d).
Proof.
  intros last.
  assert (F : forall t, Dashboard.daysLeft (Dashboard.ProgressBar item t)
                        = of_Z (Z.max 0 (Spec.ceilDiv (last - t) msPerDay))).
  { intros t. rewrite ProgressBar_normalized. cbv zeta.
    cbn [Dashboard.daysLeft].
    destruct (normalizeRange_bounds (Dashboard.start item)
                                    (Dashboard.end_ item)) as [_ ->].
    reflexivity. }
  assert (Hd : 0 < msPerDay) by reflexivity.
  eexists. split; [apply F|].
  pose proof (ceilDiv_least (last - now) msPerDay 0 Hd) as L0.
  pose proof (ceilDiv_least (last - now) msPerDay
                (Spec.ceilDiv (last - now) msPerDay) Hd) as L1.
  pose proof (ceilDiv_least (last - now) msPerDay
                (Spec.ceilDiv (last - now) msPerDay - 1) Hd) as L2.
  split; [|split].
  - lia.
  - intros Hlt. lia.
  - intros later Hl. eexists. split; [apply F|].
    pose proof (ceilDiv_least (last - later) msPerDay
                  (Spec.ceilDiv (last - now) msPerDay) Hd) as L3.
    lia.
Qed.

Lemma card_days_left_witness :
  exists d,
    Dashboard.daysLeft
      (Dashboard.ProgressBar
         {| Dashboard.id := "high-school";
            Dashboard.title := "High school progress";
            Dashboard.start := 1693872000000;
            Dashboard.end_ := 1813881600000;
            Dashboard.accent := "var(--accent-mint)" |} 1813881599999)
    = of_Z d /\
    (d - 1) * msPerDay < 1813881600000 - 1813881599999 <= d * msPerDay.
Proof.
  destruct (card_days_left
              {| Dashboard.id := "high-school";
                 Dashboard.title := "High school progress";
                 Dashboard.start := 1693872000000;
                 Dashboard.end_ := 1813881600000;
                 Dashboard.accent := "var(--accent-mint)" |} 1813881599999)
    as (d & Hd & _ & Hb & _).
  exists d. split; [exact Hd|]. apply Hb. reflexivity.
Defined.

(** ** The time left, again *)

Lemma ceilDiv_nested (a b c : Z) :
  0 < b -> 0 < c ->
  Spec.ceilDiv (Spec.ceilDiv a b) c = Spec.ceilDiv a (b * c).
Proof.
  intros Hb Hc. unfold Spec.ceilDiv. rewrite Z.opp_involutive.
  rewrite Z.div_div by lia. reflexivity.
Qed.

Lemma ceilDiv_mono (a a' b : Z) :
  0 < b -> a <= a' -> Spec.ceilDiv a b <= Spec.ceilDiv a' b.
Proof.
  intros Hb H. apply ceilDiv_least; [exact Hb|].
  pose proof (proj1 (ceilDiv_least a' b (Spec.ceilDiv a' b) Hb)
                    (Z.le_refl _)). lia.
Qed.

Section Countdown.

Variable LocalTZA : Z -> bool -> Z.

(** The length of a unit below the day, in milliseconds. *)
Let unitLength (unit : Share.Unit) : Z :=
  match unit with
  | Share.hours => msPerHour
  | _ => msPerSecond
  end.

Lemma calculateTimeLeft_ceil (end_ now : Date) (unit : Share.Unit) :
  unit <> Share.days ->
  Share.calculateTimeLeft LocalTZA end_ unit now
  = of_Z (Z.max 0 (Spec.ceilDiv (end_ - now) (unitLength unit))).
Proof.
  destruct unit; intros H; [congruence | |].
  - apply calculateTimeLeft_hours.
  - apply calculateTimeLeft_seconds.
Qed.

Lemma unitLength_pos (unit : Share.Unit) : 0 < unitLength unit.
Proof. destruct unit; reflexivity. Qed.

(** X6.  In hours and in seconds the time left is 0 exactly when [now] has
    reached the end, and it is never more at a later instant. *)
Theorem countdown_runs_down (end_ now : Date) (unit : Share.Unit) :
  unit <> Share.days ->
  exists z,
    Share.calculateTimeLeft LocalTZA end_ unit now = of_Z z /\
    (z = 0 <-> end_ <= now) /\
    (forall later, now <= later ->
       exists z', Share.calculateTimeLeft LocalTZA end_ unit later = of_Z z'
                  /\ z' <= z).
Proof.
  intros Hu. pose proof (unitLength_pos unit) as Hp.
  eexists. split; [apply calculateTimeLeft_ceil; exact Hu|].
  pose proof (ceilDiv_least (end_ - now) (unitLength unit) 0 Hp) as L0.
  split.
  - lia.
  - intros later Hl. eexists.
    split; [apply calculateTimeLeft_ceil; exact Hu|].
    pose proof (ceilDiv_mono (end_ - later) (end_ - now) (unitLength unit) Hp).
    lia.
Qed.

(** X7.  The hours left are the seconds left, divided by 3600 and rounded
    up. *)
Theorem hours_are_seconds_rounded_up (end_ now : Date) :
  exists s h,
    Share.calculateTimeLeft LocalTZA end_ Share.seconds now = of_Z s /\
    Share.calculateTimeLeft LocalTZA end_ Share.hours now = of_Z h /\
    h = Spec.ceilDiv s 3600 /\
    h <= s <= 3600 * h.
Proof.
  eexists _, _.
  split; [apply calculateTimeLeft_seconds|].
  split; [apply calculateTimeLeft_hours|].
  rewrite <- !ceilDiv_max_0 by reflexivity.
  set (ms := Z.max 0 (end_ - now)).
  assert (E : Spec.ceilDiv ms msPerHour
              = Spec.ceilDiv (Spec.ceilDiv ms msPerSecond) 3600)
    by (rewrite ceilDiv_nested by reflexivity; reflexivity).
  split; [exact E|]. rewrite E.
  set (s := Spec.ceilDiv ms msPerSecond).
  assert (Hs : 0 <= s).
  { assert (~ s <= -1); [|lia]. unfold s.
    rewrite ceilDiv_least by reflexivity. unfold ms, msPerSecond. lia. }
  pose proof (proj1 (ceilDiv_least s 3600 (Spec.ceilDiv s 3600) eq_refl)
                    (Z.le_refl _)).
  pose proof (proj2 (ceilDiv_least s 3600 s eq_refl)). lia.
Qed.

(** X8.  In days the time left can be 0 while time remains: when [now] is
    on the local day of the end, before it, the days left are 0 and the
    hours left at least 1. *)
Theorem last_day_shows_zero_days (end_ now : Date) :
  99 < getFullYear LocalTZA end_ -> 99 < getFullYear LocalTZA now ->
  Day (LocalTime LocalTZA end_) = Day (LocalTime LocalTZA now) ->
  now < end_ ->
  Share.calculateTimeLeft LocalTZA end_ Share.days now = of_Z 0 /\
  exists h,
    Share.calculateTimeLeft LocalTZA end_ Share.hours now = of_Z h /\ 1 <= h.
Proof.
  intros He Hn Hd Hlt. split.
  - cbn [Share.calculateTimeLeft].
    rewrite calculateDateDiffInDays_calendar by assumption.
    unfold Spec.calendarDaysLeft. rewrite Hd, Z.sub_diag. reflexivity.
  - eexists. split; [apply calculateTimeLeft_hours|].
    pose proof (ceilDiv_pos (end_ - now) msPerHour eq_refl). lia.
Qed.

(** X9.  When the end is at midnight, local time, and the offset from UTC
    never changes, counting calendar days and rounding up periods of 24
    hours give the same: the days left of the share page are those the
    dashboard computes, and at least 1 while [now] is before the end. *)
Theorem midnight_end_days (end_ now : Date) :
  Spec.constantZone LocalTZA ->
  TimeWithinDay (LocalTime LocalTZA end_) = 0 ->
  99 < getFullYear LocalTZA end_ -> 99 < getFullYear LocalTZA now ->
  Share.calculateTimeLeft LocalTZA end_ Share.days now
  = of_Z (Z.max 0 (Spec.ceilDiv (end_ - now) msPerDay)) /\
  (forall item,
      Z.max (Dashboard.start item) (Dashboard.end_ item) = end_ ->
      Share.calculateTimeLeft LocalTZA end_ Share.days now
      = Dashboard.daysLeft (Dashboard.ProgressBar item now)) /\
  (now < end_ ->
   exists d,
     Share.calculateTimeLeft LocalTZA end_ Share.days now = of_Z d /\ 1 <= d).
Proof.
  intros Hc Hm He Hn.
  assert (F : Share.calculateTimeLeft LocalTZA end_ Share.days now
              = of_Z (Z.max 0 (Spec.ceilDiv (end_ - now) msPerDay))).
  { cbn [Share.calculateTimeLeft].
    rewrite calculateDateDiffInDays_calendar by assumption.
    f_equal. unfold Spec.calendarDaysLeft.
    unfold TimeWithinDay, LocalTime in *.
    rewrite (Hc end_ true) in *. rewrite (Hc now true).
    set (off := LocalTZA 0 true) in *. clearbody off.
    unfold Spec.ceilDiv, Day, msPerDay in *. f_equal. euclid. }
  split; [exact F|]. split.
  - intros item Hi. rewrite F, ProgressBar_normalized. cbv zeta.
    cbn [Dashboard.daysLeft].
    destruct (normalizeRange_bounds (Dashboard.start item)
                                    (Dashboard.end_ item)) as [_ ->].
    rewrite Hi. reflexivity.
  - intros Hlt. eexists. split; [exact F|].
    pose proof (ceilDiv_pos (end_ - now) msPerDay eq_refl). lia.
Qed.

End Countdown.

Lemma countdown_runs_down_witness :
  exists z,
    Share.calculateTimeLeft utcZone 1782259200000 Share.seconds
                            1782259199001 = of_Z z /\
    (z = 0 <-> 1782259200000 <= 1782259199001).
Proof.
  assert (Hu : Share.seconds <> Share.days) by discriminate.
  destruct (countdown_runs_down utcZone 1782259200000 1782259199001
              Share.seconds Hu) as (z & Hz & Hi & _).
  exists z. split; assumption.
Defined.

Lemma last_day_shows_zero_days_witness :
  let end_ := new_Date easternZone 2026 1 2 11 45 in
  let now := new_Date easternZone 2026 1 2 8 0 in
  Share.calculateTimeLeft easternZone end_ Share.days now = of_Z 0 /\
  exists h,
    Share.calculateTimeLeft easternZone end_ Share.hours now = of_Z h
    /\ 1 <= h.
Proof.
  intros end_ now.
  apply (last_day_shows_zero_days easternZone end_ now); reflexivity.
Defined.

Lemma midnight_end_days_witness :
  let zone := fixedZone (- (5 * msPerHour)) in
  let end_ := new_Date3 zone 2027 5 25 in
  exists d,
    Share.calculateTimeLeft zone end_ Share.days 1767354300000 = of_Z d
    /\ 1 <= d.
Proof.
  intros zone end_.
  refine (proj2 (proj2 (midnight_end_days zone end_ 1767354300000
                          (fixedZone_constant _) _ _ _)) _); reflexivity.
Defined.

(** ** The semester at the cutoff *)

Section Semester.

Variable LocalTZA : Z -> bool -> Z.

(** X10.  From the start of term to the end of term, the range that
    [resolveRange] returns for the semester contains [now]: the two parts
    leave no gap, and the percentage is computed without clamping. *)
Theorem semester_range_contains_now (now : Z) :
  new_Date3 LocalTZA 2025 8 2 <= now ->
  now < new_Date LocalTZA 2026 5 24 0 0 ->
  exists s e,
    Share.resolveRange (Share.get (Share.items LocalTZA) "semester") now
    = {| Share.start := Some s; Share.end_ := Some e |} /\
    s <= now < e /\
    Dashboard.clamp now s e = now.
Proof.
  intros Hs He.
  destruct (Z.lt_ge_cases now (new_Date LocalTZA 2026 1 2 11 45)) as [L | L].
  - eexists _, _. split; [apply semester_before_cutoff; exact L|].
    unfold Dashboard.clamp. lia.
  - eexists _, _. split; [apply semester_from_cutoff; exact L|].
    unfold Dashboard.clamp. lia.
Qed.

Hypothesis sane : Spec.saneZone LocalTZA.

(** X11.  At the cutoff the semester of the share page starts again: a
    millisecond before it the page shows 100 and one second left, at the
    cutoff it shows 0 and the seconds of the whole second part. *)
Theorem semester_restarts_at_cutoff :
  let cutoff := new_Date LocalTZA 2026 1 2 11 45 in
  let termEnd := new_Date LocalTZA 2026 5 24 0 0 in
  (exists page,
      Share.SharePage LocalTZA "semester" "seconds"
                      (cutoff - 1) (cutoff - 1) (cutoff - 1)
      = Share.Returned page /\
      Share.p_percent page = Fin 100 /\
      Share.p_timeLeft page = of_Z 1) /\
  (exists page,
      Share.SharePage LocalTZA "semester" "seconds" cutoff cutoff cutoff
      = Share.Returned page /\
      Share.p_percent page = Fin 0 /\
      Share.p_timeLeft page
      = of_Z (Spec.ceilDiv (termEnd - cutoff) msPerSecond) /\
      Num.le (of_Z 12000000) (Share.p_timeLeft page)).
Proof.
  intros cutoff termEnd.
  pose proof (new_Date_near LocalTZA sane 2025 8 2 0 0) as N1.
  pose proof (new_Date_near LocalTZA sane 2026 1 2 11 45) as N2.
  pose proof (new_Date_near LocalTZA sane 2026 5 24 0 0) as N3.
  cbv zeta in N1, N2, N3.
  change (Spec.civil (fullYear 2025) 8 2 0 0) with 1756771200000 in N1.
  change (Spec.civil (fullYear 2026) 1 2 11 45) with 1770032700000 in N2.
  change (Spec.civil (fullYear 2026) 5 24 0 0) with 1782259200000 in N3.
  change msPerDay with 86400000 in N1, N2, N3.
  fold cutoff in N2. fold termEnd in N3.
  assert (Hu : Share.asUnit "seconds" = Some Share.seconds) by reflexivity.
  assert (Ht : Share.truthy (Share.get (Share.items LocalTZA) "semester")
               = true) by reflexivity.
  split.
  - assert (L : cutoff - 1 < cutoff) by lia.
    pose proof (semester_before_cutoff LocalTZA (cutoff - 1) L) as Hr.
    destruct (entry_points_proceed LocalTZA "semester" "seconds" Share.seconds
                _ _ (cutoff - 1) (cutoff - 1) (cutoff - 1) Ht Hu Hr)
      as (_ & Hp).
    eexists. split; [exact Hp|].
    cbn [Share.p_percent Share.p_timeLeft]. split.
    + apply calculateProgress_full; unfold new_Date3; fold cutoff; lia.
    + rewrite calculateTimeLeft_seconds. fold cutoff. f_equal.
      replace (cutoff - (cutoff - 1)) with 1 by lia. reflexivity.
  - assert (L : cutoff <= cutoff) by lia.
    pose proof (semester_from_cutoff LocalTZA cutoff L) as Hr.
    destruct (entry_points_proceed LocalTZA "semester" "seconds" Share.seconds
                _ _ cutoff cutoff cutoff Ht Hu Hr) as (_ & Hp).
    eexists. split; [exact Hp|].
    cbn [Share.p_percent Share.p_timeLeft].
    fold cutoff. fold termEnd.
    assert (Hc : 12000000 <= Spec.ceilDiv (termEnd - cutoff) msPerSecond).
    { assert (~ Spec.ceilDiv (termEnd - cutoff) msPerSecond <= 11999999);
        [|lia].
      rewrite ceilDiv_least by reflexivity. unfold msPerSecond. lia. }
    split; [|split].
    + apply calculateProgress_none; lia.
    + rewrite calculateTimeLeft_seconds. f_equal. lia.
    + rewrite calculateTimeLeft_seconds. cbn [Num.le of_Z].
      rewrite <- Zle_Qle. lia.
Qed.

End Semester.

Lemma semester_range_contains_now_witness :
  exists s e,
    Share.resolveRange (Share.get (Share.items utcZone) "semester")
                       1767354300000
    = {| Share.start := Some s; Share.end_ := Some e |} /\
    s <= 1767354300000 < e /\
    Dashboard.clamp 1767354300000 s e = 1767354300000.
Proof.
  apply (semester_range_contains_now utcZone 1767354300000).
  - vm_compute. discriminate.
  - reflexivity.
Defined.

Lemma semester_restarts_at_cutoff_witness :
  exists page,
    Share.SharePage easternZone "semester" "seconds"
                    (new_Date easternZone 2026 1 2 11 45)
                    (new_Date easternZone 2026 1 2 11 45)
                    (new_Date easternZone 2026 1 2 11 45)
    = Share.Returned page /\
    Share.p_percent page = Fin 0.
Proof.
  destruct (semester_restarts_at_cutoff easternZone easternZone_sane)
    as (_ & page & Hp & H0 & _).
  exists page. split; assumption.
Defined.

(** ** The ranges of the registries *)

Section Shown.

Variable LocalTZA : Z -> bool -> Z.
Hypothesis sane : Spec.saneZone LocalTZA.

(** X20.  Every range of the two registries is shorter than 2^41
    milliseconds, so that at every instant each target of the share page
    and each card of the dashboard shows the elapsed part of its range, the
    normalized one for a card, rounded to one decimal place. *)
Theorem registry_percent_is_rounded (now : Z) :
  (forall target : string,
      In target (map fst (Share.items LocalTZA)) ->
      exists s e,
        Share.resolveRange (Share.get (Share.items LocalTZA) target) now
        = {| Share.start := Some s; Share.end_ := Some e |} /\
        s < e /\ e - s <= 2 ^ 41 /\
        Spec.roundedToTenth (100 * Spec.elapsedRatio s e now)
                            (Share.calculateProgress s e now)) /\
  (forall item : Dashboard.ProgressItem,
      In item (Dashboard.items LocalTZA) ->
      let n := Dashboard.normalizeRange (Dashboard.start item)
                                        (Dashboard.end_ item) in
      Dashboard.r_start n < Dashboard.r_end n /\
      Dashboard.r_end n - Dashboard.r_start n <= 2 ^ 41 /\
      Spec.roundedToTenth
        (100 * Spec.elapsedRatio (Dashboard.r_start n) (Dashboard.r_end n) now)
        (Dashboard.percent (Dashboard.ProgressBar item now))).
Proof.
  pose proof (new_Date_near LocalTZA sane 2025 8 2 0 0) as N1.
  pose proof (new_Date_near LocalTZA sane 2026 1 2 11 45) as N2.
  pose proof (new_Date_near LocalTZA sane 2026 5 24 0 0) as N3.
  pose proof (new_Date_near LocalTZA sane 2023 8 5 0 0) as N4.
  pose proof (new_Date_near LocalTZA sane 2027 5 25 0 0) as N5.
  pose proof (new_Date_near LocalTZA sane 2026 1 2 0 0) as N6.
  pose proof (new_Date_near LocalTZA sane 2025 5 24 0 0) as N7.
  cbv zeta in N1, N2, N3, N4, N5, N6, N7.
  change (Spec.civil (fullYear 2025) 8 2 0 0) with 1756771200000 in N1.
  change (Spec.civil (fullYear 2026) 1 2 11 45) with 1770032700000 in N2.
  change (Spec.civil (fullYear 2026) 5 24 0 0) with 1782259200000 in N3.
  change (Spec.civil (fullYear 2023) 8 5 0 0) with 1693872000000 in N4.
  change (Spec.civil (fullYear 2027) 5 25 0 0) with 1813881600000 in N5.
  change (Spec.civil (fullYear 2026) 1 2 0 0) with 1769990400000 in N6.
  change (Spec.civil (fullYear 2025) 5 24 0 0) with 1750723200000 in N7.
  change msPerDay with 86400000 in N1, N2, N3, N4, N5, N6, N7.
  assert (P : 2 ^ 41 = 2199023255552) by reflexivity.
  assert (R : forall s e, s < e -> e - s <= 2 ^ 41 ->
              s < e /\ e - s <= 2 ^ 41 /\
              Spec.roundedToTenth (100 * Spec.elapsedRatio s e now)
                                  (Share.calculateProgress s e now)).
  { intros s e H1 H2. split; [exact H1|]. split; [exact H2|].
    apply calculateProgress_rounded; assumption. }
  split.
  - intros target Hin. rewrite registry_ids in Hin.
    destruct Hin as [E | [E | E]]; subst target.
    + destruct (Z.lt_ge_cases now (new_Date LocalTZA 2026 1 2 11 45))
        as [L | L].
      * eexists _, _. split; [apply semester_before_cutoff; exact L|].
        apply R; unfold new_Date3; lia.
      * eexists _, _. split; [apply semester_from_cutoff; exact L|].
        apply R; lia.
    + eexists _, _. split; [apply resolveRange_year|].
      apply R; unfold new_Date3; lia.
    + eexists _, _. split; [apply resolveRange_school|].
      apply R; unfold new_Date3; lia.
  - intros item Hin n. rewrite ProgressBar_normalized. fold n.
    cbn [Dashboard.percent].
    destruct (normalizeRange_bounds (Dashboard.start item)
                                    (Dashboard.end_ item)) as [Es Ee].
    fold n in Es, Ee. rewrite Es, Ee.
    destruct Hin as [E | [E | [E | []]]]; subst item;
      cbn [Dashboard.start Dashboard.end_]; apply R;
      unfold new_Date3; lia.
Qed.

End Shown.

Lemma registry_percent_is_rounded_witness :
  exists s e,
    Share.resolveRange (Share.get (Share.items easternZone) "year")
                       1767354300000
    = {| Share.start := Some s; Share.end_ := Some e |} /\
    Spec.roundedToTenth (100 * Spec.elapsedRatio s e 1767354300000)
                        (Share.calculateProgress s e 1767354300000).
Proof.
  destruct (proj1 (registry_percent_is_rounded easternZone easternZone_sane
                     1767354300000) "year"%string)
    as (s & e & Hr & _ & _ & Hp).
  - right. left. reflexivity.
  - exists s, e. split; assumption.
Defined.

(** ** The two entry points of the share page *)

Section EntryPoints.

Variable LocalTZA : Z -> bool -> Z.

Lemma asUnit_name (unit : string) (u : Share.Unit) :
  Share.asUnit unit = Some u -> Share.unitName u = unit.
Proof.
  unfold Share.asUnit.
  destruct (String.eqb_spec unit "days"); [intros [= <-]; subst; reflexivity|].
  destruct (String.eqb_spec unit "hours"); [intros [= <-]; subst; reflexivity|].
  destruct (String.eqb_spec unit "seconds");
    [intros [= <-]; subst; reflexivity|].
  discriminate.
Qed.

(** Every pair of a target and a unit is in one of three cases. *)
Lemma entry_points_cases (target unit : string) (t1 t2 t3 : Z) :
  ((exists m,
       Share.generateMetadata LocalTZA target unit t1 t2 = Share.Returned m /\
       Share.m_title m <> "Not Found"%string) /\
   (exists page,
       Share.SharePage LocalTZA target unit t1 t2 t3 = Share.Returned page))
  \/
  (Share.generateMetadata LocalTZA target unit t1 t2
   = Share.Thrown Share.TypeError /\
   Share.SharePage LocalTZA target unit t1 t2 t3
   = Share.Thrown Share.TypeError)
  \/
  (Share.generateMetadata LocalTZA target unit t1 t2
   = Share.Returned Spec.notFoundMetadata /\
   Share.SharePage LocalTZA target unit t1 t2 t3
   = Share.Thrown Share.NEXT_NOT_FOUND).
Proof.
  destruct (in_dec string_dec unit ["days"; "hours"; "seconds"]%string)
    as [Hu | Hu].
  - destruct (in_dec string_dec target (map fst (Share.items LocalTZA)))
      as [Hr | Hr].
    + left. apply valid_pair_found; assumption.
    + destruct (in_dec string_dec target Share.Object_prototype) as [Hp | Hp].
      * right. left. apply inherited_name_throws; assumption.
      * right. right. apply not_found_reported. left. split; assumption.
  - right. right. apply not_found_reported. right. exact Hu.
Qed.

(** X12.  Whatever the target, the unit and the clock, the two entry points
    end the same way: both report that the page does not exist, or both
    throw a [TypeError], or both return; and [generateMetadata] never
    throws the error of [notFound()]. *)
Theorem entry_points_agree (target unit : string) (t1 t2 t3 : Z) :
  let metadata := Share.generateMetadata LocalTZA target unit t1 t2 in
  let page := Share.SharePage LocalTZA target unit t1 t2 t3 in
  (metadata = Share.Returned Spec.notFoundMetadata
   <-> page = Share.Thrown Share.NEXT_NOT_FOUND) /\
  (metadata = Share.Thrown Share.TypeError
   <-> page = Share.Thrown Share.TypeError) /\
  ((exists m, metadata = Share.Returned m /\ m <> Spec.notFoundMetadata)
   <-> (exists p, page = Share.Returned p)) /\
  metadata <> Share.Thrown Share.NEXT_NOT_FOUND.
Proof.
  intros metadata page.
  destruct (entry_points_cases target unit t1 t2 t3)
    as [[(m & Hm & Ht) (p & Hp)] | [[Hm Hp] | [Hm Hp]]];
    fold metadata in Hm; fold page in Hp; rewrite Hm, Hp.
  - assert (Hn : m <> Spec.notFoundMetadata)
      by (intros ->; apply Ht; reflexivity).
    split; [split; intros E; [congruence | discriminate]|].
    split; [split; intros E; discriminate|].
    split; [|discriminate]. split.
    + intros _. exists p. reflexivity.
    + intros _. exists m. split; [reflexivity | exact Hn].
  - split; [split; intros E; discriminate|].
    split; [split; reflexivity|].
    split; [|discriminate]. split.
    + intros (m & E & _). discriminate.
    + intros (p & E). discriminate.
  - split; [split; reflexivity|].
    split; [split; intros E; discriminate|].
    split; [|discriminate]. split.
    + intros (m & E & Hn). congruence.
    + intros (p & E). discriminate.
Qed.

(** X13.  For a target of the registry and one of the three units, read at
    the same instants, the metadata repeats what the page shows: the title
    is the title of the page, the number it shows left and the unit as it
    is in the path; the three descriptions are one text; the two titles of
    the previews are the title of the page. *)
Theorem metadata_repeats_page (target unit : string) (t1 t2 t3 : Z) :
  In target (map fst (Share.items LocalTZA)) ->
  In unit ["days"; "hours"; "seconds"]%string ->
  exists m page,
    Share.generateMetadata LocalTZA target unit t1 t2 = Share.Returned m /\
    Share.SharePage LocalTZA target unit t1 t2 t3 = Share.Returned page /\
    Share.unitName (Share.p_unit page) = unit /\
    Share.m_title m
    = Share.template [ Share.p_title page; " - ";
                       toString (Share.p_timeLeft page); " "; unit;
                       " left" ]%string /\
    Share.m_description m
    = Some (Share.template [ toString (Share.p_timeLeft page); " "; unit;
                             " left until "; Share.p_title page;
                             " ends" ]%string) /\
    (exists og tw,
        Share.m_openGraph m = Some og /\ Share.m_twitter m = Some tw /\
        Some (Share.og_description og) = Share.m_description m /\
        Some (Share.tw_description tw) = Share.m_description m /\
        Share.og_title og = Share.p_title page /\
        Share.tw_title tw = Share.p_title page /\
        Share.og_type og = "website"%string /\
        Share.tw_card tw = "summary_large_image"%string).
Proof.
  intros Hin Hu. apply asUnit_includes in Hu.
  destruct (Share.asUnit unit) as [u|] eqn:Eu; [clear Hu | congruence].
  pose proof (asUnit_name unit u Eu) as Hname.
  destruct (resolveRange_defined LocalTZA target t1 Hin) as (s & e & Hr).
  assert (Ht : Share.truthy (Share.get (Share.items LocalTZA) target) = true).
  { pose proof (get_items LocalTZA target) as G.
    destruct (Share.get (Share.items LocalTZA) target); try reflexivity.
    destruct G as [_ G]. contradiction. }
  destruct (entry_points_proceed LocalTZA target unit u s e t1 t2 t3 Ht Eu Hr)
    as (_ & Hp).
  eexists _, _. split.
  { unfold Share.generateMetadata. rewrite Ht, Eu. cbv zeta. rewrite Hr.
    cbn [Share.end_ Share.asDate Share.bind]. reflexivity. }
  split; [exact Hp|].
  cbn [Share.p_unit Share.p_title Share.p_timeLeft Share.m_title
       Share.m_description Share.m_openGraph Share.m_twitter].
  rewrite Hname.
  split; [reflexivity|]. split; [reflexivity|]. split; [reflexivity|].
  eexists _, _. repeat split; reflexivity.
Qed.

End EntryPoints.

Lemma metadata_repeats_page_witness :
  exists m page,
    Share.generateMetadata utcZone "school" "hours"
                           1767354300000 1767354300000 = Share.Returned m /\
    Share.SharePage utcZone "school" "hours"
                    1767354300000 1767354300000 1767354300000
    = Share.Returned page /\
    Share.m_title m
    = Share.template [ Share.p_title page; " - ";
                       toString (Share.p_timeLeft page); " "; "hours";
                       " left" ]%string.
Proof.
  destruct (metadata_repeats_page utcZone "school" "hours"
              1767354300000 1767354300000 1767354300000)
    as (m & page & Hm & Hp & _ & Ht & _).
  - right. right. left. reflexivity.
  - right. left. reflexivity.
  - exists m, page. repeat split; assumption.
Defined.

(** ** The bar and the countdown together *)

(** X14.  When the countdown shows 0 the bar shows 100: on a card whose
    two dates differ, no days left means 100 percent; and for a range of
    the share page, no hours or seconds left at an instant means 100
    percent at that instant. *)
Theorem nothing_left_means_full :
  (forall (item : Dashboard.ProgressItem) (now : Z),
      Dashboard.start item <> Dashboard.end_ item ->
      Dashboard.daysLeft (Dashboard.ProgressBar item now) = of_Z 0 ->
      Dashboard.percent (Dashboard.ProgressBar item now) = Fin 100) /\
  (forall (LocalTZA : Z -> bool -> Z) (start end_ : Date)
          (unit : Share.Unit) (now : Z),
      start < end_ -> unit <> Share.days ->
      Share.calculateTimeLeft LocalTZA end_ unit now = of_Z 0 ->
      Share.calculateProgress start end_ now = Fin 100).
Proof.
  split.
  - intros item now Hne. rewrite ProgressBar_normalized. cbv zeta.
    cbn [Dashboard.daysLeft Dashboard.percent].
    destruct (normalizeRange_bounds (Dashboard.start item)
                                    (Dashboard.end_ item)) as [-> ->].
    intros H. apply of_Z_inj in H.
    assert (Hd : 0 < msPerDay) by reflexivity.
    pose proof (ceilDiv_least
                  (Z.max (Dashboard.start item) (Dashboard.end_ item) - now)
                  msPerDay 0 Hd) as L.
    apply calculateProgress_full; lia.
  - intros LocalTZA start end_ unit now Hlt Hu H.
    assert (Hle : end_ <= now).
    { destruct unit; [congruence | |].
      - rewrite calculateTimeLeft_hours in H. apply of_Z_inj in H.
        pose proof (ceilDiv_least (end_ - now) msPerHour 0 eq_refl). lia.
      - rewrite calculateTimeLeft_seconds in H. apply of_Z_inj in H.
        pose proof (ceilDiv_least (end_ - now) msPerSecond 0 eq_refl). lia. }
    apply calculateProgress_full; lia.
Qed.

Lemma nothing_left_means_full_witness :
  Share.calculateProgress 1756771200000 1782259200000 1782259200000 = Fin 100.
Proof.
  refine (proj2 nothing_left_means_full utcZone 1756771200000 1782259200000
            Share.seconds 1782259200000 _ _ _).
  - reflexivity.
  - discriminate.
  - reflexivity.
Defined.

(** ** The texts *)

Lemma append_empty_r (s : string) : String.append s EmptyString = s.
Proof. induction s as [|c s IH]; cbn; [reflexivity | rewrite IH; reflexivity]. Qed.

Lemma string_of_uint_no_comma (d : Decimal.uint) :
  Forall (fun c => Ascii.eqb c "," = false)
         (list_ascii_of_string (NilEmpty.string_of_uint d)).
Proof.
  induction d; cbn [NilEmpty.string_of_uint list_ascii_of_string];
    constructor; (reflexivity || assumption).
Qed.

(** The digits of a number that is not negative hold no comma. *)
Lemma digits_no_comma (z : Z) :
  0 <= z ->
  Forall (fun c => Ascii.eqb c "," = false)
         (list_ascii_of_string (digits_of_Z z)).
Proof.
  intros Hz. unfold digits_of_Z.
  assert (E : exists d, Z.to_int z = Decimal.Pos d).
  { destruct z as [|p|p]; [| |lia]; cbn; eexists; reflexivity. }
  destruct E as (d & ->). cbn [NilZero.string_of_int].
  unfold NilZero.string_of_uint. destruct d;
    try apply string_of_uint_no_comma.
  repeat constructor.
Qed.

Lemma filter_insertCommas (n : nat) (l : list ascii) :
  Forall (fun c => Ascii.eqb c "," = false) l ->
  filter (fun c => negb (Ascii.eqb c ",")) (Intl.insertCommas n l) = l.
Proof.
  intros H. revert n. induction H as [|c l Hc _ IH]; intros n.
  - reflexivity.
  - destruct n as [|n]; cbn [Intl.insertCommas filter].
    + change (Ascii.eqb "," ",") with true. cbn [negb].
      rewrite Hc. cbn [negb]. rewrite IH. reflexivity.
    + rewrite Hc. cbn [negb]. rewrite IH. reflexivity.
Qed.

Lemma withoutCommas_group (s : string) :
  Forall (fun c => Ascii.eqb c "," = false) (list_ascii_of_string s) ->
  Text.withoutCommas (Intl.group s) = s.
Proof.
  intros H. unfold Text.withoutCommas, Intl.group.
  rewrite list_ascii_of_string_of_list_ascii, filter_rev.
  rewrite filter_insertCommas by (apply Forall_rev; exact H).
  rewrite rev_involutive. apply string_of_list_ascii_of_string.
Qed.

Lemma insertCommas_length (n : nat) (l : list ascii) :
  (n <= 3)%nat ->
  List.length (Intl.insertCommas n l) = (List.length l + (List.length l + 2 - n) / 3)%nat.
Proof.
  revert n. induction l as [|c l IH]; intros n Hn.
  - cbn. destruct n as [|[|[|[|n]]]]; try reflexivity; lia.
  - destruct n as [|n]; cbn [Intl.insertCommas List.length].
    + rewrite IH by lia.
      replace (S (List.length l) + 2 - 0)%nat with (List.length l + 1 * 3)%nat by lia.
      rewrite Nat.div_add by lia.
      replace (List.length l + 2 - 2)%nat with (List.length l) by lia. lia.
    + rewrite IH by lia.
      replace (S (List.length l) + 2 - S n)%nat with (List.length l + 2 - n)%nat by lia.
      reflexivity.
Qed.

Lemma insertCommas_short (l : list ascii) :
  (List.length l <= 3)%nat -> Intl.insertCommas 3 l = l.
Proof.
  destruct l as [|a [|b [|c [|d l]]]]; cbn; intros H; try reflexivity; lia.
Qed.

Lemma group_short (s : string) :
  (String.length s <= 3)%nat -> Intl.group s = s.
Proof.
  intros H. unfold Intl.group.
  rewrite insertCommas_short.
  - rewrite rev_involutive. apply string_of_list_ascii_of_string.
  - rewrite length_rev.
    replace (List.length (list_ascii_of_string s)) with (String.length s);
      [exact H|].
    clear H. induction s; cbn; congruence.
Qed.

Lemma digits_below_1000 (z : Z) :
  0 <= z < 1000 -> (String.length (digits_of_Z z) <= 3)%nat.
Proof.
  intros Hz.
  assert (A : forallb (fun n => String.length (digits_of_Z (Z.of_nat n))
                                <=? 3)%nat (seq 0 1000) = true)
    by (vm_compute; reflexivity).
  rewrite forallb_forall in A.
  specialize (A (Z.to_nat z)). rewrite Z2Nat.id in A by lia.
  apply Nat.leb_le. apply A. apply in_seq. lia.
Qed.

Lemma Number_toLocaleString_whole (z : Z) :
  0 <= z ->
  Intl.Number_toLocaleString (of_Z z) = Intl.group (digits_of_Z z).
Proof.
  intros Hz. unfold Intl.Number_toLocaleString, of_Z.
  assert (E : Qfloor (Qabs (inject_Z z) * 1000 + (1 # 2)) = 1000 * z).
  { rewrite (Qfloor_comp _ ((2000 * z + 1) # 2)).
    - rewrite Qfloor_Qmake. symmetry.
      apply Z.div_unique with (r := 1); lia.
    - unfold Qabs, inject_Z. rewrite Z.abs_eq by exact Hz.
      unfold Qeq, Qplus, Qmult. cbn [Qnum Qden]. lia. }
  cbv zeta. rewrite E.
  replace (1000 * z / 1000) with z
    by (rewrite Z.mul_comm, Z.div_mul by lia; reflexivity).
  replace (1000 * z mod 1000) with 0
    by (rewrite Z.mul_comm, Z.mod_mul by lia; reflexivity).
  replace (Qle_bool 0 (inject_Z z)) with true
    by (symmetry; apply Qle_bool_iff; unfold Qle, inject_Z;
        cbn [Qnum Qden]; lia).
  cbn [Z.eqb String.concat String.append].
  apply append_empty_r.
Qed.

Lemma toString_whole (z : Z) : toString (of_Z z) = digits_of_Z z.
Proof.
  unfold toString, of_Z, inject_Z. cbn [Qnum Qden].
  rewrite Z.mod_1_r, Z.div_1_r. reflexivity.
Qed.

(** X15.  For a whole number that is not negative, [formatTimeLeft] prints
    its digits grouped by three from the right, a space and the unit:
    without the commas the number is the digits as the metadata prints
    them; below 1000 there is no comma; and there is one comma for every
    three digits after the first. *)
Theorem formatTimeLeft_groups_digits (z : Z) (unit : Share.Unit) :
  0 <= z ->
  let shown := Intl.Number_toLocaleString (of_Z z) in
  Share.formatTimeLeft (of_Z z) unit
  = Text.join3 shown " " (Share.unitName unit) /\
  Text.withoutCommas shown = toString (of_Z z) /\
  (z < 1000 -> shown = toString (of_Z z)) /\
  String.length shown
  = (String.length (toString (of_Z z))
     + (String.length (toString (of_Z z)) - 1) / 3)%nat.
Proof.
  intros Hz shown. unfold shown.
  rewrite Number_toLocaleString_whole, toString_whole by exact Hz.
  split; [|split; [|split]].
  - unfold Share.formatTimeLeft. cbv zeta.
    rewrite Number_toLocaleString_whole by exact Hz. reflexivity.
  - apply withoutCommas_group. apply digits_no_comma. exact Hz.
  - intros Hlt. apply group_short. apply digits_below_1000. lia.
  - unfold Intl.group.
    set (l := list_ascii_of_string (digits_of_Z z)).
    assert (Hl : String.length (digits_of_Z z) = List.length l).
    { unfold l. generalize (digits_of_Z z). intros s.
      induction s; cbn; congruence. }
    assert (Hs : forall m, String.length (string_of_list_ascii m) = List.length m)
      by (intros m; induction m; cbn; congruence).
    rewrite Hs, length_rev, insertCommas_length, length_rev by lia.
    rewrite Hl. f_equal. f_equal. lia.
Qed.

Lemma formatTimeLeft_groups_digits_witness :
  Share.formatTimeLeft (of_Z 46527300) Share.seconds
  = Text.join3 (Intl.Number_toLocaleString (of_Z 46527300)) " " "seconds" /\
  Text.withoutCommas (Intl.Number_toLocaleString (of_Z 46527300))
  = toString (of_Z 46527300).
Proof.
  assert (H : 0 <= 46527300) by discriminate.
  destruct (formatTimeLeft_groups_digits 46527300 Share.seconds H)
    as (H1 & H2 & _).
  split; assumption.
Defined.

(** A time of day on a valid date reads back as the year, the month and
    the day of that date. *)
Lemma fields_of_date (y m d tod : Z) :
  0 <= m <= 11 -> 1 <= d <= Text.daysInMonth y m -> 0 <= tod < msPerDay ->
  let t := MakeDate (MakeDay y m d) tod in
  YearFromTime t = y /\ MonthFromTime t = m /\ DateFromTime t = d.
Proof.
  intros Hm Hd Ht t.
  assert (Hday : Day t = MakeDay y m d)
    by (unfold t, Day, MakeDate, msPerDay in *; euclid).
  assert (Hmk : MakeDay y m d
                = DayFromYear y
                  + daysBeforeMonth (if leap y then 1 else 0) m + d - 1).
  { unfold MakeDay. replace (m / 12) with 0 by euclid.
    replace (m mod 12) with m by euclid. rewrite Z.add_0_r. reflexivity. }
  assert (Hcases : m = 0 \/ m = 1 \/ m = 2 \/ m = 3 \/ m = 4 \/ m = 5 \/
                   m = 6 \/ m = 7 \/ m = 8 \/ m = 9 \/ m = 10 \/ m = 11)
    by lia.
  assert (Hy : YearFromTime t = y).
  { unfold YearFromTime. rewrite Hday, Hmk. apply YearFromDay_unique.
    unfold DaysInYear. unfold Text.daysInMonth in Hd.
    destruct (leap y);
      repeat (destruct Hcases as [-> | Hcases]; [cbn in *; lia|]);
      subst m; cbn in *; lia. }
  assert (Hw : DayWithinYear t
               = daysBeforeMonth (InLeapYear t) m + d - 1).
  { unfold DayWithinYear, InLeapYear. rewrite Hy, Hday, Hmk. lia. }
  assert (Hl : InLeapYear t = if leap y then 1 else 0)
    by (unfold InLeapYear; rewrite Hy; reflexivity).
  split; [exact Hy|].
  assert (Hmonth : MonthFromTime t = m).
  { unfold MonthFromTime. rewrite Hw, Hl. unfold Text.daysInMonth in Hd.
    destruct (leap y);
      repeat (destruct Hcases as [-> | Hcases];
              [cbn [daysBeforeMonth] in *;
               repeat match goal with
                      | |- context [?a <? ?b] => destruct (Z.ltb_spec a b)
                      end; lia|]);
      subst m; cbn [daysBeforeMonth] in *;
      repeat match goal with
             | |- context [?a <? ?b] => destruct (Z.ltb_spec a b)
             end; lia. }
  split; [exact Hmonth|].
  unfold DateFromTime. rewrite Hmonth, Hw, Hl.
  destruct (leap y);
    repeat (destruct Hcases as [-> | Hcases]; [cbn [daysBeforeMonth]; lia|]);
    subst m; cbn [daysBeforeMonth]; lia.
Qed.

Section Dates.

Variable LocalTZA : Z -> bool -> Z.
Hypothesis constant : Spec.constantZone LocalTZA.

Lemma LocalTime_new_Date (y m d h mi : Z) :
  LocalTime LocalTZA (new_Date LocalTZA y m d h mi)
  = MakeDate (MakeDay (fullYear y) m d) (MakeTime h mi 0 0).
Proof.
  unfold LocalTime, new_Date, UTC.
  rewrite (constant _ true), (constant _ false). lia.
Qed.

(** X16.  Where the offset from UTC never changes, [formatDate] prints a
    date built by [new Date(year, month, date, hours, minutes)] with the
    month, the day and the year it was built from, on both pages, for
    every valid date from the year 100 on. *)
Theorem formatDate_reads_back (y m d h mi : Z) :
  99 < y -> 0 <= m <= 11 -> 1 <= d <= Text.daysInMonth y m ->
  0 <= h < 24 -> 0 <= mi < 60 ->
  let shown :=
    String.concat EmptyString
      [Intl.monthShort m; " "; digits_of_Z d; ", "; digits_of_Z y]%string in
  Share.formatDate LocalTZA (new_Date LocalTZA y m d h mi) = shown /\
  Dashboard.formatDate LocalTZA (new_Date LocalTZA y m d h mi) = shown.
Proof.
  intros Hy Hm Hd Hh Hmi shown.
  assert (Hf : fullYear y = y).
  { unfold fullYear. destruct (Z.leb_spec y 99); [lia|].
    rewrite andb_false_r. reflexivity. }
  assert (Ht : 0 <= MakeTime h mi 0 0 < msPerDay)
    by (unfold MakeTime, msPerHour, msPerMinute, msPerSecond, msPerDay; lia).
  destruct (fields_of_date y m d (MakeTime h mi 0 0) Hm Hd Ht)
    as (Fy & Fm & Fd).
  assert (E : Intl.DateTimeFormat_format LocalTZA
                (new_Date LocalTZA y m d h mi) = shown).
  { unfold Intl.DateTimeFormat_format, getMonth, getDate, getFullYear.
    rewrite LocalTime_new_Date, Hf, Fy, Fm, Fd.
    unfold Intl.yearOfEra. destruct (Z.leb_spec 1 y); [reflexivity | lia]. }
  split; exact E.
Qed.

End Dates.

Lemma formatDate_reads_back_witness :
  Share.formatDate (fixedZone (- (5 * msPerHour)))
    (new_Date (fixedZone (- (5 * msPerHour))) 2026 1 2 11 45)
  = "Feb 2, 2026"%string.
Proof.
  refine (proj1 (formatDate_reads_back (fixedZone (- (5 * msPerHour)))
                   (fixedZone_constant _) 2026 1 2 11 45 _ _ _ _ _));
    vm_compute; repeat split; discriminate.
Defined.

(** ** [clamp] *)

(** With [min <= max], [clamp] returns a value between the bounds,
    the value itself when it is between them already, and clamping twice
    is clamping once; with the bounds the other way round it returns
    [max] whatever the value. *)
Theorem clamp_keeps_bounds (value min max : Z) :
  (min <= max ->
   min <= Dashboard.clamp value min max <= max /\
   (min <= value <= max -> Dashboard.clamp value min max = value) /\
   Dashboard.clamp (Dashboard.clamp value min max) min max
   = Dashboard.clamp value min max) /\
  (max < min -> Dashboard.clamp value min max = max).
Proof. unfold Dashboard.clamp. lia. Qed.

Lemma clamp_keeps_bounds_witness :
  0 <= Dashboard.clamp (-5) 0 10 <= 10 /\ Dashboard.clamp 7 10 0 = 0.
Proof.
  destruct (clamp_keeps_bounds (-5) 0 10) as [H _].
  destruct (clamp_keeps_bounds 7 10 0) as [_ H'].
  split; [apply H | apply H']; vm_compute; (reflexivity || discriminate).
Defined.

(** ** Local time *)

Lemma new_Date_fixedZone (offset y m d h mi : Z) :
  new_Date (fixedZone offset) y m d h mi = new_Date utcZone y m d h mi - offset.
Proof. unfold new_Date, UTC, utcZone, fixedZone. lia. Qed.

Lemma calculateProgress_shift (start end_ now k : Z) :
  Share.calculateProgress (start - k) (end_ - k) now
  = Share.calculateProgress start end_ (now + k).
Proof.
  unfold Share.calculateProgress, getTime.
  replace (end_ - k - (start - k)) with (end_ - start) by lia.
  replace (now - (start - k)) with (now + k - start) by lia.
  reflexivity.
Qed.

Lemma calculateTimeLeft_shift (offset end_ now : Z) (unit : Share.Unit) :
  Share.calculateTimeLeft (fixedZone offset) (end_ - offset) unit now
  = Share.calculateTimeLeft utcZone end_ unit (now + offset).
Proof.
  unfold Share.calculateTimeLeft, Share.calculateDateDiffInDays,
    getFullYear, getMonth, getDate, LocalTime, getTime, utcZone, fixedZone.
  replace (end_ - offset + offset) with end_ by lia.
  replace (end_ - offset - now) with (end_ - (now + offset)) by lia.
  rewrite !Z.add_0_r. reflexivity.
Qed.

Lemma resolveRange_shift (offset : Z) (target : string) (now : Z) :
  In target (map fst (Share.items utcZone)) ->
  exists s e,
    Share.resolveRange (Share.get (Share.items utcZone) target) (now + offset)
    = {| Share.start := Some s; Share.end_ := Some e |} /\
    Share.resolveRange (Share.get (Share.items (fixedZone offset)) target) now
    = {| Share.start := Some (s - offset); Share.end_ := Some (e - offset) |}.
Proof.
  rewrite registry_ids. intros [E | [E | E]]; subst target.
  - rewrite !resolveRange_semester. unfold Share.semester_getRange, getTime.
    unfold new_Date3. rewrite !new_Date_fixedZone.
    set (cutoff := new_Date utcZone 2026 1 2 11 45).
    destruct (Z.geb_spec (now + offset) cutoff),
             (Z.geb_spec now (cutoff - offset));
      try lia; eexists _, _; split; reflexivity.
  - rewrite !resolveRange_year. unfold new_Date3.
    rewrite !new_Date_fixedZone. eexists _, _. split; reflexivity.
  - rewrite !resolveRange_school. unfold new_Date3.
    rewrite !new_Date_fixedZone. eexists _, _. split; reflexivity.
Qed.

Lemma ProgressBar_shift (item shifted : Dashboard.ProgressItem) (now k : Z) :
  Dashboard.start shifted = Dashboard.start item - k ->
  Dashboard.end_ shifted = Dashboard.end_ item - k ->
  Dashboard.ProgressBar shifted now = Dashboard.ProgressBar item (now + k).
Proof.
  intros Hs He. rewrite !ProgressBar_normalized. cbv zeta.
  destruct (normalizeRange_bounds (Dashboard.start item)
                                  (Dashboard.end_ item)) as [-> ->].
  destruct (normalizeRange_bounds (Dashboard.start shifted)
                                  (Dashboard.end_ shifted)) as [-> ->].
  rewrite Hs, He.
  replace (Z.min (Dashboard.start item - k) (Dashboard.end_ item - k))
    with (Z.min (Dashboard.start item) (Dashboard.end_ item) - k) by lia.
  replace (Z.max (Dashboard.start item - k) (Dashboard.end_ item - k))
    with (Z.max (Dashboard.start item) (Dashboard.end_ item) - k) by lia.
  rewrite calculateProgress_shift.
  replace (Z.max (Dashboard.start item) (Dashboard.end_ item) - k - now)
    with (Z.max (Dashboard.start item) (Dashboard.end_ item) - (now + k))
    by lia.
  reflexivity.
Qed.

(** X17.  The pages follow the local clock: in a zone at a fixed offset
    from UTC, at an instant [now], the share page shows for every target of
    the registry the percentage and the time left that it shows in UTC at
    [now + offset], and the dashboard shows the cards that it shows in UTC
    at [now + offset]. *)
Theorem pages_follow_local_clock (offset now : Z) :
  (forall target unit,
      In target (map fst (Share.items utcZone)) ->
      In unit ["days"; "hours"; "seconds"]%string ->
      exists here there,
        Share.SharePage (fixedZone offset) target unit now now now
        = Share.Returned here /\
        Share.SharePage utcZone target unit (now + offset) (now + offset)
                        (now + offset) = Share.Returned there /\
        Share.p_percent here = Share.p_percent there /\
        Share.p_timeLeft here = Share.p_timeLeft there /\
        Share.p_start here = Share.p_start there - offset /\
        Share.p_end here = Share.p_end there - offset) /\
  map snd (Dashboard.Home (fixedZone offset) now)
  = map snd (Dashboard.Home utcZone (now + offset)).
Proof.
  split.
  - intros target unit Hin Hu. apply asUnit_includes in Hu.
    destruct (Share.asUnit unit) as [u|] eqn:Eu; [clear Hu | congruence].
    destruct (resolveRange_shift offset target now Hin)
      as (s & e & Hthere & Hhere).
    assert (Ht : forall zone,
               Share.truthy (Share.get (Share.items zone) target) = true).
    { intros zone. pose proof (get_items zone target) as G.
      destruct (Share.get (Share.items zone) target); try reflexivity.
      destruct G as [_ G]. contradiction. }
    destruct (entry_points_proceed (fixedZone offset) target unit u _ _
                now now now (Ht _) Eu Hhere) as (_ & H1).
    destruct (entry_points_proceed utcZone target unit u _ _
                (now + offset) (now + offset) (now + offset) (Ht _) Eu Hthere)
      as (_ & H2).
    eexists _, _. split; [exact H1|]. split; [exact H2|].
    cbn [Share.p_percent Share.p_timeLeft Share.p_start Share.p_end].
    split; [apply calculateProgress_shift|].
    split; [apply calculateTimeLeft_shift|]. split; reflexivity.
  - unfold Dashboard.Home, Dashboard.items. cbn [map snd].
    unfold new_Date3. rewrite !new_Date_fixedZone.
    repeat (apply f_equal2; [apply ProgressBar_shift; reflexivity|]).
    reflexivity.
Qed.

Lemma pages_follow_local_clock_witness :
  exists here there,
    Share.SharePage (fixedZone (- (5 * msPerHour))) "semester" "days"
                    1767354300000 1767354300000 1767354300000
    = Share.Returned here /\
    Share.SharePage utcZone "semester" "days"
                    (1767354300000 + - (5 * msPerHour))
                    (1767354300000 + - (5 * msPerHour))
                    (1767354300000 + - (5 * msPerHour))
    = Share.Returned there /\
    Share.p_percent here = Share.p_percent there /\
    Share.p_timeLeft here = Share.p_timeLeft there.
Proof.
  destruct (proj1 (pages_follow_local_clock (- (5 * msPerHour))
                     1767354300000) "semester"%string "days"%string)
    as (here & there & H1 & H2 & H3 & H4 & _).
  - left. reflexivity.
  - left. reflexivity.
  - exists here, there. repeat split; assumption.
Defined.

(** ** One unit later *)

Lemma ceilDiv_step (a b : Z) :
  0 < b -> Spec.ceilDiv (a - b) b = Spec.ceilDiv a b - 1.
Proof.
  intros Hb. unfold Spec.ceilDiv.
  replace (- (a - b)) with (- a + 1 * b) by lia.
  rewrite Z.div_add by lia. lia.
Qed.

Section Steps.

Variable LocalTZA : Z -> bool -> Z.

Lemma calculateTimeLeft_days (end_ now : Date) :
  Share.calculateTimeLeft LocalTZA end_ Share.days now
  = Share.calculateDateDiffInDays LocalTZA end_ now.
Proof. reflexivity. Qed.

Lemma LocalTime_constant (Hc : Spec.constantZone LocalTZA) (t : Z) :
  LocalTime LocalTZA t = t + LocalTZA 0 true.
Proof. unfold LocalTime. rewrite (Hc t true). reflexivity. Qed.

Lemma Day_next (t offset : Z) :
  Day (t + msPerDay + offset) = Day (t + offset) + 1.
Proof. unfold Day, msPerDay. euclid. Qed.

(** X18.  One unit later the count is one less, until it is 0: in hours
    and in seconds in every zone; in days where the offset from UTC never
    changes, for dates from the year 100 on. *)
Theorem countdown_steps_by_one (end_ now : Date) (unit : Share.Unit) (z : Z) :
  (unit = Share.days ->
   Spec.constantZone LocalTZA /\
   99 < getFullYear LocalTZA end_ /\
   99 < getFullYear LocalTZA now /\
   99 < getFullYear LocalTZA (now + msPerDay)) ->
  Share.calculateTimeLeft LocalTZA end_ unit now = of_Z z ->
  Share.calculateTimeLeft LocalTZA end_ unit (now + Text.unitLength unit)
  = of_Z (Z.max 0 (z - 1)).
Proof.
  intros Hdays H. destruct unit.
  - destruct (Hdays eq_refl) as (Hc & He & Hn & Hn').
    rewrite calculateTimeLeft_days in H.
    rewrite calculateDateDiffInDays_calendar in H by assumption.
    apply of_Z_inj in H. subst z.
    rewrite calculateTimeLeft_days.
    change (Text.unitLength Share.days) with msPerDay.
    rewrite calculateDateDiffInDays_calendar by assumption.
    apply f_equal. unfold Spec.calendarDaysLeft.
    rewrite (LocalTime_constant Hc (now + msPerDay)),
      (LocalTime_constant Hc now).
    rewrite Day_next. lia.
  - rewrite calculateTimeLeft_hours in H. apply of_Z_inj in H. subst z.
    rewrite calculateTimeLeft_hours. apply f_equal.
    change (Text.unitLength Share.hours) with msPerHour.
    replace (end_ - (now + msPerHour)) with (end_ - now - msPerHour)
      by lia.
    rewrite ceilDiv_step by reflexivity. lia.
  - rewrite calculateTimeLeft_seconds in H. apply of_Z_inj in H. subst z.
    rewrite calculateTimeLeft_seconds. apply f_equal.
    change (Text.unitLength Share.seconds) with msPerSecond.
    replace (end_ - (now + msPerSecond)) with (end_ - now - msPerSecond)
      by lia.
    rewrite ceilDiv_step by reflexivity. lia.
Qed.

End Steps.

Lemma countdown_steps_by_one_witness :
  let zone := fixedZone (- (5 * msPerHour)) in
  let end_ := new_Date3 zone 2027 5 25 in
  Share.calculateTimeLeft zone end_ Share.days (1767354300000 + msPerDay)
  = of_Z (Z.max 0 (539 - 1)).
Proof.
  intros zone end_.
  apply (countdown_steps_by_one zone end_ 1767354300000 Share.days 539).
  - intros _. split; [apply fixedZone_constant|]. repeat split.
  - reflexivity.
Defined.

(** ** The time left on doubles *)

Section Doubles.

Variable LocalTZA : Z -> bool -> Z.

Lemma sub_day_left_on_doubles (end_ now : Date) :
  end_ - now < 2 ^ 53 ->
  Share.calculateTimeLeft LocalTZA end_ Share.hours now
  = Math_ceil (fdiv (of_Z (Z.max 0 (end_ - now))) (of_Z (1000 * 60 * 60))) /\
  Share.calculateTimeLeft LocalTZA end_ Share.seconds now
  = Math_ceil (fdiv (of_Z (Z.max 0 (end_ - now))) (of_Z 1000)).
Proof.
  intros H. split.
  - unfold Share.calculateTimeLeft, getTime. symmetry.
    apply Math_ceil_fdiv;
      [lia | vm_compute; split; [reflexivity | discriminate]].
  - unfold Share.calculateTimeLeft, getTime. symmetry.
    apply Math_ceil_fdiv;
      [lia | vm_compute; split; [reflexivity | discriminate]].
Qed.

Lemma card_days_left_on_doubles (item : Dashboard.ProgressItem) (now : Z) :
  let last := Z.max (Dashboard.start item) (Dashboard.end_ item) in
  last - now < 2 ^ 53 ->
  Dashboard.daysLeft (Dashboard.ProgressBar item now)
  = Math_max (of_Z 0)
      (Math_ceil (fdiv (of_Z (last - now)) (of_Z (1000 * 60 * 60 * 24)))).
Proof.
  intros last H. unfold Dashboard.ProgressBar. cbn [Dashboard.daysLeft].
  unfold getTime.
  destruct (normalizeRange_bounds (Dashboard.start item)
                                  (Dashboard.end_ item)) as [_ ->].
  fold last. symmetry.
  apply Math_max_ceil_fdiv;
    [exact H | vm_compute; split; [reflexivity | discriminate]].
Qed.

Lemma days_left_on_doubles (end_ now : Date) :
  let endUtc :=
    Date_UTC (getFullYear LocalTZA end_) (getMonth LocalTZA end_)
             (getDate LocalTZA end_) in
  let nowUtc :=
    Date_UTC (getFullYear LocalTZA now) (getMonth LocalTZA now)
             (getDate LocalTZA now) in
  endUtc - nowUtc < 2 ^ 53 ->
  Share.calculateDateDiffInDays LocalTZA end_ now
  = Math_max (of_Z 0)
      (Math_round (fdiv (of_Z (endUtc - nowUtc)) (of_Z Share.MS_PER_DAY))).
Proof.
  intros endUtc nowUtc H. unfold Share.calculateDateDiffInDays.
  fold endUtc nowUtc.
  assert (E : exists d, endUtc - nowUtc = d * Share.MS_PER_DAY).
  { unfold endUtc, nowUtc. rewrite !Date_UTC_whole.
    rewrite <- Z.mul_sub_distr_r. eexists. reflexivity. }
  destruct E as (d & E). rewrite E in *. symmetry.
  apply Math_max_round_fdiv; [|reflexivity].
  change Share.MS_PER_DAY with 86400000 in H. lia.
Qed.

(** X19.  The time left is the number that the code computes on doubles:
    with each quotient rounded to the nearest double before [Math.ceil] or
    [Math.round], as the machine does, the hours, the seconds and the days
    of the share page and the days of a card are the same, as long as less
    than 2^53 milliseconds are left. *)
Theorem time_left_on_doubles
    (end_ now : Date) (item : Dashboard.ProgressItem) :
  let endUtc :=
    Date_UTC (getFullYear LocalTZA end_) (getMonth LocalTZA end_)
             (getDate LocalTZA end_) in
  let nowUtc :=
    Date_UTC (getFullYear LocalTZA now) (getMonth LocalTZA now)
             (getDate LocalTZA now) in
  let last := Z.max (Dashboard.start item) (Dashboard.end_ item) in
  (end_ - now < 2 ^ 53 ->
   Share.calculateTimeLeft LocalTZA end_ Share.hours now
   = Math_ceil (fdiv (of_Z (Z.max 0 (end_ - now)))
                     (of_Z (1000 * 60 * 60))) /\
   Share.calculateTimeLeft LocalTZA end_ Share.seconds now
   = Math_ceil (fdiv (of_Z (Z.max 0 (end_ - now))) (of_Z 1000))) /\
  (endUtc - nowUtc < 2 ^ 53 ->
   Share.calculateTimeLeft LocalTZA end_ Share.days now
   = Math_max (of_Z 0)
       (Math_round (fdiv (of_Z (endUtc - nowUtc))
                         (of_Z Share.MS_PER_DAY)))) /\
  (last - now < 2 ^ 53 ->
   Dashboard.daysLeft (Dashboard.ProgressBar item now)
   = Math_max (of_Z 0)
       (Math_ceil (fdiv (of_Z (last - now))
                        (of_Z (1000 * 60 * 60 * 24))))).
Proof.
  intros endUtc nowUtc last. split; [|split].
  - apply sub_day_left_on_doubles.
  - apply days_left_on_doubles.
  - apply card_days_left_on_doubles.
Qed.

End Doubles.

Lemma time_left_on_doubles_witness :
  Share.calculateTimeLeft utcZone 1782259200000 Share.seconds 1767354300000
  = Math_ceil (fdiv (of_Z (Z.max 0 (1782259200000 - 1767354300000)))
                    (of_Z 1000)).
Proof.
  refine (proj2 (proj1 (time_left_on_doubles utcZone 1782259200000
                          1767354300000
                          {| Dashboard.id := "high-school";
                             Dashboard.title := "High school progress";
                             Dashboard.start := 1693872000000;
                             Dashboard.end_ := 1813881600000;
                             Dashboard.accent := "var(--accent-mint)" |}) _)).
  vm_compute. reflexivity.
Defined.
